(** * KLV parser: a shallow embedding of [utils/KLVParser.ts]

    The TypeScript module exposes one object, [KLVParser], holding three
    literal lookup tables ([definitions], [currencyMapping], [mccMapping])
    and the operations [formatMCC], [formatCurrency], [parse], [validate],
    [export] and [build].  Each of them is embedded below as a Rocq
    function of the same name.

    Conventions of the embedding:
    - a JavaScript string is the list of its UTF-16 code units, so that
      [length] is the [.length] of the source and every index is a code
      unit index;
    - positions and lengths are natural numbers (the source only ever
      builds them from [0], [.length], [+ 5] and a two digit [parseInt]);
    - a property read [table[k]] on an object literal first looks at the
      literal's own properties and then at [Object.prototype], as the
      language does. *)

From Equations Require Import Equations.
From Stdlib Require Import String Ascii.
From Stdlib Require Import List Arith NArith Bool Lia.
Import ListNotations.

(** ** JavaScript strings *)

Module JS.

Definition jsstring : Type := list N.

(** [u "text"] is the JavaScript string with the same ASCII text. *)
Definition u (s : string) : jsstring :=
  map N_of_ascii (list_ascii_of_string s).

Fixpoint eqb (a b : jsstring) : bool :=
  match a, b with
  | [], [] => true
  | x :: a', y :: b' => N.eqb x y && eqb a' b'
  | _, _ => false
  end.

(** The class [\s] of an ECMAScript regular expression: WhiteSpace and
    LineTerminator code points, all of them in the basic plane. *)
Definition isWhitespace (c : N) : bool :=
  ((9 <=? c) && (c <=? 13) (* TAB LF VT FF CR *)
   || (c =? 32) || (c =? 160) || (c =? 5760)
   || (8192 <=? c) && (c <=? 8202)
   || (c =? 8232) || (c =? 8233) || (c =? 8239) || (c =? 8287)
   || (c =? 12288) || (c =? 65279))%N.

(** The class [\d]: the ten ASCII digits. *)
Definition isDigit (c : N) : bool := ((48 <=? c) && (c <=? 57))%N.

(** [s.replace(/\s/g, '')] *)
Definition stripWhitespace (s : jsstring) : jsstring :=
  filter (fun c => negb (isWhitespace c)) s.

(** [s.substring(a, b)]: both indices are clamped to the length and
    swapped when out of order. *)
Definition substring (s : jsstring) (a b : nat) : jsstring :=
  let a' := Nat.min a (length s) in
  let b' := Nat.min b (length s) in
  let lo := Nat.min a' b' in
  let hi := Nat.max a' b' in
  firstn (hi - lo) (skipn lo s).

(** [s.padStart(n, c)] for a one character filler [c]. *)
Definition padStart (s : jsstring) (n : nat) (c : N) : jsstring :=
  repeat c (n - length s) ++ s.

(** [s.padEnd(n)]: the filler defaults to a space. *)
Definition padEnd (s : jsstring) (n : nat) : jsstring :=
  s ++ repeat 32%N (n - length s).

(** [/^\d{n}$/.test(s)] *)
Definition testDigits (n : nat) (s : jsstring) : bool :=
  Nat.eqb (length s) n && forallb isDigit s.

Fixpoint digitsOfUint (d : Decimal.uint) : jsstring :=
  match d with
  | Decimal.Nil => []
  | Decimal.D0 d => 48%N :: digitsOfUint d
  | Decimal.D1 d => 49%N :: digitsOfUint d
  | Decimal.D2 d => 50%N :: digitsOfUint d
  | Decimal.D3 d => 51%N :: digitsOfUint d
  | Decimal.D4 d => 52%N :: digitsOfUint d
  | Decimal.D5 d => 53%N :: digitsOfUint d
  | Decimal.D6 d => 54%N :: digitsOfUint d
  | Decimal.D7 d => 55%N :: digitsOfUint d
  | Decimal.D8 d => 56%N :: digitsOfUint d
  | Decimal.D9 d => 57%N :: digitsOfUint d
  end.

(** [n.toString()] and [`${n}`] for a non-negative integer [n]. *)
Definition toString (n : nat) : jsstring := digitsOfUint (Nat.to_uint n).

Fixpoint digitsValue (acc : nat) (s : jsstring) : nat :=
  match s with
  | [] => acc
  | c :: s' =>
      if isDigit c then digitsValue (10 * acc + N.to_nat (c - 48)) s'
      else acc
  end.

(** [parseInt(s, 10)] on a string that starts with a digit or is not
    numeric at all: the value of the longest prefix of digits, [None]
    for [NaN].  (Leading blanks and signs, which [parseInt] also
    accepts, cannot occur where [parse] calls it: the argument has
    passed [/^\d{2}$/].) *)
Definition parseInt (s : jsstring) : option nat :=
  match s with
  | c :: _ => if isDigit c then Some (digitsValue 0 s) else None
  | [] => None
  end.

(** [parts.join(sep)] *)
Fixpoint join (sep : jsstring) (parts : list jsstring) : jsstring :=
  match parts with
  | [] => []
  | [p] => p
  | p :: rest => p ++ sep ++ join sep rest
  end.

(** *** Property reads on object literals

    An object literal inherits from [Object.prototype]; [o[k]] yields
    the own property [k] when there is one and otherwise whatever
    [Object.prototype] has under that name. *)
Inductive ProtoMember : Type :=
| P_constructor | P_hasOwnProperty | P_isPrototypeOf
| P_propertyIsEnumerable | P_toLocaleString | P_toString | P_valueOf
| P_defineGetter | P_defineSetter | P_lookupGetter | P_lookupSetter
| P_proto.

Definition protoMembers : list (jsstring * ProtoMember) :=
  [ (u "constructor", P_constructor);
    (u "hasOwnProperty", P_hasOwnProperty);
    (u "isPrototypeOf", P_isPrototypeOf);
    (u "propertyIsEnumerable", P_propertyIsEnumerable);
    (u "toLocaleString", P_toLocaleString);
    (u "toString", P_toString);
    (u "valueOf", P_valueOf);
    (u "__defineGetter__", P_defineGetter);
    (u "__defineSetter__", P_defineSetter);
    (u "__lookupGetter__", P_lookupGetter);
    (u "__lookupSetter__", P_lookupSetter);
    (u "__proto__", P_proto) ].

Fixpoint assoc {A : Type} (k : jsstring) (l : list (jsstring * A))
  : option A :=
  match l with
  | [] => None
  | (k', a) :: l' => if eqb k k' then Some a else assoc k l'
  end.

(** An object literal keeps one value for each name; a table whose keys
    are distinct is read the same way from either end. *)
Fixpoint distinct (keys : list jsstring) : bool :=
  match keys with
  | [] => true
  | k :: rest => negb (existsb (eqb k) rest) && distinct rest
  end.

(** The result of [table[k]]. *)
Inductive Property (A : Type) : Type :=
| Own (a : A)                  (* a property of the literal itself *)
| Inherited (m : ProtoMember)  (* a member of [Object.prototype]   *)
| Missing.                     (* [undefined]                      *)
Arguments Own {A} a.
Arguments Inherited {A} m.
Arguments Missing {A}.

Definition get {A : Type} (table : list (jsstring * A)) (k : jsstring)
  : Property A :=
  match assoc k table with
  | Some a => Own a
  | None =>
      match assoc k protoMembers with
      | Some m => Inherited m
      | None => Missing
      end
  end.

(** The values the parser can store in an entry or splice into a
    template literal. *)
Inductive Value : Type :=
| VUndefined
| VString (s : jsstring)
| VMember (m : ProtoMember).

(** The [name] property of a member of [Object.prototype]: every member
    but [__proto__] is a built-in function, named after itself except
    for [constructor], which is [Object]; [__proto__] reads as
    [Object.prototype], an object without a [name]. *)
Definition memberName (m : ProtoMember) : Value :=
  match m with
  | P_constructor => VString (u "Object")
  | P_hasOwnProperty => VString (u "hasOwnProperty")
  | P_isPrototypeOf => VString (u "isPrototypeOf")
  | P_propertyIsEnumerable => VString (u "propertyIsEnumerable")
  | P_toLocaleString => VString (u "toLocaleString")
  | P_toString => VString (u "toString")
  | P_valueOf => VString (u "valueOf")
  | P_defineGetter => VString (u "__defineGetter__")
  | P_defineSetter => VString (u "__defineSetter__")
  | P_lookupGetter => VString (u "__lookupGetter__")
  | P_lookupSetter => VString (u "__lookupSetter__")
  | P_proto => VUndefined
  end.

(** [`${v}`]: a string is itself, [undefined] prints as such, a
    built-in function prints its native source text (as Node renders
    it) and [Object.prototype] prints through [toString]. *)
Definition nativeSource (fname : Value) : jsstring :=
  match fname with
  | VString s => u "function " ++ s ++ u "() { [native code] }"
  | _ => u "[object Object]"
  end.

Definition toText (v : Value) : jsstring :=
  match v with
  | VUndefined => u "undefined"
  | VString s => s
  | VMember m => nativeSource (memberName m)
  end.

(** Truthiness, as [||] and [if] test it: of the values above only
    [undefined] and the empty string are falsy. *)
Definition truthy (v : Value) : bool :=
  match v with
  | VUndefined => false
  | VString [] => false
  | _ => true
  end.

End JS.

(** ** The lookup tables of [KLVParser] *)

Module KLVParser.

Import JS.

(** [definitions]: the field directory, key to field name. *)
Definition definitions : list (jsstring * jsstring) :=
  [ (u "002", u "Tracking Number");
    (u "004", u "Original Transaction Amount");
    (u "010", u "Conversion Rate");
    (u "026", u "Merchant Category Code");
    (u "032", u "Acquiring Institution Code");
    (u "037", u "Retrieval Reference Number");
    (u "041", u "Terminal ID");
    (u "042", u "Merchant Identifier");
    (u "043", u "Merchant Description");
    (u "044", u "Merchant Name");
    (u "045", u "Transaction Type Identifier");
    (u "048", u "Fraud Scoring Data");
    (u "049", u "Original Currency Code");
    (u "050", u "From Account");
    (u "052", u "Pin Block");
    (u "061", u "POS Data");
    (u "063", u "TraceID");
    (u "067", u "Extended Payment Code");
    (u "068", u "Is Recurring");
    (u "069", u "Message Reason Code");
    (u "085", u "Markup Amount");
    (u "108", u "Recipient Name");
    (u "109", u "Recipient Address");
    (u "110", u "Recipient Account Number");
    (u "111", u "Recipient Account Number Type");
    (u "250", u "Capture Mode");
    (u "251", u "Network");
    (u "252", u "Fee Type");
    (u "253", u "Last Four Digits PAN");
    (u "254", u "MDES Digitized PAN");
    (u "255", u "MDES Digitized Wallet ID");
    (u "256", u "Adjustment Reason");
    (u "257", u "Reference ID");
    (u "258", u "Markup Type");
    (u "259", u "Acquirer Country");
    (u "260", u "Mobile Number");
    (u "261", u "Transaction Fee Amount");
    (u "262", u "Transaction Subtype");
    (u "263", u "Card Issuer Data");
    (u "264", u "Tax");
    (u "265", u "Tax Amount Base");
    (u "266", u "Retailer Data");
    (u "267", u "IAC Tax Amount");
    (u "268", u "Number of Installments");
    (u "269", u "Customer ID");
    (u "270", u "Security Services Data");
    (u "271", u "On Behalf of Services");
    (u "272", u "Original Merchant Description");
    (u "273", u "Installments Financing Type");
    (u "274", u "Status");
    (u "275", u "Installments Grace Period");
    (u "276", u "Installments Type of Credit");
    (u "277", u "Payments Initiator");
    (u "278", u "Payment Initiator Subtype");
    (u "300", u "Additional Amount");
    (u "301", u "Second Additional Amount");
    (u "302", u "Cashback POS Currency Code");
    (u "303", u "Cashback POS Amount");
    (u "400", u "Sender Name");
    (u "401", u "Sender Address");
    (u "402", u "Sender City");
    (u "403", u "Sender State");
    (u "404", u "Sender Country");
    (u "405", u "Sanction Screening Score");
    (u "406", u "Business Application Identifier");
    (u "408", u "Special Condition Indicator");
    (u "409", u "Business Tax ID");
    (u "410", u "Individual Tax ID");
    (u "411", u "Source of Funds");
    (u "412", u "Sender Account Number");
    (u "413", u "Sender Account Number Type");
    (u "414", u "MVV");
    (u "415", u "Sender Reference Number");
    (u "416", u "Is AFD Transaction");
    (u "417", u "Acquirer Fee Amount");
    (u "418", u "Address Verification Result");
    (u "419", u "Postal Code / ZIP Code");
    (u "420", u "Street Address");
    (u "421", u "Sender Date of Birth");
    (u "422", u "OCT Activity Check Result");
    (u "423", u "Sender Postal Code");
    (u "424", u "Recipient City");
    (u "425", u "Recipient Country");
    (u "900", u "3D Secure OTP");
    (u "901", u "Digitization Activation");
    (u "902", u "Digitization Activation Method Type");
    (u "903", u "Digitization Activation Method Value");
    (u "904", u "Digitization Activation Expiry");
    (u "905", u "Digitization Final Tokenization Decision");
    (u "906", u "Device Name");
    (u "910", u "Digitized Device ID");
    (u "911", u "Digitized PAN Expiry");
    (u "912", u "Digitized FPAN Masked");
    (u "913", u "Token Unique Reference");
    (u "915", u "Digitized Token Requestor ID");
    (u "916", u "Visa Digitized PAN");
    (u "917", u "Visa Token Type");
    (u "920", u "POS Transaction Status");
    (u "921", u "POS Transaction Security");
    (u "922", u "POS Authorisation Lifecycle");
    (u "923", u "Digitization Event Type");
    (u "924", u "Digitization Event Reason Code");
    (u "925", u "Supports Partial Auth");
    (u "929", u "Digitization Path");
    (u "930", u "Wallet Recommendation");
    (u "931", u "Tokenization PAN Source");
    (u "932", u "Unique Transaction Reference");
    (u "933", u "Transaction Purpose");
    (u "934", u "3D Secure OTP RefCode");
    (u "999", u "Generic Key") ].

(** A value of [currencyMapping]. *)
Record Currency : Type := mkCurrency
  { currency_name : jsstring;
    currency_code : jsstring;
    currency_flag : jsstring }.

(** A flag glyph is a pair of regional indicator symbols, one for each
    letter of a two letter region code; a regional indicator lies outside
    the basic plane and takes two code units, the high surrogate [0xD83C]
    and a low surrogate counted from [0xDDE6] for the letter A. *)
Definition regionalIndicator (letter : N) : jsstring :=
  [55356; 56806 + (letter - 65)]%N.

Definition flagOf (region : string) : jsstring :=
  flat_map regionalIndicator (u region).

Definition cur (name code region : string) : Currency :=
  mkCurrency (u name) (u code) (flagOf region).

(** [currencyMapping]: ISO 4217 numeric code to currency. *)
Definition currencyMapping : list (jsstring * Currency) :=
  [ (u "840", cur "US Dollar" "USD" "US");
    (u "978", cur "Euro" "EUR" "EU");
    (u "826", cur "Pound Sterling" "GBP" "GB");
    (u "392", cur "Japanese Yen" "JPY" "JP");
    (u "756", cur "Swiss Franc" "CHF" "CH");
    (u "124", cur "Canadian Dollar" "CAD" "CA");
    (u "036", cur "Australian Dollar" "AUD" "AU");
    (u "554", cur "New Zealand Dollar" "NZD" "NZ");
    (u "156", cur "Chinese Yuan" "CNY" "CN");
    (u "356", cur "Indian Rupee" "INR" "IN");
    (u "752", cur "Swedish Krona" "SEK" "SE");
    (u "578", cur "Norwegian Krone" "NOK" "NO");
    (u "208", cur "Danish Krone" "DKK" "DK");
    (u "985", cur "Polish Zloty" "PLN" "PL");
    (u "203", cur "Czech Koruna" "CZK" "CZ");
    (u "348", cur "Hungarian Forint" "HUF" "HU");
    (u "946", cur "Romanian Leu" "RON" "RO");
    (u "975", cur "Bulgarian Lev" "BGN" "BG");
    (u "191", cur "Croatian Kuna" "HRK" "HR");
    (u "941", cur "Serbian Dinar" "RSD" "RS");
    (u "702", cur "Singapore Dollar" "SGD" "SG");
    (u "344", cur "Hong Kong Dollar" "HKD" "HK");
    (u "410", cur "Korean Won" "KRW" "KR");
    (u "764", cur "Thai Baht" "THB" "TH");
    (u "458", cur "Malaysian Ringgit" "MYR" "MY");
    (u "360", cur "Indonesian Rupiah" "IDR" "ID");
    (u "608", cur "Philippine Peso" "PHP" "PH");
    (u "704", cur "Vietnamese Dong" "VND" "VN");
    (u "096", cur "Brunei Dollar" "BND" "BN");
    (u "484", cur "Mexican Peso" "MXN" "MX");
    (u "986", cur "Brazilian Real" "BRL" "BR");
    (u "032", cur "Argentine Peso" "ARS" "AR");
    (u "152", cur "Chilean Peso" "CLP" "CL");
    (u "604", cur "Peruvian Sol" "PEN" "PE");
    (u "170", cur "Colombian Peso" "COP" "CO");
    (u "858", cur "Uruguayan Peso" "UYU" "UY");
    (u "600", cur "Paraguayan Guarani" "PYG" "PY");
    (u "068", cur "Bolivian Boliviano" "BOB" "BO");
    (u "218", cur "Ecuadorian Sucre" "ECS" "EC");
    (u "784", cur "UAE Dirham" "AED" "AE");
    (u "682", cur "Saudi Riyal" "SAR" "SA");
    (u "376", cur "Israeli New Shekel" "ILS" "IL");
    (u "818", cur "Egyptian Pound" "EGP" "EG");
    (u "710", cur "South African Rand" "ZAR" "ZA");
    (u "566", cur "Nigerian Naira" "NGN" "NG");
    (u "404", cur "Kenyan Shilling" "KES" "KE");
    (u "788", cur "Tunisian Dinar" "TND" "TN");
    (u "504", cur "Moroccan Dirham" "MAD" "MA");
    (u "012", cur "Algerian Dinar" "DZD" "DZ");
    (u "643", cur "Russian Ruble" "RUB" "RU");
    (u "980", cur "Ukrainian Hryvnia" "UAH" "UA");
    (u "398", cur "Kazakhstani Tenge" "KZT" "KZ");
    (u "051", cur "Armenian Dram" "AMD" "AM");
    (u "031", cur "Azerbaijani Manat" "AZN" "AZ");
    (u "934", cur "Turkmenistani Manat" "TMT" "TM");
    (u "860", cur "Uzbekistani Som" "UZS" "UZ");
    (u "417", cur "Kyrgyzstani Som" "KGS" "KG");
    (u "972", cur "Tajikistani Somoni" "TJS" "TJ");
    (u "949", cur "Turkish Lira" "TRY" "TR");
    (u "364", cur "Iranian Rial" "IRR" "IR");
    (u "368", cur "Iraqi Dinar" "IQD" "IQ");
    (u "414", cur "Kuwaiti Dinar" "KWD" "KW");
    (u "048", cur "Bahraini Dinar" "BHD" "BH");
    (u "634", cur "Qatari Rial" "QAR" "QA");
    (u "512", cur "Omani Rial" "OMR" "OM");
    (u "422", cur "Lebanese Pound" "LBP" "LB");
    (u "400", cur "Jordanian Dinar" "JOD" "JO") ].

(** [mccMapping]: merchant category code to description. *)
Definition mccMapping : list (jsstring * jsstring) :=
  [ (u "0742", u "Veterinary Services");
    (u "0763", u "Agricultural Cooperative");
    (u "0780", u "Horticultural and Landscaping Services");
    (u "1520", u "General Contractors - Residential and Commercial");
    (u "1711", u "Heating, Plumbing, Air Conditioning Contractors");
    (u "1731", u "Electrical Contractors");
    (u "1740", u "Masonry, Stonework, Tile Setting, Plastering, and Insulation Contractors");
    (u "1750", u "Carpentry Contractors");
    (u "1761", u "Roofing, Siding, and Sheet Metal Work Contractors");
    (u "1771", u "Concrete Work Contractors");
    (u "1799", u "Special Trade Contractors - Not Elsewhere Classified");
    (u "3000", u "United Airlines");
    (u "3001", u "American Airlines");
    (u "3002", u "Pan American");
    (u "3003", u "Alitalia");
    (u "3004", u "Delta Air Lines");
    (u "3005", u "British Airways");
    (u "3006", u "Japan Air Lines");
    (u "3007", u "Air France");
    (u "3008", u "Lufthansa");
    (u "3009", u "Air Canada");
    (u "3010", u "KLM Royal Dutch Airlines");
    (u "3011", u "Aeroflot Russian International Airlines");
    (u "3012", u "Qantas Airways");
    (u "3013", u "Alaskan Airlines");
    (u "3014", u "North West Airlines");
    (u "3015", u "Braniff International Airways");
    (u "3016", u "Southwest Airlines");
    (u "3017", u "Continental Airlines");
    (u "3018", u "Federal Express Corporation");
    (u "3019", u "US Airways");
    (u "3020", u "Air New Zealand");
    (u "3021", u "Singapore Airlines");
    (u "3022", u "SAS");
    (u "3023", u "Eastern Airlines");
    (u "3024", u "America West Airlines");
    (u "3025", u "Philippines Airlines");
    (u "3026", u "China Airlines");
    (u "3027", u "Air India");
    (u "3028", u "Korean Air Lines");
    (u "3029", u "Malaysian Airlines");
    (u "3030", u "Thai Airways International");
    (u "3031", u "Sabena Belgian World Airlines");
    (u "3032", u "United Parcel Service");
    (u "3033", u "Airborne Express");
    (u "3034", u "DHL Airways");
    (u "3035", u "Helicopter Airlines");
    (u "3036", u "Varig Brazilian Airlines");
    (u "3037", u "Icelandair");
    (u "3038", u "Air Malta");
    (u "3039", u "Egyptian Air");
    (u "3040", u "Ansett Airlines");
    (u "3041", u "Pakistan International Airlines");
    (u "3042", u "Virgin Atlantic Airways");
    (u "3043", u "Virgin America");
    (u "3044", u "Spirit Airlines");
    (u "3045", u "Air Berlin");
    (u "3046", u "Swiss International Air Lines");
    (u "3047", u "Turkish Airlines");
    (u "3048", u "Austrian Airlines Group");
    (u "3049", u "LOT Polish Airlines");
    (u "3050", u "Hainan Airlines");
    (u "3051", u "Air China");
    (u "3052", u "China Eastern Airlines");
    (u "3053", u "China Southern Airlines");
    (u "3054", u "Xiamen Airlines");
    (u "3055", u "ANA All Nippon Airways");
    (u "3056", u "Asiana Airlines");
    (u "3057", u "Cebu Pacific Air");
    (u "3058", u "IndiGo");
    (u "3059", u "SpiceJet");
    (u "3060", u "AirAsia");
    (u "3061", u "Jetstar Airways");
    (u "3062", u "Scoot");
    (u "3063", u "Emirates");
    (u "3064", u "Etihad Airways");
    (u "3065", u "Qatar Airways");
    (u "3066", u "Saudi Arabian Airlines");
    (u "3067", u "Royal Jordanian");
    (u "3068", u "EgyptAir");
    (u "3069", u "South African Airways");
    (u "3070", u "Kenya Airways");
    (u "3071", u "Ethiopian Airlines");
    (u "3072", u "Royal Air Maroc");
    (u "3073", u "Air Algerie");
    (u "3074", u "Tunisair");
    (u "3075", u "Libya Airlines");
    (u "3076", u "Nigeria Airways");
    (u "3077", u "Ghana Airways");
    (u "3078", u "Air Ivoire");
    (u "3079", u "TAAG Angola Airlines");
    (u "3080", u "Air Zimbabwe");
    (u "3081", u "Air Mauritius");
    (u "3082", u "Air Seychelles");
    (u "3083", u "Air Madagascar");
    (u "3084", u "Comair");
    (u "3085", u "Kulula");
    (u "3086", u "Mango Airlines");
    (u "3087", u "FlySafair");
    (u "3088", u "Air Botswana");
    (u "3089", u "Air Namibia");
    (u "3090", u "Precision Air");
    (u "3091", u "RwandAir");
    (u "3092", u "Uganda Airlines");
    (u "3093", u "Fly540");
    (u "3094", u "Jambojet");
    (u "3095", u "FastJet");
    (u "3096", u "Cabo Verde Airlines");
    (u "3097", u "TACV");
    (u "3098", u "Air Burkina");
    (u "3099", u "Air Mali");
    (u "3100", u "Corsair International");
    (u "3101", u "Air Austral");
    (u "3102", u "Air Caledonie International");
    (u "3103", u "Aircalin");
    (u "3104", u "Air Moana");
    (u "3105", u "Air Tahiti Nui");
    (u "3106", u "French Bee");
    (u "3107", u "Aigle Azur");
    (u "3108", u "XL Airways France");
    (u "3109", u "Transavia France");
    (u "3110", u "easyJet");
    (u "3111", u "Ryanair");
    (u "3112", u "Wizz Air");
    (u "3113", u "Norwegian Air");
    (u "3114", u "Pegasus Airlines");
    (u "3115", u "Sun Express");
    (u "3116", u "Onur Air");
    (u "3117", u "AtlasGlobal");
    (u "3118", u "Corendon Airlines");
    (u "3119", u "Flynas");
    (u "3120", u "flydubai");
    (u "3121", u "Air Arabia");
    (u "3122", u "Jazeera Airways");
    (u "3123", u "Kuwait Airways");
    (u "3124", u "Gulf Air");
    (u "3125", u "Oman Air");
    (u "3126", u "SalamAir");
    (u "3127", u "Nas Air");
    (u "3128", u "flynas");
    (u "3129", u "Middle East Airlines");
    (u "3130", u "Iraqi Airways");
    (u "3131", u "Iran Air");
    (u "3132", u "Mahan Air");
    (u "3133", u "Caspian Airlines");
    (u "3134", u "Kish Air");
    (u "3135", u "Taban Airlines");
    (u "3136", u "Qeshm Air");
    (u "3137", u "Iran Aseman Airlines");
    (u "3138", u "Zagros Airlines");
    (u "3139", u "Pouya Air");
    (u "3140", u "Varesh Airlines");
    (u "3141", u "Sepehran Airlines");
    (u "3142", u "Karun Airlines");
    (u "3143", u "Safiran Airlines");
    (u "3144", u "Kishair");
    (u "3145", u "Iran Air Tours");
    (u "3146", u "Meraj Airlines");
    (u "3147", u "Atrak Air");
    (u "3148", u "Aria Air");
    (u "3149", u "Blue Airlines");
    (u "3150", u "Fars Air Qeshm");
    (u "3151", u "Kaspian Airlines");
    (u "3152", u "Naft Airlines");
    (u "3153", u "Pars Air");
    (u "3154", u "Payam Air");
    (u "3155", u "Saha Airlines");
    (u "3156", u "Sama Airlines");
    (u "3157", u "Taftan Airlines");
    (u "3158", u "Tehran Air");
    (u "3159", u "Trigana Air");
    (u "3160", u "Wings Air");
    (u "3161", u "Indonesia AirAsia");
    (u "3162", u "Lion Air");
    (u "3163", u "Sriwijaya Air");
    (u "3164", u "Garuda Indonesia");
    (u "3165", u "Citilink");
    (u "3166", u "Batik Air");
    (u "3167", u "NAM Air");
    (u "3168", u "Super Air Jet");
    (u "3169", u "TransNusa");
    (u "3170", u "Kalstar Aviation");
    (u "3171", u "Xpress Air");
    (u "3172", u "Indonesia Air Transport");
    (u "3173", u "Cardig Air");
    (u "3174", u "Sky Aviation");
    (u "3175", u "Aviastar Mandiri");
    (u "3176", u "Tri MG Intra Asia Airlines");
    (u "3177", u "Express Air");
    (u "3178", u "My Indo Airlines");
    (u "3179", u "Mandala Airlines");
    (u "3180", u "Adam Air");
    (u "3181", u "Bouraq Indonesia Airlines");
    (u "3182", u "Jatayu Airlines");
    (u "3183", u "Dirgantara Air Service");
    (u "3184", u "Republic Express Airlines");
    (u "3185", u "Travel Express Aviation Service");
    (u "3186", u "Asian One Air");
    (u "3187", u "Premiair");
    (u "3188", u "Metro Batavia");
    (u "3189", u "Travira Air");
    (u "3190", u "Denim Air");
    (u "3191", u "Riau Airlines");
    (u "3192", u "Manunggal Air Service");
    (u "3193", u "Indonesia Air Asia X");
    (u "3194", u "Wings Abadi Airlines");
    (u "3195", u "Airfast Indonesia");
    (u "3196", u "Associated Mission Aviation");
    (u "3197", u "Pelita Air Service");
    (u "3198", u "Jhonlin Air Transport");
    (u "3199", u "Alfa Trans Dirgantara");
    (u "3200", u "Mimika Air");
    (u "3201", u "Susi Air");
    (u "3202", u "Eastindo");
    (u "3203", u "Nusantara Air Charter");
    (u "3204", u "Smart Aviation");
    (u "3205", u "Chartis Cargo");
    (u "3206", u "Indonesian Air Transport");
    (u "3207", u "Transwisata Prima Aviation");
    (u "3208", u "Explore Jet");
    (u "3209", u "Deraya Air Taxi");
    (u "3210", u "Komala Indonesia");
    (u "3211", u "Wings Air");
    (u "3212", u "Citilink Indonesia");
    (u "3213", u "Express Transportasi Antarbenua");
    (u "3214", u "Travel Express Aviation Services");
    (u "3215", u "Garuda Indonesia");
    (u "3216", u "Lion Airlines");
    (u "3217", u "Sriwijaya Air");
    (u "3218", u "Indonesia AirAsia");
    (u "3219", u "Batik Air");
    (u "3220", u "NAM Air");
    (u "3221", u "Super Air Jet");
    (u "3222", u "TransNusa");
    (u "3223", u "Kalstar Aviation");
    (u "3224", u "Xpress Air");
    (u "3225", u "Indonesia Air Transport");
    (u "3226", u "Cardig Air");
    (u "3227", u "Sky Aviation");
    (u "3228", u "Aviastar Mandiri");
    (u "3229", u "Tri MG Intra Asia Airlines");
    (u "3230", u "Express Air");
    (u "3231", u "My Indo Airlines");
    (u "3232", u "Mandala Airlines");
    (u "3233", u "Adam Air");
    (u "3234", u "Bouraq Indonesia Airlines");
    (u "3235", u "Jatayu Airlines");
    (u "3236", u "Dirgantara Air Service");
    (u "3237", u "Republic Express Airlines");
    (u "3238", u "Travel Express Aviation Service");
    (u "3239", u "Asian One Air");
    (u "3240", u "Premiair");
    (u "3241", u "Metro Batavia");
    (u "3242", u "Travira Air");
    (u "3243", u "Denim Air");
    (u "3244", u "Riau Airlines");
    (u "3245", u "Manunggal Air Service");
    (u "3246", u "Indonesia Air Asia X");
    (u "3247", u "Wings Abadi Airlines");
    (u "3248", u "Airfast Indonesia");
    (u "3249", u "Associated Mission Aviation");
    (u "3250", u "Pelita Air Service");
    (u "3251", u "Jhonlin Air Transport");
    (u "3252", u "Alfa Trans Dirgantara");
    (u "3253", u "Mimika Air");
    (u "3254", u "Susi Air");
    (u "3255", u "Eastindo");
    (u "3256", u "Nusantara Air Charter");
    (u "3257", u "Smart Aviation");
    (u "3258", u "Chartis Cargo");
    (u "3259", u "Indonesian Air Transport");
    (u "3260", u "Transwisata Prima Aviation");
    (u "3261", u "Explore Jet");
    (u "3262", u "Deraya Air Taxi");
    (u "3263", u "Komala Indonesia");
    (u "3264", u "Wings Air");
    (u "3265", u "Citilink Indonesia");
    (u "3266", u "Express Transportasi Antarbenua");
    (u "3267", u "Travel Express Aviation Services");
    (u "3268", u "Garuda Indonesia");
    (u "3269", u "Lion Airlines");
    (u "3270", u "Sriwijaya Air");
    (u "3271", u "Indonesia AirAsia");
    (u "3272", u "Batik Air");
    (u "3273", u "NAM Air");
    (u "3274", u "Super Air Jet");
    (u "3275", u "TransNusa");
    (u "3276", u "Kalstar Aviation");
    (u "3277", u "Xpress Air");
    (u "3278", u "Indonesia Air Transport");
    (u "3279", u "Cardig Air");
    (u "3280", u "Sky Aviation");
    (u "3281", u "Aviastar Mandiri");
    (u "3282", u "Tri MG Intra Asia Airlines");
    (u "3283", u "Express Air");
    (u "3284", u "My Indo Airlines");
    (u "3285", u "Mandala Airlines");
    (u "3286", u "Adam Air");
    (u "3287", u "Bouraq Indonesia Airlines");
    (u "3288", u "Jatayu Airlines");
    (u "3289", u "Dirgantara Air Service");
    (u "3290", u "Republic Express Airlines");
    (u "3291", u "Travel Express Aviation Service");
    (u "3292", u "Asian One Air");
    (u "3293", u "Premiair");
    (u "3294", u "Metro Batavia");
    (u "3295", u "Travira Air");
    (u "3296", u "Denim Air");
    (u "3297", u "Riau Airlines");
    (u "3298", u "Manunggal Air Service");
    (u "3299", u "Indonesia Air Asia X");
    (u "3351", u "Alamo Rent A Car");
    (u "3352", u "Avis");
    (u "3353", u "Budget Rent-A-Car");
    (u "3354", u "Discount Car Rental");
    (u "3355", u "Hertz");
    (u "3356", u "National Car Rental");
    (u "3357", u "Payless Car Rental");
    (u "3359", u "Enterprise Rent-A-Car");
    (u "3360", u "Dollar Rent A Car");
    (u "3361", u "Europcar");
    (u "3362", u "Sixt Rent A Car");
    (u "3363", u "Thrifty Car Rental");
    (u "3364", u "Zipcar");
    (u "3365", u "Turo");
    (u "3366", u "RelayRides");
    (u "3367", u "Car2Go");
    (u "3368", u "DriveNow");
    (u "3369", u "Maven");
    (u "3370", u "ReachNow");
    (u "3371", u "Book by Cadillac");
    (u "3372", u "Fair");
    (u "3373", u "Getaround");
    (u "3374", u "HyreCar");
    (u "3375", u "Spinlister");
    (u "3376", u "JustShareIt");
    (u "3377", u "Outdoorsy");
    (u "3378", u "RVshare");
    (u "3379", u "Cruise America");
    (u "3380", u "El Monte RV");
    (u "3381", u "Road Bear RV");
    (u "3382", u "Apollo RV");
    (u "3383", u "Mighty Campers");
    (u "3384", u "Jucy Rentals");
    (u "3385", u "Escape Campervans");
    (u "3386", u "Lost Campers");
    (u "3387", u "Wicked Campers");
    (u "3388", u "Britz");
    (u "3389", u "Maui");
    (u "3390", u "Cheapa Campa");
    (u "3391", u "Hippie Camper");
    (u "3392", u "Spaceships Rentals");
    (u "3393", u "Travellers Autobarn");
    (u "3394", u "Backpacker Campervans");
    (u "3395", u "Lucky Rentals");
    (u "3396", u "East Coast Car Rentals");
    (u "3397", u "Redspot Car Rentals");
    (u "3398", u "Alpha Car Hire");
    (u "3399", u "Ace Rental Cars");
    (u "3501", u "Holiday Inns, Holiday Inn Express");
    (u "3502", u "Best Western");
    (u "3503", u "Sheraton");
    (u "3504", u "Hilton");
    (u "3505", u "Forte Hotels");
    (u "3506", u "Golden Tulip Hotels");
    (u "3507", u "Friendship Inns");
    (u "3508", u "Quality Inns, Hotels, and Suites");
    (u "3509", u "Marriott");
    (u "3510", u "Days Inn");
    (u "3511", u "Arabella Hotels");
    (u "3512", u "Inter-Continental Hotels");
    (u "3513", u "Westin Hotels");
    (u "3514", u "Amerisuites");
    (u "3515", u "Rodeway Inn");
    (u "3516", u "La Quinta Motor Inns");
    (u "3517", u "Americana Hotels");
    (u "3518", u "Sol Hotels");
    (u "3519", u "Pullman International Hotels");
    (u "3520", u "Meridien Hotels");
    (u "3521", u "Cham pace Hotels");
    (u "3522", u "Granding Hotels International");
    (u "3523", u "Penta Hotels");
    (u "3524", u "Hungar Hotels");
    (u "3525", u "Husa Hotels");
    (u "3526", u "Accor Hotels");
    (u "3527", u "Balladins Hotels");
    (u "3528", u "Red Roof Inns");
    (u "3529", u "Imperial London Hotels");
    (u "3530", u "Embassy Suites");
    (u "3531", u "Penta Hotels");
    (u "3532", u "Dorint Hotels");
    (u "3533", u "Arcade Hotels");
    (u "3534", u "Loews Hotels");
    (u "3535", u "Forum Hotels");
    (u "3536", u "Hospitality International");
    (u "3537", u "Shangri-La International");
    (u "3538", u "Thistle Hotels");
    (u "3539", u "Summit International");
    (u "3540", u "Hyatt Hotels and Resorts");
    (u "3541", u "Sofitel Hotels");
    (u "3542", u "Novotel Hotels");
    (u "3543", u "Steigenberger Hotels");
    (u "3544", u "Econo Lodge");
    (u "3545", u "Choice Hotels");
    (u "3546", u "Clarion Hotels");
    (u "3547", u "Comfort Inn");
    (u "3548", u "Quality International");
    (u "3549", u "Hotel Ibis");
    (u "3550", u "Summit Hotels");
    (u "3551", u "Homewood Suites");
    (u "3552", u "Embassy Suites Hotels");
    (u "3553", u "Hampton Inn");
    (u "3554", u "Courtyard by Marriott");
    (u "3555", u "Compri Hotels");
    (u "3556", u "Stouffer Hotels");
    (u "3557", u "Hilton International");
    (u "3558", u "Concorde Hotels");
    (u "3559", u "Hotel Mercure");
    (u "3560", u "Pannonia Hotels");
    (u "3561", u "Hungar Hotels");
    (u "3562", u "IBUSZ Hotels");
    (u "3563", u "Reso Hotels");
    (u "3564", u "Hotel Volksturm");
    (u "3565", u "Hotel Kempinski");
    (u "3566", u "Hotel Okura");
    (u "3567", u "Royal Hotels");
    (u "3568", u "Four Seasons Hotels");
    (u "3569", u "Oberoi Hotels");
    (u "3570", u "Hotel Taipei");
    (u "3571", u "Relais Hotels");
    (u "3572", u "Hotel Breakers");
    (u "3573", u "Hotel Admiral");
    (u "3574", u "Best Eastern Hotels");
    (u "3575", u "Great Eastern Hotels");
    (u "3576", u "Tree Tops Hotels");
    (u "3577", u "Sandman Inns");
    (u "3578", u "venture Inns");
    (u "3579", u "Baymont Inns");
    (u "3580", u "Midway Motor Lodge");
    (u "3581", u "Red Carpet Inn");
    (u "3582", u "Imperial 400 Motor Inn");
    (u "3583", u "Canadian Pacific Hotels");
    (u "3584", u "Welcomed Group Hotels");
    (u "3585", u "Hotel Taj");
    (u "3586", u "Auberge des Gouverneurs");
    (u "3587", u "Hotel Gouverneur");
    (u "3588", u "Delta Hotels");
    (u "3589", u "Paradise stream Resort");
    (u "3590", u "Hotel la Sapinette");
    (u "3591", u "Hotel Quebec");
    (u "3592", u "Hotel Asia");
    (u "3593", u "Hotel Polo");
    (u "3594", u "Hotel Indreni");
    (u "3595", u "Mount Everest Hotel");
    (u "3596", u "Hotel Narayani");
    (u "3597", u "Hotel Taragaon");
    (u "3598", u "Hotel Malla");
    (u "3599", u "Hotel Himalaya");
    (u "4011", u "Railroads");
    (u "4111", u "Local/Suburban Commuter Passenger Transportation");
    (u "4112", u "Passenger Railway");
    (u "4119", u "Ambulance Services");
    (u "4121", u "Taxicabs and Limousines");
    (u "4131", u "Bus Lines");
    (u "4214", u "Motor Freight Carriers and Trucking - Local and Long Distance");
    (u "4215", u "Courier Services - Air and Ground");
    (u "4225", u "Public Warehousing and Storage - Farm Products, Refrigerated Goods and Household Goods");
    (u "4411", u "Steamship and Cruise Lines");
    (u "4457", u "Boat Rentals and Leases");
    (u "4468", u "Marinas, Service and Supplies");
    (u "4511", u "Airlines and Air Carriers - Not Elsewhere Classified");
    (u "4582", u "Airports, Flying Fields and Airport Terminals");
    (u "4722", u "Travel Agencies and Tour Operators");
    (u "4723", u "TUI Travel - Germany");
    (u "4724", u "Thomas Cook Travel - Germany");
    (u "4725", u "American Express Travel Service");
    (u "4726", u "Carlson Wagonlit Travel");
    (u "4727", u "Rosenbluth International");
    (u "4728", u "Welcome Group - India");
    (u "4729", u "Staff Tours - Hong Kong");
    (u "4730", u "Trafalgar Tours");
    (u "4731", u "Gray Line Bus Tours");
    (u "4732", u "Creative Tours");
    (u "4733", u "Cosmos/Globus Gateway");
    (u "4734", u "Tourico Holidays");
    (u "4735", u "Japan Creative Tours");
    (u "4736", u "Brendan Tours");
    (u "4737", u "Collette Tours");
    (u "4738", u "DER Travel Service");
    (u "4739", u "Yankee Holidays");
    (u "4740", u "Grand Circle Travel");
    (u "4741", u "Maupintour");
    (u "4742", u "CIE Tours International");
    (u "4743", u "Korean Air Holidays");
    (u "4744", u "Siesta Tours");
    (u "4745", u "Virgin Holidays");
    (u "4746", u "British Airways Holidays");
    (u "4747", u "American Airlines Vacations");
    (u "4748", u "Continental Airlines Vacations");
    (u "4749", u "Delta Vacations");
    (u "4750", u "United Airlines Vacations");
    (u "4751", u "Funway Holidays");
    (u "4752", u "Liberty Travel");
    (u "4753", u "Pleasant Holidays");
    (u "4754", u "Club Med Sales");
    (u "4755", u "GOGO Tours");
    (u "4756", u "Globus Gateway");
    (u "4757", u "Cosmos Tours");
    (u "4758", u "Insight Vacations");
    (u "4759", u "Trafalgar Tours");
    (u "4760", u "Contiki Holidays");
    (u "4761", u "Top Deck Tours");
    (u "4762", u "Busabout");
    (u "4763", u "Stray Travel");
    (u "4764", u "Kiwi Experience");
    (u "4765", u "Flying Kiwi");
    (u "4766", u "Wayward Bus");
    (u "4767", u "Haggis Adventures");
    (u "4768", u "MacBackpackers");
    (u "4769", u "Wild Rover Tours");
    (u "4770", u "Shamrocker Adventures");
    (u "4771", u "Paddywagon Tours");
    (u "4772", u "Irish Day Tours");
    (u "4773", u "Rabbie's Trail Burners");
    (u "4774", u "Timbuktu Travel");
    (u "4775", u "Heart of Scotland Tours");
    (u "4776", u "Jacobite Tours");
    (u "4777", u "Highland Explorer Tours");
    (u "4778", u "Citylink");
    (u "4779", u "National Express");
    (u "4780", u "Megabus");
    (u "4781", u "Coach USA");
    (u "4782", u "Peter Pan Bus Lines");
    (u "4783", u "Adirondack Trailways");
    (u "4784", u "Carolina Trailways");
    (u "4785", u "Indian Trails");
    (u "4786", u "Jefferson Lines");
    (u "4787", u "New Jersey Transit");
    (u "4788", u "Lakefront Lines");
    (u "4789", u "Vermont Transit");
    (u "4790", u "Concord Coach Lines");
    (u "4791", u "C&J Trailways");
    (u "4792", u "Bonanza Bus Lines");
    (u "4793", u "Plymouth & Brockton");
    (u "4794", u "Southeastern Stages");
    (u "4795", u "Tornado Bus");
    (u "4796", u "El Paso-Los Angeles Limousine Express");
    (u "4797", u "Crucero Express");
    (u "4798", u "Omnibus Mexicanos");
    (u "4799", u "Transportes del Norte");
    (u "4812", u "Telecommunication Equipment and Telephone Sales");
    (u "4814", u "Telecommunication Services");
    (u "4815", u "Monthly Summary Telephone Charges");
    (u "4816", u "Computer Network Services");
    (u "4821", u "Telegraph Services");
    (u "4829", u "Wires, Money Orders - Not Elsewhere Classified");
    (u "4900", u "Utilities - Electric, Gas, Water, and Sanitary");
    (u "5013", u "Motor Vehicle Supplies and New Parts");
    (u "5021", u "Office and Commercial Furniture");
    (u "5039", u "Construction Materials - Not Elsewhere Classified");
    (u "5044", u "Office, Photographic, Photocopy and Microfilm Equipment");
    (u "5045", u "Computers, Computer Peripheral Equipment - Not Elsewhere Classified");
    (u "5046", u "Commercial Equipment - Not Elsewhere Classified");
    (u "5047", u "Medical, Dental, Ophthalmic and Hospital Equipment and Supplies");
    (u "5051", u "Metal Service Centers and Offices");
    (u "5065", u "Electrical Parts and Equipment");
    (u "5072", u "Hardware, Equipment and Supplies");
    (u "5074", u "Plumbing and Heating Equipment and Supplies");
    (u "5085", u "Industrial Supplies - Not Elsewhere Classified");
    (u "5094", u "Precious Stones and Metals, Watches and Jewelry");
    (u "5099", u "Durable Goods - Not Elsewhere Classified");
    (u "5111", u "Stationery, Office Supplies, Printing and Writing Paper");
    (u "5122", u "Drugs, Drug Proprietaries and Druggist's Sundries");
    (u "5131", u "Piece Goods, Notions and Other Dry Goods");
    (u "5137", u "Uniforms, Commercial Clothing");
    (u "5139", u "Commercial Footwear");
    (u "5169", u "Chemicals and Allied Products - Not Elsewhere Classified");
    (u "5172", u "Petroleum and Petroleum Products");
    (u "5192", u "Books, Periodicals and Newspapers");
    (u "5193", u "Florists' Supplies, Nursery Stock and Flowers");
    (u "5198", u "Paints, Varnishes and Supplies");
    (u "5199", u "Non-durable Goods - Not Elsewhere Classified");
    (u "5200", u "Home Supply Warehouse Stores");
    (u "5211", u "Lumber and Building Materials Stores");
    (u "5231", u "Paint, Glass and Wallpaper Stores");
    (u "5251", u "Hardware Stores");
    (u "5261", u "Nurseries, Lawn and Garden Supply Stores");
    (u "5271", u "Mobile Home Dealers");
    (u "5300", u "Wholesale Clubs");
    (u "5309", u "Duty Free Stores");
    (u "5310", u "Discount Stores");
    (u "5311", u "Department Stores");
    (u "5331", u "Variety Stores");
    (u "5399", u "Miscellaneous General Merchandise");
    (u "5411", u "Grocery Stores, Supermarkets");
    (u "5422", u "Freezer and Locker Meat Provisioners");
    (u "5441", u "Candy, Nut and Confectionery Stores");
    (u "5451", u "Dairy Products Stores");
    (u "5462", u "Bakeries");
    (u "5499", u "Miscellaneous Food Stores - Convenience Stores and Specialty Markets");
    (u "5511", u "Car and Truck Dealers (New and Used) Sales, Service, Repairs Parts and Leasing");
    (u "5521", u "Car and Truck Dealers (Used Only) Sales, Service, Repairs Parts and Leasing");
    (u "5531", u "Auto and Home Supply Stores");
    (u "5532", u "Automotive Tire Stores");
    (u "5533", u "Automotive Parts and Accessories Stores");
    (u "5541", u "Service Stations (with or without ancillary services)");
    (u "5542", u "Automated Fuel Dispensers");
    (u "5551", u "Boat Dealers");
    (u "5561", u "Camper, Recreational and Utility Trailer Dealers");
    (u "5571", u "Motorcycle Shops and Dealers");
    (u "5592", u "Motor Homes Dealers");
    (u "5598", u "Snowmobile Dealers");
    (u "5599", u "Miscellaneous Automotive, Aircraft and Farm Equipment Dealers - Not Elsewhere Classified");
    (u "5611", u "Men's and Boys' Clothing and Accessory Stores");
    (u "5621", u "Women's Ready-to-Wear Stores");
    (u "5631", u "Women's Accessory and Specialty Shops");
    (u "5641", u "Children's and Infants' Wear Stores");
    (u "5651", u "Family Clothing Stores");
    (u "5655", u "Sports and Riding Apparel Stores");
    (u "5661", u "Shoe Stores");
    (u "5681", u "Furriers and Fur Shops");
    (u "5691", u "Men's and Women's Clothing Stores");
    (u "5697", u "Tailors, Alterations");
    (u "5698", u "Wig and Toupee Stores");
    (u "5699", u "Miscellaneous Apparel and Accessory Shops");
    (u "5712", u "Furniture, Home Furnishings and Equipment Stores and Manufacturers, Except Appliances");
    (u "5713", u "Floor Covering Stores");
    (u "5714", u "Drapery, Window Covering and Upholstery Stores");
    (u "5718", u "Fireplace, Fireplace Screens and Accessories Stores");
    (u "5719", u "Miscellaneous Home Furnishing Specialty Stores");
    (u "5722", u "Household Appliance Stores");
    (u "5732", u "Electronics Stores");
    (u "5733", u "Music Stores - Musical Instruments, Pianos and Sheet Music");
    (u "5734", u "Computer Software Stores");
    (u "5735", u "Record Stores");
    (u "5811", u "Caterers");
    (u "5812", u "Eating Places and Restaurants");
    (u "5813", u "Drinking Places (Alcoholic Beverages) - Bars, Taverns, Nightclubs, Cocktail Lounges and Discotheques");
    (u "5814", u "Fast Food Restaurants");
    (u "5912", u "Drug Stores and Pharmacies");
    (u "5921", u "Package Stores - Beer, Wine and Liquor");
    (u "5931", u "Used Merchandise and Secondhand Stores");
    (u "5932", u "Antique Shops");
    (u "5933", u "Pawn Shops");
    (u "5935", u "Wrecking and Salvage Yards");
    (u "5937", u "Antique Reproductions");
    (u "5940", u "Bicycle Shops");
    (u "5941", u "Sporting Goods Stores");
    (u "5942", u "Book Stores");
    (u "5943", u "Stationery Stores, Office and School Supply Stores");
    (u "5944", u "Jewelry Stores, Watches, Clocks and Silverware Stores");
    (u "5945", u "Toy and Hobby Shops");
    (u "5946", u "Camera and Photographic Supply Stores");
    (u "5947", u "Gift, Card, Novelty and Souvenir Shops");
    (u "5948", u "Luggage and Leather Goods Stores");
    (u "5949", u "Sewing, Needlework, Fabric and Piece Goods Stores");
    (u "5950", u "Glassware, Crystal Stores");
    (u "5960", u "Direct Marketing - Insurance Services");
    (u "5962", u "Direct Marketing - Travel Related Arrangement Services");
    (u "5963", u "Door-to-Door Sales");
    (u "5964", u "Direct Marketing - Catalog Merchant");
    (u "5965", u "Direct Marketing - Combination Catalog and Retail Merchant");
    (u "5966", u "Direct Marketing - Outbound Telemarketing Merchant");
    (u "5967", u "Direct Marketing - Inbound Telemarketing Merchant");
    (u "5968", u "Direct Marketing - Continuity/Subscription Merchants");
    (u "5969", u "Direct Marketing - Not Elsewhere Classified");
    (u "5970", u "Artist's Supply and Craft Shops");
    (u "5971", u "Art Dealers and Galleries");
    (u "5972", u "Stamp and Coin Stores");
    (u "5973", u "Religious Goods Stores");
    (u "5975", u "Hearing Aids Sales and Supplies");
    (u "5976", u "Orthopedic Goods - Prosthetic Devices");
    (u "5977", u "Cosmetics Stores");
    (u "5978", u "Typewriter Stores - Rental, Sales and Service");
    (u "5983", u "Fuel Dealers - Non Automotive - Coal, Fuel Oil, Liquefied Petroleum, Wood");
    (u "5992", u "Florists");
    (u "5993", u "Cigar Stores and Stands");
    (u "5994", u "News Dealers and Newsstands");
    (u "5995", u "Pet Shops, Pet Food and Supplies");
    (u "5996", u "Swimming Pools Sales");
    (u "5997", u "Electric Razor Stores");
    (u "5998", u "Tent and Awning Shops");
    (u "5999", u "Miscellaneous Specialty Retail");
    (u "7011", u "Hotels, Motels and Resorts");
    (u "7012", u "Timeshares");
    (u "7032", u "Sporting and Recreational Camps");
    (u "7033", u "Trailer Parks and Campgrounds");
    (u "7210", u "Laundry, Cleaning and Garment Services");
    (u "7211", u "Laundries");
    (u "7216", u "Dry Cleaners");
    (u "7217", u "Carpet and Upholstery Cleaning");
    (u "7221", u "Photographic Studios");
    (u "7230", u "Barber and Beauty Shops");
    (u "7251", u "Shoe Repair/Shoe Shine");
    (u "7261", u "Funeral Service and Crematories");
    (u "7273", u "Dating/Escort Services");
    (u "7276", u "Tax Preparation Services");
    (u "7277", u "Debt Counseling Services");
    (u "7278", u "Buying/Shopping Services");
    (u "7296", u "Clothing Rental");
    (u "7297", u "Massage Parlors");
    (u "7298", u "Health and Beauty Spas");
    (u "7299", u "Miscellaneous Personal Services - Not Elsewhere Classified");
    (u "7311", u "Advertising Services");
    (u "7321", u "Consumer Credit Reporting Agencies");
    (u "7322", u "Debt Collection Agencies");
    (u "7333", u "Commercial Photography, Art and Graphics");
    (u "7338", u "Quick Copy, Repro and Blueprint");
    (u "7339", u "Stenographic and Secretarial Support Services");
    (u "7342", u "Exterminating Services");
    (u "7349", u "Cleaning and Maintenance");
    (u "7361", u "Employment/Temp Agencies");
    (u "7372", u "Computer Programming");
    (u "7375", u "Information Retrieval Services");
    (u "7379", u "Computer Maintenance and Repair Services - Not Elsewhere Classified");
    (u "7392", u "Consulting, Public Relations and Management Services");
    (u "7393", u "Detective Agencies");
    (u "7394", u "Equipment Rental");
    (u "7395", u "Photo Developing");
    (u "7399", u "Business Services - Not Elsewhere Classified");
    (u "8011", u "Doctors");
    (u "8021", u "Dentists and Orthodontists");
    (u "8031", u "Osteopaths");
    (u "8041", u "Chiropractors");
    (u "8042", u "Optometrists, Ophthalmologist");
    (u "8043", u "Opticians, Eyeglasses and Contact Lenses");
    (u "8049", u "Podiatrists, Chiropodists");
    (u "8050", u "Nursing/Personal Care");
    (u "8062", u "Hospitals");
    (u "8071", u "Medical and Dental Labs");
    (u "8099", u "Medical Services");
    (u "8111", u "Legal Services and Attorneys");
    (u "8211", u "Elementary, Secondary Schools");
    (u "8220", u "Colleges, Universities");
    (u "8241", u "Correspondence Schools");
    (u "8244", u "Business and Secretarial Schools");
    (u "8249", u "Vocational/Trade Schools");
    (u "8299", u "Educational Services - Not Elsewhere Classified");
    (u "8351", u "Child Care Services");
    (u "8398", u "Charitable and Social Service Organizations - Fundraising");
    (u "8641", u "Civic, Social, Fraternal Associations");
    (u "8651", u "Political Organizations");
    (u "8661", u "Religious Organizations");
    (u "8675", u "Automobile Associations");
    (u "8699", u "Membership Organizations - Not Elsewhere Classified");
    (u "9211", u "Court Costs, Including Alimony and Child Support - Courts of Law");
    (u "9222", u "Fines - Government Administrative Entities");
    (u "9311", u "Tax Assessments - Government Administrative Entities");
    (u "9399", u "Government Services - Not Elsewhere Classified");
    (u "9401", u "Intra-Government Purchases - Government Only");
    (u "9402", u "Postal Services - Government Only");
    (u "9405", u "U.S. Federal Government Agencies or Departments") ].

(** ** The data model *)

Record CurrencyInfo : Type := mkCurrencyInfo
  { info_code : Value;
    info_name : Value;
    info_flag : Value }.

Record MccInfo : Type := mkMccInfo
  { mcc_code : jsstring;
    mcc_description : Value }.

Record KLVEntry : Type := mkEntry
  { key : jsstring;
    len : nat;
    value : jsstring;
    pos : nat;
    name : jsstring;
    formattedValue : option jsstring;
    currencyInfo : option CurrencyInfo;
    mccInfo : option MccInfo }.

Record KLVParseResult : Type := mkParseResult
  { results : list KLVEntry;
    errors : list jsstring }.

Record KLVValidationResult : Type := mkValidationResult
  { isValid : bool;
    entriesCount : nat;
    validationErrors : list jsstring;
    totalLength : nat }.

Record KLVBuildEntry : Type := mkBuildEntry
  { build_key : jsstring;
    build_value : jsstring }.

Inductive ExportFormat : Type := json | csv | table.

(** What [formatCurrency] and [formatMCC] return when they do not return
    [null]. *)
Record CurrencyFormat : Type := mkCurrencyFormat
  { currency_formattedValue : jsstring;
    currency_info : option CurrencyInfo }.

Record MccFormat : Type := mkMccFormat
  { mcc_formattedValue : jsstring;
    mcc_info : option MccInfo }.

(** ** The operations *)

(** The value a property read of a string table evaluates to. *)
Definition readString (p : Property jsstring) : Value :=
  match p with
  | Own s => VString s
  | Inherited m => VMember m
  | Missing => VUndefined
  end.

(** [formatMCC(value, key)] *)
Definition formatMCC (value key : jsstring) : option MccFormat :=
  if negb (eqb key (u "026")) then None
  else
    let paddedValue := padStart value 4 48%N in
    let mcc := readString (get mccMapping paddedValue) in
    if truthy mcc then
      Some {| mcc_formattedValue := paddedValue ++ u " - " ++ toText mcc;
              mcc_info := Some {| mcc_code := paddedValue;
                                  mcc_description := mcc |} |}
    else
      Some {| mcc_formattedValue := paddedValue ++ u " (Unknown MCC)";
              mcc_info := None |}.

(** [formatCurrency(value, key)].  The test [if (currency)] succeeds for
    whatever the property read returns but [undefined]: for a record of
    the table, whose three fields are then read, and for a member of
    [Object.prototype], which has a [name] only. *)
Definition formatCurrency (value key : jsstring) : option CurrencyFormat :=
  if negb (eqb key (u "049")) then None
  else
    let paddedValue := padStart value 3 48%N in
    let found (flag code name : Value) :=
      Some {| currency_formattedValue :=
                toText flag ++ u " " ++ toText code ++ u " - " ++ toText name;
              currency_info := Some {| info_code := code;
                                       info_name := name;
                                       info_flag := flag |} |} in
    match get currencyMapping paddedValue with
    | Own currency =>
        found (VString (currency_flag currency))
              (VString (currency_code currency))
              (VString (currency_name currency))
    | Inherited m => found VUndefined VUndefined (memberName m)
    | Missing =>
        Some {| currency_formattedValue :=
                  value ++ u " (Unknown Currency Code)";
                currency_info := None |}
    end.


(** The same expression where [parse] evaluates it: [key] has passed
    [/^\d{3}$/], no member of [Object.prototype] has such a name, and the
    read yields a string, the one stored in the entry (see
    [readName_digits] below). *)
Definition lookupName (key : jsstring) : jsstring :=
  match assoc key definitions with
  | Some ((_ :: _) as fieldName) => fieldName
  | _ => u "Unknown"
  end.

(** [entry.formattedValue = currencyFormat.formattedValue;
     entry.currencyInfo = currencyFormat.currencyInfo] *)
Definition setCurrency (entry : KLVEntry) (currencyFormat : CurrencyFormat)
  : KLVEntry :=
  {| key := key entry; len := len entry; value := value entry;
     pos := pos entry; name := name entry;
     formattedValue := Some (currency_formattedValue currencyFormat);
     currencyInfo := currency_info currencyFormat;
     mccInfo := mccInfo entry |}.

(** [entry.formattedValue = mccFormat.formattedValue;
     entry.mccInfo = mccFormat.mccInfo] *)
Definition setMcc (entry : KLVEntry) (mccFormat : MccFormat) : KLVEntry :=
  {| key := key entry; len := len entry; value := value entry;
     pos := pos entry; name := name entry;
     formattedValue := Some (mcc_formattedValue mccFormat);
     currencyInfo := currencyInfo entry;
     mccInfo := mcc_info mccFormat |}.

(** The entry [parse] pushes for the field at [pos]: the base entry,
    then the currency annotation, then the MCC annotation. *)
Definition makeEntry (key : jsstring) (len : nat) (value : jsstring)
  (pos : nat) : KLVEntry :=
  let entry := {| key := key; len := len; value := value; pos := pos;
                  name := lookupName key;
                  formattedValue := None;
                  currencyInfo := None;
                  mccInfo := None |} in
  let entry :=
    match formatCurrency value key with
    | Some currencyFormat => setCurrency entry currencyFormat
    | None => entry
    end in
  match formatMCC value key with
  | Some mccFormat => setMcc entry mccFormat
  | None => entry
  end.

(** The [while] loop of [parse]: [clean] is the stripped input, [pos] the
    cursor, [results] and [errors] the two arrays filled so far.  Every
    [break] returns the arrays as they stand.  The loop is recursive in
    the characters left after the cursor, which every iteration that goes
    on decreases by 5 + [len].  [parseInt] cannot answer [NaN] here, its
    argument having passed [/^\d{2}$/] (lemma [two_digits] below); the
    branch for it is never taken. *)
Equations? parseLoop (clean : jsstring) (pos : nat)
  (results : list KLVEntry) (errors : list jsstring)
  : KLVParseResult by wf (length clean - pos) lt :=
parseLoop clean pos results errors with lt_dec pos (length clean) => {
  | right _ := mkParseResult results errors;
  | left _ :=
      if length clean <? pos + 5 then
        mkParseResult results
          (errors ++ [u "Incomplete entry at position " ++ toString pos])
      else
        let key := substring clean pos (pos + 3) in
        let lenStr := substring clean (pos + 3) (pos + 5) in
        if negb (testDigits 3 key) || negb (testDigits 2 lenStr) then
          mkParseResult results
            (errors ++ [u "Invalid format at position " ++ toString pos])
        else
          match parseInt lenStr with
          | None => mkParseResult results errors
          | Some len =>
              let valEnd := pos + 5 + len in
              if length clean <? valEnd then
                mkParseResult results
                  (errors ++ [u "Incomplete value at position "
                                ++ toString (pos + 5)])
              else
                let value := substring clean (pos + 5) (pos + 5 + len) in
                parseLoop clean valEnd
                  (results ++ [makeEntry key len value pos]) errors
          end }.
Proof. lia. Qed.

(** [parse(klvString)] *)
Definition parse (klvString : jsstring) : KLVParseResult :=
  parseLoop (stripWhitespace klvString) 0 [] [].

(** [validate(klvString)] *)
Definition validate (klvString : jsstring) : KLVValidationResult :=
  let r := parse klvString in
  {| isValid := Nat.eqb (length (errors r)) 0;
     entriesCount := length (results r);
     validationErrors := errors r;
     totalLength := length (stripWhitespace klvString) |}.

(** [build(entries)]: a string is falsy exactly when it is empty. *)
Definition nonEmpty (s : jsstring) : bool :=
  match s with [] => false | _ => true end.

Definition buildOne (entry : KLVBuildEntry) : jsstring :=
  let key := padStart (build_key entry) 3 48%N in
  let length := padStart (toString (length (build_value entry))) 2 48%N in
  key ++ length ++ build_value entry.

Definition build (entries : list KLVBuildEntry) : jsstring :=
  join []
    (map buildOne
       (filter (fun entry => nonEmpty (build_key entry)
                             && nonEmpty (build_value entry)) entries)).

(** [export(results, format)].  [JSON.stringify(results, null, 2)] is the
    language's serializer; the embedding takes it as given. *)
Section Exporter.

Variable stringify : list KLVEntry -> jsstring.

Definition quote : jsstring := [34%N].
Definition newline : jsstring := [10%N].

(** [`"${r.key}","${r.name}","${r.len}","${r.value}","${r.pos}"`] *)
Definition csvRow (r : KLVEntry) : jsstring :=
  quote ++ key r ++ quote ++ u "," ++
  quote ++ name r ++ quote ++ u "," ++
  quote ++ toString (len r) ++ quote ++ u "," ++
  quote ++ value r ++ quote ++ u "," ++
  quote ++ toString (pos r) ++ quote.

(** [`${r.key.padEnd(5)} ${r.name.padEnd(30)} ${r.len.toString().padEnd(3)} ${r.value}`] *)
Definition tableRow (r : KLVEntry) : jsstring :=
  padEnd (key r) 5 ++ u " " ++ padEnd (name r) 30 ++ u " " ++
  padEnd (toString (len r)) 3 ++ u " " ++ value r.

Definition export (results : list KLVEntry) (format : ExportFormat)
  : jsstring :=
  match format with
  | json => stringify results
  | csv =>
      let headers := u "Key,Name,Length,Value,Position" ++ newline in
      let rows := join newline (map csvRow results) in
      headers ++ rows
  | table => join newline (map tableRow results)
  end.

End Exporter.

End KLVParser.

(** ** Vocabulary of the properties *)

Module Spec.

Import JS KLVParser.

(** The three messages of [parse], up to the position they end with. *)
Definition entryErr := u "Incomplete entry at position ".
Definition formatErr := u "Invalid format at position ".
Definition valueErr := u "Incomplete value at position ".

(** [Fields clean p fs q]: the entries [fs] are the fields that [parse]
    reads off [clean] from position [p] up to position [q]. *)
Inductive Fields (clean : jsstring) : nat -> list KLVEntry -> nat -> Prop :=
| Fields_nil (p : nat) : Fields clean p [] p
| Fields_cons (p n q : nat) (fs : list KLVEntry) :
    testDigits 3 (substring clean p (p + 3)) = true ->
    testDigits 2 (substring clean (p + 3) (p + 5)) = true ->
    parseInt (substring clean (p + 3) (p + 5)) = Some n ->
    p + 5 + n <= length clean ->
    Fields clean (p + 5 + n) fs q ->
    Fields clean p
      (makeEntry (substring clean p (p + 3)) n
         (substring clean (p + 5) (p + 5 + n)) p :: fs) q.

(** [Halt clean q es]: the loop stops at cursor [q] and reports [es]. *)
Inductive Halt (clean : jsstring) (q : nat) : list jsstring -> Prop :=
| Halt_end : length clean <= q -> Halt clean q []
| Halt_entry :
    q < length clean -> length clean < q + 5 ->
    Halt clean q [entryErr ++ toString q]
| Halt_format :
    q + 5 <= length clean ->
    testDigits 3 (substring clean q (q + 3)) = false \/
    testDigits 2 (substring clean (q + 3) (q + 5)) = false ->
    Halt clean q [formatErr ++ toString q]
| Halt_value (n : nat) :
    q + 5 <= length clean ->
    testDigits 3 (substring clean q (q + 3)) = true ->
    testDigits 2 (substring clean (q + 3) (q + 5)) = true ->
    parseInt (substring clean (q + 3) (q + 5)) = Some n ->
    length clean < q + 5 + n ->
    Halt clean q [valueErr ++ toString (q + 5)].

(** The size of a field in the buffer: three characters of key, two of
    length, and the value. *)
Definition fieldSpan (e : KLVEntry) : nat := 5 + len e.
(** The build entry of a parsed entry: its key and its value. *)
Definition toBuildEntry (e : KLVEntry) : KLVBuildEntry :=
  mkBuildEntry (key e) (value e).
(** [offsetsFrom p rs]: the first entry of [rs] is at offset [p] and each
    next one 5 + [len] characters after the one before. *)
Fixpoint offsetsFrom (p : nat) (rs : list KLVEntry) : Prop :=
  match rs with
  | [] => True
  | e :: rest => pos e = p /\ offsetsFrom (p + 5 + len e) rest
  end.

(** The (key, value) pairs compared by the round trip. *)
Definition keyValue (e : KLVEntry) : jsstring * jsstring := (key e, value e).
Definition givenKeyValue (b : KLVBuildEntry) : jsstring * jsstring :=
  (build_key b, build_value b).
Definition paddedKeyValue (b : KLVBuildEntry) : jsstring * jsstring :=
  (padStart (build_key b) 3 48%N, build_value b).
Definition blankFree (s : jsstring) : bool :=
  forallb (fun c => negb (isWhitespace c)) s.
Definition roundTripInput (b : KLVBuildEntry) : bool :=
  nonEmpty (build_key b) && (length (build_key b) <=? 3)
  && forallb isDigit (build_key b)
  && nonEmpty (build_value b) && (length (build_value b) <? 100).

(** The entries [parse] is to give back for [entries], the first of them
    at offset [off]. *)
Fixpoint expected (off : nat) (entries : list KLVBuildEntry)
  : list KLVEntry :=
  match entries with
  | [] => []
  | b :: rest =>
      makeEntry (padStart (build_key b) 3 48%N) (length (build_value b))
        (build_value b) off
      :: expected (off + 5 + length (build_value b)) rest
  end.

(** The tabular export as the specification words it: the header line and
    one line of quoted, comma-joined fields for each entry, joined by line
    feeds. *)
Definition quoted (s : jsstring) : jsstring := quote ++ s ++ quote.
Definition csvHeader : jsstring := u "Key,Name,Length,Value,Position".
Definition csvLine (e : KLVEntry) : jsstring :=
  join (u ",")
    (map quoted [key e; name e; toString (len e); value e; toString (pos e)]).
Definition csvLines (rs : list KLVEntry) : jsstring :=
  join newline (csvHeader :: map csvLine rs).
Definition kept (b : KLVBuildEntry) : bool :=
  nonEmpty (build_key b) && nonEmpty (build_value b).
Definition serialized (b : KLVBuildEntry) : jsstring :=
  padStart (build_key b) 3 48%N
  ++ padStart (toString (length (build_value b))) 2 48%N
  ++ build_value b.

(** Inputs used to instantiate the theorems below. *)
Definition sampleKLV : jsstring := u "00206AB48DE026044577".
Definition blankInput : jsstring := [32; 9; 10; 160; 8232; 12288]%N.
Definition nonAsciiInput : jsstring := [233; 8364; 55357; 56832]%N.
Definition noStringify : list KLVEntry -> jsstring := fun _ => [].
Definition spacedKLV : jsstring := u "002 06 AB48DE".
Definition sampleFirst : KLVEntry := makeEntry (u "002") 6 (u "AB48DE") 0.
Definition sampleSecond : KLVEntry := makeEntry (u "026") 4 (u "4577") 11.
Definition sampleEntries : list KLVBuildEntry :=
  [mkBuildEntry (u "2") (u "AB48DE"); mkBuildEntry (u "026") (u "4577")].

End Spec.

(** ** More of the language, for the components *)

Module JSMore.

Import JS.

(** [s.split(sep)] for a separator of one character. *)
Fixpoint split (sep : N) (s : jsstring) : list jsstring :=
  match s with
  | [] => [[]]
  | c :: s' =>
      if N.eqb c sep then [] :: split sep s'
      else match split sep s' with
           | piece :: pieces => (c :: piece) :: pieces
           | [] => [[c]]
           end
  end.

(** [s.trim()] removes the characters of the class [\s] at both ends. *)
Fixpoint trimStart (s : jsstring) : jsstring :=
  match s with
  | c :: s' => if isWhitespace c then trimStart s' else s
  | [] => []
  end.

Definition trimEnd (s : jsstring) : jsstring := rev (trimStart (rev s)).

Definition trim (s : jsstring) : jsstring := trimEnd (trimStart s).

(** [s.replace(/c/g, d)] for single characters [c] and [d]. *)
Definition replaceChar (c d : N) (s : jsstring) : jsstring :=
  map (fun x => if N.eqb x c then d else x) s.

(** [xs.map((x, index) => f(x, index))], counting from [start]. *)
Fixpoint mapIndexed {A B : Type} (f : A -> nat -> B) (start : nat)
  (xs : list A) : list B :=
  match xs with
  | [] => []
  | x :: rest => f x start :: mapIndexed f (S start) rest
  end.

(** [xs.filter((x, index) => f(x, index))], counting from [start]. *)
Fixpoint filterIndexed {A : Type} (f : A -> nat -> bool) (start : nat)
  (xs : list A) : list A :=
  match xs with
  | [] => []
  | x :: rest =>
      if f x start then x :: filterIndexed f (S start) rest
      else filterIndexed f (S start) rest
  end.

(** [o[k] = v] on an object used as a record of numbers: an existing
    property keeps its place, a new one comes last. *)
Fixpoint setProperty (k : jsstring) (v : nat) (o : list (jsstring * nat))
  : list (jsstring * nat) :=
  match o with
  | [] => [(k, v)]
  | (k', v') :: rest =>
      if eqb k k' then (k', v) :: rest else (k', v') :: setProperty k v rest
  end.

End JSMore.

(** ** The components that call the parser *)

Module Components.

Import JS KLVParser JSMore.

(** *** [Statistics] *)

Record StatsData : Type := mkStats
  { total : nat;
    totalValueLength : nat;
    knownKeys : nat;
    unknownKeys : nat;
    keyTypes : list (jsstring * nat) }.

(** The three variables the [forEach] of [Statistics] updates. *)
Record StatsLoop : Type := mkStatsLoop
  { loop_keyTypes : list (jsstring * nat);
    loop_totalValueLength : nat;
    loop_knownKeys : nat }.

(** [keyTypes[category] || 0]; the two categories are no names of
    [Object.prototype], the read sees own properties only. *)
Definition readCount (o : list (jsstring * nat)) (category : jsstring)
  : nat :=
  match assoc category o with
  | Some n => n
  | None => 0
  end.

(** One call of the [forEach] callback. *)
Definition statsStep (st : StatsLoop) (item : KLVEntry) : StatsLoop :=
  let known := negb (eqb (name item) (u "Unknown")) in
  let category := if known then u "Known" else u "Unknown" in
  {| loop_keyTypes :=
       setProperty category (readCount (loop_keyTypes st) category + 1)
         (loop_keyTypes st);
     loop_totalValueLength := loop_totalValueLength st + len item;
     loop_knownKeys :=
       if known then loop_knownKeys st + 1 else loop_knownKeys st |}.

(** The [useMemo] body of [Statistics]. *)
Definition computeStats (results : list KLVEntry) : StatsData :=
  let st := fold_left statsStep results (mkStatsLoop [] 0 0) in
  {| total := length results;
     totalValueLength := loop_totalValueLength st;
     knownKeys := loop_knownKeys st;
     unknownKeys := length results - loop_knownKeys st;
     keyTypes := loop_keyTypes st |}.

(** What [Statistics] shows: nothing for an empty list. *)
Definition Statistics (results : list KLVEntry) : option StatsData :=
  if Nat.eqb (length results) 0 then None else Some (computeStats results).

(** *** [BatchProcessor] *)

Record BatchResult : Type := mkBatchResult
  { line : nat;
    input : jsstring;
    batch_results : list KLVEntry;
    batch_errors : list jsstring }.

(** [batchInput.split('\n').filter(line => line.trim())] *)
Definition batchLines (batchInput : jsstring) : list jsstring :=
  filter (fun line => nonEmpty (trim line)) (split 10%N batchInput).

(** The results [processBatch] computes and hands to [onProcess]. *)
Definition processBatch (batchInput : jsstring) : list BatchResult :=
  mapIndexed
    (fun line index =>
       {| line := index + 1;
          input := trim line;
          batch_results := results (parse (trim line));
          batch_errors := errors (parse (trim line)) |})
    0 (batchLines batchInput).

(** The two counters shown above the batch results. *)
Definition successful (rs : list BatchResult) : nat :=
  length (filter (fun r => Nat.eqb (length (batch_errors r)) 0) rs).

Definition failed (rs : list BatchResult) : nat :=
  length (filter (fun r => 0 <? length (batch_errors r)) rs).

(** *** [KLVBuilder] *)

Inductive BuildField : Type := FieldKey | FieldValue.

(** [useState([{ key: '002', value: '' }])] *)
Definition initialEntries : list KLVBuildEntry :=
  [mkBuildEntry (u "002") []].

Definition addEntry (entries : list KLVBuildEntry) : list KLVBuildEntry :=
  entries ++ [mkBuildEntry (u "002") []].

(** [entry[field] = value] *)
Definition setField (entry : KLVBuildEntry) (field : BuildField)
  (value : jsstring) : KLVBuildEntry :=
  match field with
  | FieldKey => mkBuildEntry value (build_value entry)
  | FieldValue => mkBuildEntry (build_key entry) value
  end.

(** [updateEntry(index, field, value)]: the new state, or [None] when
    [newEntries[index]] is [undefined] and the assignment throws. *)
Definition updateEntry (entries : list KLVBuildEntry) (index : nat)
  (field : BuildField) (value : jsstring) : option (list KLVBuildEntry) :=
  match nth_error entries index with
  | None => None
  | Some _ =>
      Some (mapIndexed
              (fun entry i =>
                 if Nat.eqb i index then setField entry field value
                 else entry)
              0 entries)
  end.

Definition removeEntry (entries : list KLVBuildEntry) (index : nat)
  : list KLVBuildEntry :=
  if 1 <? length entries then
    filterIndexed (fun _ i => negb (Nat.eqb i index)) 0 entries
  else entries.

Definition clearAll : list KLVBuildEntry := [mkBuildEntry (u "002") []].

(** [buildKLV]: the string handed to [onBuild], if any. *)
Definition buildKLV (entries : list KLVBuildEntry) : option jsstring :=
  let klvString := build entries in
  if nonEmpty klvString then Some klvString else None.

(** The button [Build KLV] is disabled when
    [entries.every(e => !e.value)]. *)
Definition buildDisabled (entries : list KLVBuildEntry) : bool :=
  forallb (fun e => negb (nonEmpty (build_value e))) entries.

(** What the user can do to the builder. *)
Inductive BuilderAction : Type :=
| AddEntry
| UpdateEntry (index : nat) (field : BuildField) (value : jsstring)
| RemoveEntry (index : nat)
| ClearAll.

(** The state after a handler has run; a handler that throws leaves the
    state as it was. *)
Definition builderStep (entries : list KLVBuildEntry) (a : BuilderAction)
  : list KLVBuildEntry :=
  match a with
  | AddEntry => addEntry entries
  | UpdateEntry index field value =>
      match updateEntry entries index field value with
      | Some entries' => entries'
      | None => entries
      end
  | RemoveEntry index => removeEntry entries index
  | ClearAll => clearAll
  end.

Definition builderRun (actions : list BuilderAction) : list KLVBuildEntry :=
  fold_left builderStep actions initialEntries.

(** *** [App]: the history *)

Record HistoryEntry : Type := mkHistoryEntry
  { id : nat;
    label : jsstring;
    data : jsstring;
    timestamp : jsstring;
    resultCount : nat }.

(** [addToHistory(data, label)] on the history [history]; [now] stands for
    [Date.now()] and [localeString] for [new Date().toLocaleString()]. *)
Definition addToHistory (now : nat) (localeString : jsstring)
  (history : list HistoryEntry) (data : jsstring) (label : option jsstring)
  : list HistoryEntry :=
  let entry :=
    {| id := now;
       label := match label with
                | Some ((_ :: _) as l) => l
                | _ => u "Entry " ++ toString (length history + 1)
                end;
       data := data;
       timestamp := localeString;
       resultCount := length (results (parse data)) |} in
  entry :: firstn 9 history.

(** *** [ExportPanel] *)

Definition extensions (format : ExportFormat) : jsstring :=
  match format with
  | json => u "json"
  | csv => u "csv"
  | table => u "txt"
  end.

Definition mimeTypes (format : ExportFormat) : jsstring :=
  match format with
  | json => u "application/json"
  | csv => u "text/csv"
  | table => u "text/plain"
  end.

(** The arguments of [downloadFile]. *)
Record Download : Type := mkDownload
  { content : jsstring;
    filename : jsstring;
    mimeType : jsstring }.

Section Panel.

Variable stringify : list KLVEntry -> jsstring.

(** [exportData(format)]; [isoString] stands for
    [new Date().toISOString()]. *)
Definition exportData (results : list KLVEntry) (isoString : jsstring)
  (format : ExportFormat) : Download :=
  let content := export stringify results format in
  let timestamp := replaceChar 58%N 45%N (firstn 19 isoString) in
  {| content := content;
     filename := u "klv-data-" ++ timestamp ++ u "." ++ extensions format;
     mimeType := mimeTypes format |}.

(** The panel renders nothing for an empty list and otherwise three
    buttons, one for each format. *)
Definition ExportPanel (results : list KLVEntry)
  : option (jsstring -> ExportFormat -> Download) :=
  if Nat.eqb (length results) 0 then None else Some (exportData results).

End Panel.

End Components.

(** ** Vocabulary of the further properties *)

Module MoreSpec.

Import JS KLVParser Spec JSMore Components.

(** The entry [e] moved [off] characters to the right. *)
Definition shiftEntry (off : nat) (e : KLVEntry) : KLVEntry :=
  {| key := key e; len := len e; value := value e; pos := off + pos e;
     name := name e; formattedValue := formattedValue e;
     currencyInfo := currencyInfo e; mccInfo := mccInfo e |}.

(** A string without a line feed. *)
Definition newlineFree (l : jsstring) : bool := negb (existsb (N.eqb 10) l).

(** An entry that [Statistics] counts as known, and a key that the
    directory registers. *)
Definition isKnown (e : KLVEntry) : bool := negb (eqb (name e) (u "Unknown")).
Definition isRegistered (k : jsstring) : bool :=
  match assoc k definitions with Some _ => true | None => false end.

(** An action of the user on the key select: the options of the select
    are the keys of the directory. *)
Definition fromSelect (a : BuilderAction) : bool :=
  match a with
  | UpdateEntry _ FieldKey k => isRegistered k
  | _ => true
  end.

(** One call of [addToHistory]: what [Date.now()] and [toLocaleString()]
    answered, the data and the label given. *)
Record HistoryAdd : Type := mkHistoryAdd
  { add_now : nat;
    add_localeString : jsstring;
    add_data : jsstring;
    add_label : option jsstring }.

Definition historyStep (history : list HistoryEntry) (a : HistoryAdd)
  : list HistoryEntry :=
  addToHistory (add_now a) (add_localeString a) history (add_data a)
    (add_label a).

Definition historyRun (adds : list HistoryAdd) : list HistoryEntry :=
  fold_left historyStep adds [].

(** Inputs used to instantiate the theorems below. *)
Definition sampleActions : list BuilderAction :=
  [ UpdateEntry 0 FieldValue (u "AB48DE"); AddEntry;
    UpdateEntry 1 FieldKey (u "026"); UpdateEntry 1 FieldValue (u "4577") ].
Definition sampleIso : jsstring := u "2026-11-03T10:20:30.000Z".

End MoreSpec.

(** * Properties *)

(** ** The scenarios of the test suite, evaluated *)

Module Scenarios.

Import JS KLVParser Spec.

Example parse_single_entry :
  parse (u "00206AB48DE") =
  {| results := [ {| key := u "002"; len := 6; value := u "AB48DE"; pos := 0;
                     name := u "Tracking Number"; formattedValue := None;
                     currencyInfo := None; mccInfo := None |} ];
     errors := [] |}.
Proof. vm_compute. reflexivity. Qed.

Example parse_two_entries :
  map (fun e => (key e, len e, value e, pos e, name e))
    (results (parse sampleKLV)) =
  [ (u "002", 6, u "AB48DE", 0, u "Tracking Number");
    (u "026", 4, u "4577", 11, u "Merchant Category Code") ].
Proof. vm_compute. reflexivity. Qed.

Example parse_whitespace_inside :
  map value (results (parse spacedKLV)) = [u "AB48DE"] /\
  errors (parse spacedKLV) = [].
Proof. split; vm_compute; reflexivity. Qed.

Example parse_incomplete_entry :
  parse (u "002") =
  {| results := []; errors := [u "Incomplete entry at position 0"] |}.
Proof. vm_compute. reflexivity. Qed.

Example parse_invalid_format :
  parse (u "A0206ABCDEF") =
  {| results := []; errors := [u "Invalid format at position 0"] |}.
Proof. vm_compute. reflexivity. Qed.

Example parse_incomplete_value :
  parse (u "00210ABC") =
  {| results := []; errors := [u "Incomplete value at position 5"] |}.
Proof. vm_compute. reflexivity. Qed.

Example parse_error_after_entry :
  map key (results (parse (u "00206AB48DE0260"))) = [u "002"] /\
  errors (parse (u "00206AB48DE0260"))
  = [u "Incomplete entry at position 11"].
Proof. split; vm_compute; reflexivity. Qed.

Example parse_nothing_after_error :
  parse (u "A0206ABCDEF00206AB48DE") =
  {| results := []; errors := [u "Invalid format at position 0"] |}.
Proof. vm_compute. reflexivity. Qed.

Example parse_empty_value :
  map (fun e => (key e, len e, value e)) (results (parse (u "00200")))
  = [(u "002", 0, [])] /\
  errors (parse (u "00200")) = [].
Proof. split; vm_compute; reflexivity. Qed.

Example parse_generic_key :
  map name (results (parse (u "99906ABCDEF"))) = [u "Generic Key"].
Proof. vm_compute. reflexivity. Qed.

Example parse_unregistered_key :
  map name (results (parse (u "12306ABCDEF"))) = [u "Unknown"].
Proof. vm_compute. reflexivity. Qed.

Example parse_currency :
  map (fun e => (key e, value e, formattedValue e, currencyInfo e))
    (results (parse (u "04903840"))) =
  [ (u "049", u "840",
     Some (flagOf "US" ++ u " USD - US Dollar"),
     Some {| info_code := VString (u "USD");
             info_name := VString (u "US Dollar");
             info_flag := VString (flagOf "US") |}) ].
Proof. vm_compute. reflexivity. Qed.

Example parse_padded_currency :
  map formattedValue (results (parse (u "0490212")))
  = [Some (flagOf "DZ" ++ u " DZD - Algerian Dinar")].
Proof. vm_compute. reflexivity. Qed.

Example parse_unknown_currency :
  map (fun e => (formattedValue e, currencyInfo e))
    (results (parse (u "049011")))
  = [(Some (u "1 (Unknown Currency Code)"), None)].
Proof. vm_compute. reflexivity. Qed.

Example parse_mcc :
  map (fun e => (formattedValue e, mccInfo e))
    (results (parse (u "026045411"))) =
  [ (Some (u "5411 - Grocery Stores, Supermarkets"),
     Some {| mcc_code := u "5411";
             mcc_description :=
               VString (u "Grocery Stores, Supermarkets") |}) ].
Proof. vm_compute. reflexivity. Qed.

Example parse_unknown_mcc :
  map formattedValue (results (parse (u "0260242")))
  = [Some (u "0042 (Unknown MCC)")].
Proof. vm_compute. reflexivity. Qed.

Example parse_non_ascii :
  parse nonAsciiInput =
  {| results := []; errors := [u "Incomplete entry at position 0"] |}.
Proof. vm_compute. reflexivity. Qed.

Example validate_sample :
  validate sampleKLV =
  {| isValid := true; entriesCount := 2; validationErrors := [];
     totalLength := 20 |}.
Proof. vm_compute. reflexivity. Qed.

Example validate_truncated :
  isValid (validate (u "00206AB")) = false /\
  entriesCount (validate (u "00206AB")) = 0.
Proof. split; vm_compute; reflexivity. Qed.

Example build_pads_keys :
  build [mkBuildEntry (u "2") (u "TEST"); mkBuildEntry (u "26") (u "ABCD")]
  = u "00204TEST02604ABCD".
Proof. vm_compute. reflexivity. Qed.

Example build_filters :
  build [ mkBuildEntry (u "002") (u "VALID"); mkBuildEntry [] (u "NO_KEY");
          mkBuildEntry (u "026") []; mkBuildEntry (u "041") (u "ALSO_VALID") ]
  = u "00205VALID04110ALSO_VALID".
Proof. vm_compute. reflexivity. Qed.

Example build_long_value :
  build [mkBuildEntry (u "002") (repeat 65%N 99)]
  = u "00299" ++ repeat 65%N 99.
Proof. vm_compute. reflexivity. Qed.

Example build_overlong_value :
  firstn 6 (build [mkBuildEntry (u "002") (repeat 65%N 100)]) = u "002100".
Proof. vm_compute. reflexivity. Qed.

Example export_table_empty : export noStringify [] table = [].
Proof. reflexivity. Qed.

Example export_table_line :
  export noStringify [sampleFirst] table
  = u "002   Tracking Number                6   AB48DE".
Proof. vm_compute. reflexivity. Qed.

End Scenarios.

(** ** Strings *)

Module JSFacts.

Import JS.

Lemma eqb_refl (a : jsstring) : eqb a a = true.
Proof.
  induction a as [|x a IH]; simpl; [reflexivity|].
  now rewrite N.eqb_refl, IH.
Qed.

Lemma eqb_eq (a b : jsstring) : eqb a b = true <-> a = b.
Proof.
  split.
  - revert b; induction a as [|x a IH]; intros [|y b]; simpl; try discriminate.
    + reflexivity.
    + intros H. apply andb_true_iff in H as [Hx Hab].
      apply N.eqb_eq in Hx. apply IH in Hab. now subst.
  - intros ->. apply eqb_refl.
Qed.

Lemma eqb_neq (a b : jsstring) : eqb a b = false <-> a <> b.
Proof.
  rewrite <- eqb_eq. destruct (eqb a b); split; congruence.
Qed.

(** [substring] between ordered indices inside the string is a plain
    slice. *)
Lemma substring_slice (s : jsstring) (a b : nat) :
  a <= b -> b <= length s ->
  substring s a b = firstn (b - a) (skipn a s).
Proof.
  intros Hab Hb. unfold substring.
  rewrite (Nat.min_l a), (Nat.min_l b), (Nat.min_l a b), (Nat.max_r a b) by lia.
  reflexivity.
Qed.

Lemma substring_length (s : jsstring) (a b : nat) :
  a <= b -> b <= length s -> length (substring s a b) = b - a.
Proof.
  intros Hab Hb. rewrite substring_slice by assumption.
  rewrite length_firstn, length_skipn. lia.
Qed.

(** A slice that starts where a prefix ends. *)
Lemma substring_app (pre x post : jsstring) :
  substring (pre ++ x ++ post) (length pre) (length pre + length x) = x.
Proof.
  rewrite substring_slice by (rewrite ?length_app; lia).
  rewrite skipn_app, skipn_all, Nat.sub_diag. simpl.
  replace (length pre + length x - length pre) with (length x + 0) by lia.
  rewrite firstn_app_2. simpl. apply app_nil_r.
Qed.

(** Two adjacent slices make one. *)
Lemma substring_glue (s : jsstring) (a b c : nat) :
  a <= b -> b <= c -> c <= length s ->
  substring s a b ++ substring s b c = substring s a c.
Proof.
  intros Hab Hbc Hc. rewrite !substring_slice by lia.
  rewrite <- (firstn_skipn (b - a) (firstn (c - a) (skipn a s))).
  f_equal.
  - rewrite firstn_firstn. f_equal. lia.
  - rewrite skipn_firstn_comm, skipn_skipn. f_equal; [lia | f_equal; lia].
Qed.

Lemma stripWhitespace_clean (s : jsstring) :
  forallb (fun c => negb (isWhitespace c)) s = true ->
  stripWhitespace s = s.
Proof.
  induction s as [|c s IH]; simpl; [reflexivity|].
  intros H. apply andb_true_iff in H as [Hc Hs].
  unfold stripWhitespace in *. simpl. rewrite Hc. now rewrite IH.
Qed.

Lemma stripWhitespace_blank (s : jsstring) :
  forallb isWhitespace s = true -> stripWhitespace s = [].
Proof.
  induction s as [|c s IH]; simpl; [reflexivity|].
  intros H. apply andb_true_iff in H as [Hc Hs].
  unfold stripWhitespace in *. simpl. rewrite Hc. simpl. now apply IH.
Qed.

Lemma isDigit_cases (c : N) :
  isDigit c = true -> In c [48; 49; 50; 51; 52; 53; 54; 55; 56; 57]%N.
Proof.
  unfold isDigit. intros H. apply andb_true_iff in H as [H1 H2].
  apply N.leb_le in H1, H2. simpl.
  assert (c = 48 \/ c = 49 \/ c = 50 \/ c = 51 \/ c = 52 \/ c = 53 \/
          c = 54 \/ c = 55 \/ c = 56 \/ c = 57)%N by lia.
  intuition auto.
Qed.

Lemma isDigit_not_whitespace (c : N) :
  isDigit c = true -> isWhitespace c = false.
Proof.
  intros H. apply isDigit_cases in H. simpl in H.
  repeat destruct H as [<- | H]; try reflexivity. contradiction.
Qed.

Lemma padStart_full (s : jsstring) (n : nat) (c : N) :
  n <= length s -> padStart s n c = s.
Proof.
  intros H. unfold padStart. replace (n - length s) with 0 by lia.
  reflexivity.
Qed.

Lemma padStart_length (s : jsstring) (n : nat) (c : N) :
  length s <= n -> length (padStart s n c) = n.
Proof.
  intros H. unfold padStart. rewrite length_app, repeat_length. lia.
Qed.

Lemma testDigits_spec (n : nat) (s : jsstring) :
  testDigits n s = true <-> length s = n /\ Forall (fun c => isDigit c = true) s.
Proof.
  unfold testDigits. rewrite andb_true_iff, Nat.eqb_eq, forallb_forall, Forall_forall.
  reflexivity.
Qed.

(** The two digit length field and the number it encodes determine each
    other. *)
Lemma two_digits (s : jsstring) :
  testDigits 2 s = true ->
  exists n, parseInt s = Some n /\ n < 100 /\ padStart (toString n) 2 48%N = s.
Proof.
  intros H. apply testDigits_spec in H as [Hlen Hd].
  destruct s as [|a [|b [|? ?]]]; try discriminate.
  inversion Hd as [|? ? Ha Hd']; subst. inversion Hd' as [|? ? Hb _]; subst.
  apply isDigit_cases in Ha, Hb. simpl in Ha, Hb.
  repeat destruct Ha as [<- | Ha]; try contradiction;
    repeat destruct Hb as [<- | Hb]; try contradiction;
    (eexists; split; [vm_compute; reflexivity | split; [lia | reflexivity]]).
Qed.

Lemma toString_two_digits (n : nat) :
  n < 100 ->
  testDigits 2 (padStart (toString n) 2 48%N) = true /\
  parseInt (padStart (toString n) 2 48%N) = Some n.
Proof.
  intros H.
  assert (Hall : forallb (fun n =>
             testDigits 2 (padStart (toString n) 2 48%N) &&
             match parseInt (padStart (toString n) 2 48%N) with
             | Some m => Nat.eqb m n
             | None => false
             end) (seq 0 100) = true) by (vm_compute; reflexivity).
  rewrite forallb_forall in Hall.
  specialize (Hall n). rewrite in_seq in Hall.
  specialize (Hall ltac:(lia)). apply andb_true_iff in Hall as [H1 H2].
  split; [assumption|].
  destruct (parseInt _) as [m|]; [|discriminate].
  apply Nat.eqb_eq in H2. now subst.
Qed.

Lemma distinct_NoDup (keys : list jsstring) :
  distinct keys = true -> NoDup keys.
Proof.
  induction keys as [|k rest IH]; simpl; intros H; constructor.
  - apply andb_true_iff in H as [H _]. apply negb_true_iff in H.
    intros Hin. assert (existsb (eqb k) rest = true); [|congruence].
    apply existsb_exists. exists k. split; [assumption | apply eqb_refl].
  - apply andb_true_iff in H as [_ H]. now apply IH.
Qed.

Lemma join_nil_concat (parts : list jsstring) : join [] parts = concat parts.
Proof.
  induction parts as [|p [|q rest] IH]; simpl in *.
  - reflexivity.
  - now rewrite app_nil_r.
  - now rewrite IH.
Qed.

Lemma join_cons (sep p : jsstring) (q : jsstring) (rest : list jsstring) :
  join sep (p :: q :: rest) = p ++ sep ++ join sep (q :: rest).
Proof. reflexivity. Qed.

End JSFacts.

(** ** The parsing loop *)

Module ParseFacts.

Import JS KLVParser Spec JSFacts.

Lemma parseLoop_step clean pos results errors :
  parseLoop clean pos results errors =
  if pos <? length clean then
    if length clean <? pos + 5 then
      mkParseResult results
        (errors ++ [u "Incomplete entry at position " ++ toString pos])
    else
      let key := substring clean pos (pos + 3) in
      let lenStr := substring clean (pos + 3) (pos + 5) in
      if negb (testDigits 3 key) || negb (testDigits 2 lenStr) then
        mkParseResult results
          (errors ++ [u "Invalid format at position " ++ toString pos])
      else
        match parseInt lenStr with
        | None => mkParseResult results errors
        | Some len =>
            let valEnd := pos + 5 + len in
            if length clean <? valEnd then
              mkParseResult results
                (errors ++ [u "Incomplete value at position "
                              ++ toString (pos + 5)])
            else
              let value := substring clean (pos + 5) (pos + 5 + len) in
              parseLoop clean valEnd
                (results ++ [makeEntry key len value pos]) errors
        end
  else mkParseResult results errors.
Proof.
  rewrite parseLoop_unfold_eq. unfold parseLoop_unfold.
  destruct (lt_dec pos (length clean)) as [H|H]; simpl.
  - apply Nat.ltb_lt in H. rewrite H. reflexivity.
  - apply Nat.ltb_nlt in H. rewrite H. reflexivity.
Qed.

(** What the loop returns, whatever it started with: the fields from the
    cursor to the place where it stops, and the error of that place. *)
Lemma parseLoop_spec clean :
  forall k pos results errors,
    length clean - pos <= k ->
    exists fs q es,
      Fields clean pos fs q /\ Halt clean q es /\
      parseLoop clean pos results errors =
        mkParseResult (results ++ fs) (errors ++ es).
Proof.
  induction k as [|k IH]; intros pos results errors Hk.
  - exists [], pos, []. rewrite parseLoop_step.
    assert (E : (pos <? length clean) = false) by (apply Nat.ltb_ge; lia).
    rewrite E, !app_nil_r.
    repeat split; [constructor | constructor; lia].
  - rewrite parseLoop_step.
    destruct (pos <? length clean) eqn:Hlt.
    2:{ apply Nat.ltb_ge in Hlt. exists [], pos, []. rewrite !app_nil_r.
        repeat split; [constructor | constructor; lia]. }
    apply Nat.ltb_lt in Hlt.
    destruct (length clean <? pos + 5) eqn:H5.
    { apply Nat.ltb_lt in H5. exists [], pos, [entryErr ++ toString pos].
      rewrite app_nil_r. repeat split; [constructor | now constructor]. }
    apply Nat.ltb_ge in H5. cbv zeta.
    destruct (testDigits 3 (substring clean pos (pos + 3))) eqn:Hk3; simpl.
    2:{ exists [], pos, [formatErr ++ toString pos]. rewrite app_nil_r.
        repeat split; [constructor | apply Halt_format; auto]. }
    destruct (testDigits 2 (substring clean (pos + 3) (pos + 5))) eqn:Hl2; simpl.
    2:{ exists [], pos, [formatErr ++ toString pos]. rewrite app_nil_r.
        repeat split; [constructor | apply Halt_format; auto]. }
    destruct (two_digits _ Hl2) as (n & Hn & Hn100 & _). rewrite Hn.
    destruct (length clean <? pos + 5 + n) eqn:Hv.
    { apply Nat.ltb_lt in Hv. exists [], pos, [valueErr ++ toString (pos + 5)].
      rewrite app_nil_r. repeat split; [constructor | eapply Halt_value; eauto]. }
    apply Nat.ltb_ge in Hv.
    destruct (IH (pos + 5 + n)
                (results ++ [makeEntry (substring clean pos (pos + 3)) n
                               (substring clean (pos + 5) (pos + 5 + n)) pos])
                errors ltac:(lia)) as (fs & q & es & Hfs & Hq & Heq).
    eexists (_ :: fs), q, es. rewrite Heq, <- app_assoc. simpl.
    repeat split; [|assumption]. now constructor.
Qed.

Lemma parse_spec (klvString : jsstring) :
  exists q,
    Fields (stripWhitespace klvString) 0 (results (parse klvString)) q /\
    Halt (stripWhitespace klvString) q (errors (parse klvString)).
Proof.
  unfold parse.
  destruct (parseLoop_spec (stripWhitespace klvString)
              (length (stripWhitespace klvString)) 0 [] [])
    as (fs & q & es & Hfs & Hq & ->); [lia|].
  exists q. simpl. now split.
Qed.

Lemma makeEntry_fields k n v p :
  key (makeEntry k n v p) = k /\ len (makeEntry k n v p) = n /\
  value (makeEntry k n v p) = v /\ pos (makeEntry k n v p) = p /\
  name (makeEntry k n v p) = lookupName k.
Proof.
  unfold makeEntry.
  destruct (formatCurrency v k), (formatMCC v k); simpl; auto.
Qed.

Lemma makeEntry_key k n v p : key (makeEntry k n v p) = k.
Proof. apply makeEntry_fields. Qed.
Lemma makeEntry_len k n v p : len (makeEntry k n v p) = n.
Proof. apply makeEntry_fields. Qed.
Lemma makeEntry_value k n v p : value (makeEntry k n v p) = v.
Proof. apply makeEntry_fields. Qed.
Lemma makeEntry_pos k n v p : pos (makeEntry k n v p) = p.
Proof. apply makeEntry_fields. Qed.
Lemma makeEntry_name k n v p : name (makeEntry k n v p) = lookupName k.
Proof. apply makeEntry_fields. Qed.

Ltac entry_simpl :=
  rewrite ?makeEntry_key, ?makeEntry_len, ?makeEntry_value, ?makeEntry_pos,
    ?makeEntry_name.

Ltac entry_simpl_in H :=
  rewrite ?makeEntry_key, ?makeEntry_len, ?makeEntry_value, ?makeEntry_pos,
    ?makeEntry_name in H.

Lemma Fields_le clean p fs q : Fields clean p fs q -> p <= q.
Proof. induction 1; lia. Qed.

Lemma Fields_inside clean p fs q :
  Fields clean p fs q -> p <= length clean -> q <= length clean.
Proof. induction 1; intros; [assumption | apply IHFields; lia]. Qed.

Lemma Fields_offsets clean p fs q : Fields clean p fs q -> offsetsFrom p fs.
Proof.
  induction 1; simpl; [exact I|].
  entry_simpl. now split.
Qed.

Lemma Fields_each clean p fs q :
  Fields clean p fs q ->
  Forall (fun e =>
            p <= pos e /\ pos e + 5 + len e <= q /\
            length (value e) = len e /\ len e < 100 /\
            testDigits 3 (key e) = true /\
            name e = lookupName (key e)) fs.
Proof.
  induction 1 as [|p n q fs Hk Hl Hn Hle Hfs IH]; constructor.
  - entry_simpl. apply Fields_le in Hfs.
    destruct (two_digits _ Hl) as (m & Hm & Hm100 & _).
    assert (m = n) by congruence. subst m.
    repeat split; try lia; try assumption.
    rewrite substring_length; lia.
  - eapply Forall_impl; [|exact IH]. simpl. intros e He. intuition lia.
Qed.

Lemma Fields_span clean p fs q :
  Fields clean p fs q -> list_sum (map fieldSpan fs) = q - p.
Proof.
  induction 1 as [|p n q fs Hk Hl Hn Hle Hfs IH]; [simpl; lia|].
  cbn [map]. unfold list_sum in *. cbn [fold_right].
  unfold fieldSpan at 1. entry_simpl.
  apply Fields_le in Hfs. lia.
Qed.

Lemma Fields_count clean p fs q :
  Fields clean p fs q -> 5 * length fs <= q - p.
Proof.
  induction 1 as [|p n q fs Hk Hl Hn Hle Hfs IH]; simpl; [lia|].
  apply Fields_le in Hfs. lia.
Qed.

Lemma build_cons b bs :
  build (b :: bs) =
  if nonEmpty (build_key b) && nonEmpty (build_value b)
  then buildOne b ++ build bs else build bs.
Proof.
  unfold build. rewrite !join_nil_concat. simpl.
  destruct (nonEmpty (build_key b) && nonEmpty (build_value b)); reflexivity.
Qed.

Lemma nonEmpty_length (s : jsstring) : 0 < length s -> nonEmpty s = true.
Proof. destruct s; simpl; [lia | reflexivity]. Qed.

(** Building the fields read between [p] and [q] gives that part of the
    buffer back, as long as no field is empty. *)
Lemma Fields_build clean p fs q :
  Fields clean p fs q ->
  Forall (fun e => value e <> []) fs ->
  build (map toBuildEntry fs) = substring clean p q.
Proof.
  induction 1 as [p|p n q fs Hk Hl Hn Hle Hfs IH]; intros Hne.
  - unfold substring. rewrite Nat.min_id, Nat.max_id, Nat.sub_diag. reflexivity.
  - inversion Hne as [|? ? Hv Hne']; subst. entry_simpl_in Hv.
    cbn [map]. rewrite build_cons. unfold toBuildEntry at 1 2 3.
    cbn [build_key build_value]. entry_simpl.
    pose proof (Fields_le _ _ _ _ Hfs) as Hpq.
    pose proof (Fields_inside _ _ _ _ Hfs Hle) as Hq.
    assert (Hklen : length (substring clean p (p + 3)) = 3)
      by (apply testDigits_spec in Hk; tauto).
    assert (Hvlen : length (substring clean (p + 5) (p + 5 + n)) = n)
      by (rewrite substring_length; lia).
    assert (Hv0 : 0 < n).
    { destruct (substring clean (p + 5) (p + 5 + n)); [congruence|].
      simpl in Hvlen. lia. }
    rewrite !nonEmpty_length by lia. cbn [andb].
    unfold buildOne. cbn [build_key build_value].
    rewrite padStart_full by lia.
    rewrite Hvlen.
    destruct (two_digits _ Hl) as (m & Hm & Hm100 & Hpad).
    assert (m = n) by congruence. subst m. rewrite Hpad.
    rewrite (IH Hne').
    rewrite <- !app_assoc.
    rewrite (substring_glue clean (p + 5) (p + 5 + n) q) by lia.
    rewrite (substring_glue clean (p + 3) (p + 5) q) by lia.
    apply substring_glue; lia.
Qed.

Lemma nonEmpty_true (s : jsstring) : nonEmpty s = true <-> 0 < length s.
Proof. destruct s; simpl; split; intros; try lia; try discriminate; auto. Qed.

Lemma roundTripInput_spec b :
  roundTripInput b = true ->
  0 < length (build_key b) <= 3 /\
  forallb isDigit (build_key b) = true /\
  0 < length (build_value b) < 100.
Proof.
  unfold roundTripInput. rewrite !andb_true_iff, !nonEmpty_true.
  rewrite Nat.leb_le, Nat.ltb_lt. tauto.
Qed.

Lemma padStart_key_digits k :
  length k <= 3 -> forallb isDigit k = true ->
  testDigits 3 (padStart k 3 48%N) = true.
Proof.
  intros Hlen Hd. unfold testDigits.
  rewrite padStart_length by assumption. simpl.
  unfold padStart. rewrite forallb_app, Hd, andb_true_r.
  apply forallb_forall. intros c Hc. apply repeat_spec in Hc. now subst.
Qed.

Lemma blankFree_digits s : forallb isDigit s = true -> blankFree s = true.
Proof.
  unfold blankFree. rewrite !forallb_forall. intros H c Hc.
  now rewrite isDigit_not_whitespace by auto.
Qed.

Lemma testDigits_digits n s : testDigits n s = true -> forallb isDigit s = true.
Proof. unfold testDigits. now rewrite andb_true_iff. Qed.

Lemma buildOne_blankFree b :
  roundTripInput b = true -> blankFree (build_value b) = true ->
  blankFree (buildOne b) = true.
Proof.
  intros Hb Hv. apply roundTripInput_spec in Hb as (Hk & Hd & Hl).
  unfold buildOne, blankFree. rewrite !forallb_app.
  fold (blankFree (build_value b)). rewrite Hv, andb_true_r.
  apply andb_true_iff. split.
  - apply blankFree_digits, (testDigits_digits 3), padStart_key_digits; tauto || lia.
  - apply blankFree_digits, (testDigits_digits 2), toString_two_digits. lia.
Qed.

Lemma build_good b bs :
  roundTripInput b = true -> build (b :: bs) = buildOne b ++ build bs.
Proof.
  intros Hb. rewrite build_cons.
  apply roundTripInput_spec in Hb as (Hk & _ & Hv).
  now rewrite !nonEmpty_length by lia.
Qed.

Lemma build_blankFree entries :
  Forall (fun b => roundTripInput b = true /\
                   blankFree (build_value b) = true) entries ->
  blankFree (build entries) = true.
Proof.
  induction 1 as [|b bs [Hb Hv] _ IH]; [reflexivity|].
  rewrite build_good by assumption. unfold blankFree in *.
  rewrite forallb_app, IH, andb_true_r. now apply buildOne_blankFree.
Qed.

(** Run on a buffer that continues with [build entries], the loop reads
    exactly the expected entries and reports nothing. *)
Lemma parseLoop_build entries :
  Forall (fun b => roundTripInput b = true) entries ->
  forall pre rs,
    parseLoop (pre ++ build entries) (length pre) rs [] =
      mkParseResult (rs ++ expected (length pre) entries) [].
Proof.
  induction 1 as [|b bs Hb _ IH]; intros pre rs.
  - rewrite parseLoop_step.
    change (build []) with (@nil N). rewrite app_nil_r, Nat.ltb_irrefl.
    simpl. now rewrite app_nil_r.
  - rewrite build_good by assumption.
    pose proof Hb as Hb'. apply roundTripInput_spec in Hb' as (Hk & Hd & Hv).
    set (K := padStart (build_key b) 3 48%N).
    set (V := build_value b) in *.
    set (L := padStart (toString (length V)) 2 48%N).
    assert (HK : testDigits 3 K = true) by (apply padStart_key_digits; tauto || lia).
    destruct (toString_two_digits (length V)) as [HL HLn]; [lia|].
    fold L in HL, HLn.
    assert (HKlen : length K = 3) by (apply testDigits_spec in HK; tauto).
    assert (HLlen : length L = 2) by (apply testDigits_spec in HL; tauto).
    unfold buildOne. fold V. fold K. fold L.
    rewrite parseLoop_step.
    assert (Hlen : length (pre ++ (K ++ L ++ V) ++ build bs)
                   = length pre + 5 + length V + length (build bs))
      by (rewrite !length_app; lia).
    replace (length pre <? length (pre ++ (K ++ L ++ V) ++ build bs))
      with true by (symmetry; apply Nat.ltb_lt; lia).
    replace (length (pre ++ (K ++ L ++ V) ++ build bs) <? length pre + 5)
      with false by (symmetry; apply Nat.ltb_ge; lia).
    cbv zeta.
    assert (EK : substring (pre ++ (K ++ L ++ V) ++ build bs)
                   (length pre) (length pre + 3) = K).
    { rewrite <- HKlen, <- !app_assoc. apply substring_app. }
    assert (EL : substring (pre ++ (K ++ L ++ V) ++ build bs)
                   (length pre + 3) (length pre + 5) = L).
    { replace (length pre + 3) with (length (pre ++ K)) by (rewrite length_app; lia).
      replace (length pre + 5) with (length (pre ++ K) + length L)
        by (rewrite length_app; lia).
      replace (pre ++ (K ++ L ++ V) ++ build bs)
        with ((pre ++ K) ++ L ++ V ++ build bs)
        by (now rewrite <- !app_assoc).
      apply substring_app. }
    assert (EV : substring (pre ++ (K ++ L ++ V) ++ build bs)
                   (length pre + 5) (length pre + 5 + length V) = V).
    { replace (length pre + 5) with (length (pre ++ K ++ L))
        by (rewrite !length_app; lia).
      replace (pre ++ (K ++ L ++ V) ++ build bs)
        with ((pre ++ K ++ L) ++ V ++ build bs)
        by (now rewrite <- !app_assoc).
      apply substring_app. }
    rewrite EK, EL, HK, HL, HLn. simpl negb. simpl orb. cbv iota.
    replace (length (pre ++ (K ++ L ++ V) ++ build bs)
               <? length pre + 5 + length V)
      with false by (symmetry; apply Nat.ltb_ge; lia).
    rewrite EV.
    replace (length pre + 5 + length V) with (length (pre ++ K ++ L ++ V))
      by (rewrite !length_app; lia).
    rewrite (app_assoc pre), IH, <- app_assoc. simpl.
    change (build_value b) with V. do 4 f_equal. rewrite !length_app. lia.
Qed.

End ParseFacts.

(** ** The claims of the specification *)

Module Claims.

Import JS KLVParser Spec JSFacts ParseFacts.

Lemma assoc_In {A : Type} (k : jsstring) (l : list (jsstring * A)) (a : A) :
  assoc k l = Some a -> In (k, a) l.
Proof.
  induction l as [|[k' a'] l IH]; simpl; [discriminate|].
  destruct (eqb k k') eqn:E.
  - apply eqb_eq in E. intros [= ->]. subst. now left.
  - intros H. right. now apply IH.
Qed.

(** No table of the source lists a key twice. *)
Lemma tables_distinct :
  NoDup (map fst definitions) /\ NoDup (map fst currencyMapping) /\
  NoDup (map fst mccMapping).
Proof.
  repeat split; apply distinct_NoDup; vm_compute; reflexivity.
Qed.


Lemma definitions_named (k fieldName : jsstring) :
  assoc k definitions = Some fieldName -> nonEmpty fieldName = true.
Proof.
  intros E. apply assoc_In in E.
  assert (Hall : forallb (fun kn => nonEmpty (snd kn)) definitions = true)
    by (vm_compute; reflexivity).
  rewrite forallb_forall in Hall. exact (Hall _ E).
Qed.

Lemma lookupName_found (k fieldName : jsstring) :
  assoc k definitions = Some fieldName -> lookupName k = fieldName.
Proof.
  intros E. pose proof (definitions_named _ _ E) as Hne.
  unfold lookupName. rewrite E. destruct fieldName; [discriminate | reflexivity].
Qed.

Lemma lookupName_fallback (k : jsstring) :
  assoc k definitions = None -> lookupName k = u "Unknown".
Proof. intros E. unfold lookupName. now rewrite E. Qed.


Lemma offsetsFrom_nth (rs : list KLVEntry) :
  forall p i e1 e2,
    offsetsFrom p rs ->
    nth_error rs i = Some e1 -> nth_error rs (S i) = Some e2 ->
    pos e2 = pos e1 + 5 + len e1 /\ pos e1 < pos e2.
Proof.
  induction rs as [|e rs IH]; intros p i e1 e2 Hoff H1 H2.
  - destruct i; discriminate.
  - destruct Hoff as [Hp Hrest]. destruct i as [|i].
    + simpl in H1. injection H1 as ->.
      destruct rs as [|e' rs']; [discriminate|].
      simpl in H2. injection H2 as ->.
      destruct Hrest as [Hp' _]. lia.
    + simpl in H1. change (nth_error (e :: rs) (S (S i))) with (nth_error rs (S i)) in H2.
      eapply IH; eassumption.
Qed.

Lemma expected_keyValue (entries : list KLVBuildEntry) (off : nat) :
  map keyValue (expected off entries) = map paddedKeyValue entries.
Proof.
  revert off. induction entries as [|b bs IH]; intros off; [reflexivity|].
  simpl. rewrite IH. unfold keyValue at 1. now entry_simpl.
Qed.

Lemma expected_lengths (entries : list KLVBuildEntry) (off : nat) :
  Forall (fun e => len e = length (value e)) (expected off entries).
Proof.
  revert off. induction entries as [|b bs IH]; intros off; constructor.
  - now entry_simpl.
  - apply IH.
Qed.

Lemma expected_offsets (entries : list KLVBuildEntry) (off : nat) :
  offsetsFrom off (expected off entries).
Proof.
  revert off. induction entries as [|b bs IH]; intros off; [exact I|].
  simpl. entry_simpl. split; [reflexivity | apply IH].
Qed.

Lemma paddedKeyValue_full (entries : list KLVBuildEntry) :
  Forall (fun b => length (build_key b) = 3) entries ->
  map paddedKeyValue entries = map givenKeyValue entries.
Proof.
  induction 1 as [|b bs Hb _ IH]; [reflexivity|].
  simpl. rewrite IH. unfold paddedKeyValue at 1, givenKeyValue at 1.
  rewrite padStart_full by lia. reflexivity.
Qed.

(** C1, as amended.  For every list of build entries in which each entry
    has a key of one to three decimal digits and a non-empty value shorter
    than 100 characters that contains no whitespace, [parse (build entries)]
    reports no error and its entries give back, in order, every key
    left-padded with zeros to three digits (a key of three digits as it
    is) with its value; each [len] is the character count of the value,
    and the offsets start at 0 and obey
    [offset (i+1) = offset i + 5 + len i], so they increase strictly. *)
Theorem build_parse_round_trip (entries : list KLVBuildEntry) :
  Forall (fun b => roundTripInput b = true /\
                   blankFree (build_value b) = true) entries ->
  let r := parse (build entries) in
  errors r = [] /\
  map keyValue (results r) = map paddedKeyValue entries /\
  (Forall (fun b => length (build_key b) = 3) entries ->
   map keyValue (results r) = map givenKeyValue entries) /\
  Forall (fun e => len e = length (value e)) (results r) /\
  offsetsFrom 0 (results r) /\
  (forall i e1 e2,
      nth_error (results r) i = Some e1 ->
      nth_error (results r) (S i) = Some e2 ->
      pos e2 = pos e1 + 5 + len e1 /\ pos e1 < pos e2).
Proof.
  intros Hall r.
  assert (Hr : r = mkParseResult (expected 0 entries) []).
  { subst r. unfold parse.
    rewrite stripWhitespace_clean by (apply build_blankFree, Hall).
    apply (parseLoop_build entries) with (pre := []) (rs := []).
    eapply Forall_impl; [|exact Hall]. simpl. tauto. }
  rewrite Hr. simpl.
  repeat split.
  - apply expected_keyValue.
  - intros H3. rewrite expected_keyValue. now apply paddedKeyValue_full.
  - apply expected_lengths.
  - apply expected_offsets.
  - eapply offsetsFrom_nth; eauto using expected_offsets.
  - eapply offsetsFrom_nth; eauto using expected_offsets.
Qed.

Lemma build_parse_round_trip_witness :
  Forall (fun b => roundTripInput b = true /\
                   blankFree (build_value b) = true) sampleEntries /\
  map keyValue (results (parse (build sampleEntries)))
  = [(u "002", u "AB48DE"); (u "026", u "4577")].
Proof.
  assert (H : Forall (fun b => roundTripInput b = true /\
                               blankFree (build_value b) = true)
                sampleEntries)
    by (repeat constructor).
  split; [exact H|].
  exact (proj1 (proj2 (build_parse_round_trip sampleEntries H))).
Defined.

(** C1 as the specification words it fails twice: a key shorter than
    three digits comes back padded, and a value that contains whitespace
    does not come back at all. *)
Lemma round_trip_as_stated_fails :
  (forallb roundTripInput [mkBuildEntry (u "2") (u "A")] = true /\
   map keyValue (results (parse (build [mkBuildEntry (u "2") (u "A")])))
   <> map givenKeyValue [mkBuildEntry (u "2") (u "A")]) /\
  (forallb roundTripInput [mkBuildEntry (u "002") (u "A B")] = true /\
   map keyValue (results (parse (build [mkBuildEntry (u "002") (u "A B")])))
   <> map givenKeyValue [mkBuildEntry (u "002") (u "A B")]).
Proof.
  split; (split; [vm_compute; reflexivity | vm_compute; discriminate]).
Qed.

Lemma Halt_errors clean q es : Halt clean q es -> length es <= 1.
Proof. destruct 1; simpl; lia. Qed.

(** C2.  [parse] stops at the first structural error.  There is a cursor
    [q] such that the entries returned are exactly the well-formed fields
    read from 0 up to [q], all of them ending at or before [q] (none is
    emitted for the field that fails at [q], none lies after it), and the
    error list is empty when [q] is the end of the buffer and otherwise
    holds the one message of the check that failed at [q]. *)
Theorem parse_halts_at_first_error (klvString : jsstring) :
  exists q,
    q <= length (stripWhitespace klvString) /\
    Fields (stripWhitespace klvString) 0 (results (parse klvString)) q /\
    Halt (stripWhitespace klvString) q (errors (parse klvString)) /\
    list_sum (map fieldSpan (results (parse klvString))) = q /\
    Forall (fun e => pos e < q /\ pos e + 5 + len e <= q)
      (results (parse klvString)) /\
    length (errors (parse klvString)) <= 1 /\
    (errors (parse klvString) = [] /\ q = length (stripWhitespace klvString)
     \/ errors (parse klvString) = [entryErr ++ toString q]
     \/ errors (parse klvString) = [formatErr ++ toString q]
     \/ errors (parse klvString) = [valueErr ++ toString (q + 5)]).
Proof.
  destruct (parse_spec klvString) as (q & Hfs & Hq).
  pose proof (Fields_inside _ _ _ _ Hfs (Nat.le_0_l _)) as Hle.
  exists q. repeat split; try assumption.
  - rewrite (Fields_span _ _ _ _ Hfs). lia.
  - eapply Forall_impl; [|exact (Fields_each _ _ _ _ Hfs)].
    simpl. intros e He. lia.
  - exact (Halt_errors _ _ _ Hq).
  - destruct Hq; [left; split; [reflexivity | lia] | auto ..].
Qed.

(** C3.  In every result of [parse], each entry's value has as many
    characters as its [len] says, and an entry that follows another starts
    5 + [len] characters after it, so that offsets increase strictly. *)
Theorem parse_entry_invariant (klvString : jsstring) :
  Forall (fun e => length (value e) = len e) (results (parse klvString)) /\
  (forall i e1 e2,
      nth_error (results (parse klvString)) i = Some e1 ->
      nth_error (results (parse klvString)) (S i) = Some e2 ->
      pos e2 = pos e1 + 5 + len e1 /\ pos e1 < pos e2).
Proof.
  destruct (parse_spec klvString) as (q & Hfs & _). split.
  - eapply Forall_impl; [|exact (Fields_each _ _ _ _ Hfs)]. simpl. tauto.
  - intros i e1 e2. apply offsetsFrom_nth with (p := 0).
    exact (Fields_offsets _ _ _ _ Hfs).
Qed.

Lemma parse_entry_invariant_witness :
  nth_error (results (parse sampleKLV)) 0 = Some sampleFirst /\
  nth_error (results (parse sampleKLV)) 1 = Some sampleSecond /\
  pos sampleSecond = pos sampleFirst + 5 + len sampleFirst /\
  pos sampleFirst < pos sampleSecond.
Proof.
  assert (H0 : nth_error (results (parse sampleKLV)) 0 = Some sampleFirst)
    by (vm_compute; reflexivity).
  assert (H1 : nth_error (results (parse sampleKLV)) 1 = Some sampleSecond)
    by (vm_compute; reflexivity).
  split; [exact H0|]. split; [exact H1|].
  exact (proj2 (parse_entry_invariant sampleKLV) 0 sampleFirst sampleSecond
           H0 H1).
Defined.

(** C4.  [validate] is read off [parse]: the flag says whether the error
    list of [parse] is empty, the count is the number of its entries, the
    errors are its errors, and the total length is that of the input
    without its whitespace. *)
Theorem validate_from_parse (klvString : jsstring) :
  (isValid (validate klvString) = true <-> errors (parse klvString) = []) /\
  entriesCount (validate klvString) = length (results (parse klvString)) /\
  validationErrors (validate klvString) = errors (parse klvString) /\
  totalLength (validate klvString) = length (stripWhitespace klvString).
Proof.
  unfold validate. simpl. repeat split.
  - intros H. apply Nat.eqb_eq in H. now apply length_zero_iff_nil.
  - intros ->. reflexivity.
Qed.

Lemma validate_from_parse_witness :
  errors (parse sampleKLV) = [] /\ isValid (validate sampleKLV) = true.
Proof.
  assert (H : errors (parse sampleKLV) = []) by (vm_compute; reflexivity).
  split; [exact H|].
  exact (proj2 (proj1 (validate_from_parse sampleKLV)) H).
Defined.

(** C10.  When [parse] reports no error and no parsed value is empty,
    building the parsed (key, value) pairs gives the input back without
    its whitespace, and the fields' sizes 5 + [len] add up to the total
    length that [validate] reports. *)
Theorem parse_build_round_trip (klvString : jsstring) :
  errors (parse klvString) = [] ->
  Forall (fun e => value e <> []) (results (parse klvString)) ->
  build (map toBuildEntry (results (parse klvString)))
  = stripWhitespace klvString /\
  list_sum (map fieldSpan (results (parse klvString)))
  = totalLength (validate klvString).
Proof.
  intros Herr Hne.
  destruct (parse_spec klvString) as (q & Hfs & Hq).
  pose proof (Fields_inside _ _ _ _ Hfs (Nat.le_0_l _)) as Hle.
  assert (q = length (stripWhitespace klvString)) as ->.
  { rewrite Herr in Hq. inversion Hq. lia. }
  split.
  - rewrite (Fields_build _ _ _ _ Hfs Hne).
    rewrite substring_slice by lia.
    rewrite Nat.sub_0_r. simpl. apply firstn_all.
  - rewrite (Fields_span _ _ _ _ Hfs). simpl. lia.
Qed.

Lemma parse_build_round_trip_witness :
  errors (parse spacedKLV) = [] /\
  Forall (fun e => value e <> []) (results (parse spacedKLV)) /\
  build (map toBuildEntry (results (parse spacedKLV))) = u "00206AB48DE".
Proof.
  assert (H : errors (parse spacedKLV) = []) by (vm_compute; reflexivity).
  assert (Hne : Forall (fun e => value e <> []) (results (parse spacedKLV)))
    by (vm_compute; repeat constructor; discriminate).
  split; [exact H|]. split; [exact Hne|].
  exact (proj1 (parse_build_round_trip spacedKLV H Hne)).
Defined.

(** C9.  [parse] and [validate] are defined on every string, whatever its
    code units: the loop ends after at most one entry per five characters
    of the stripped input and at most one error; on an input made of
    whitespace only, the empty one included, both report nothing. *)
Theorem parse_validate_total (klvString : jsstring) :
  (exists r v,
      parse klvString = r /\ validate klvString = v /\
      5 * length (results r) <= length (stripWhitespace klvString) /\
      length (errors r) <= 1 /\
      entriesCount v = length (results r) /\ validationErrors v = errors r) /\
  (forallb isWhitespace klvString = true ->
   parse klvString = mkParseResult [] [] /\
   validate klvString = mkValidationResult true 0 [] 0).
Proof.
  split.
  - exists (parse klvString), (validate klvString).
    destruct (parse_spec klvString) as (q & Hfs & Hq).
    pose proof (Fields_inside _ _ _ _ Hfs (Nat.le_0_l _)) as Hle.
    pose proof (Fields_count _ _ _ _ Hfs) as Hcount.
    repeat split; [lia | exact (Halt_errors _ _ _ Hq)].
  - intros Hblank. apply stripWhitespace_blank in Hblank.
    assert (Hp : parse klvString = mkParseResult [] []).
    { unfold parse. rewrite Hblank, parseLoop_step. reflexivity. }
    split; [assumption|].
    unfold validate. rewrite Hp, Hblank. reflexivity.
Qed.

Lemma parse_validate_total_witness :
  forallb isWhitespace blankInput = true /\
  parse blankInput = mkParseResult [] [] /\
  validate blankInput = mkValidationResult true 0 [] 0.
Proof.
  assert (H : forallb isWhitespace blankInput = true)
    by (vm_compute; reflexivity).
  split; [exact H|].
  exact (proj2 (parse_validate_total blankInput) H).
Defined.

(** What [formatCurrency] does wherever the property read stays within
    the table or finds nothing at all. *)
Lemma formatCurrency_other_key (value key : jsstring) :
  key <> u "049" -> formatCurrency value key = None.
Proof.
  intros Hk. unfold formatCurrency.
  apply eqb_neq in Hk. now rewrite Hk.
Qed.

Lemma formatCurrency_known (value : jsstring) (c : Currency) :
  assoc (padStart value 3 48%N) currencyMapping = Some c ->
  formatCurrency value (u "049") =
    Some {| currency_formattedValue :=
              currency_flag c ++ u " " ++ currency_code c ++ u " - "
                ++ currency_name c;
            currency_info :=
              Some {| info_code := VString (currency_code c);
                      info_name := VString (currency_name c);
                      info_flag := VString (currency_flag c) |} |}.
Proof.
  intros E. unfold formatCurrency, get. rewrite E. reflexivity.
Qed.

Lemma formatCurrency_unknown (value : jsstring) :
  assoc (padStart value 3 48%N) currencyMapping = None ->
  assoc (padStart value 3 48%N) protoMembers = None ->
  formatCurrency value (u "049") =
    Some {| currency_formattedValue := value ++ u " (Unknown Currency Code)";
            currency_info := None |}.
Proof.
  intros E1 E2. unfold formatCurrency, get. rewrite E1, E2. reflexivity.
Qed.

(** C5, where the code departs from it.  The value [constructor] under
    key 049 is no code of the currency table, yet the read
    [currencyMapping[paddedValue]] finds [Object.prototype.constructor],
    the test [if (currency)] succeeds, and the decorator answers with the
    text of the found-code path instead of the unknown-code message. *)
Theorem formatCurrency_inherited_member :
  assoc (padStart (u "constructor") 3 48%N) currencyMapping = None /\
  formatCurrency (u "constructor") (u "049") =
    Some {| currency_formattedValue := u "undefined undefined - Object";
            currency_info :=
              Some {| info_code := VUndefined;
                      info_name := VString (u "Object");
                      info_flag := VUndefined |} |} /\
  formatCurrency (u "constructor") (u "049") <>
    Some {| currency_formattedValue :=
              u "constructor (Unknown Currency Code)";
            currency_info := None |} /\
  map formattedValue (results (parse (u "04911constructor")))
  = [Some (u "undefined undefined - Object")].
Proof.
  split; [vm_compute; reflexivity|].
  split; [vm_compute; reflexivity|].
  split; [vm_compute; discriminate | vm_compute; reflexivity].
Qed.








(** C7.  [build] drops the entries whose key or value is empty and
    writes, for each entry it keeps and in the order given, the key
    left-padded to three characters with zeros, the decimal length of the
    value left-padded to two, and the value, with nothing in between; it
    returns the empty string when it keeps nothing. *)
Theorem build_serializes :
  build [] = [] /\
  (forall b bs,
      build (b :: bs) =
      if kept b then serialized b ++ build bs else build bs) /\
  (forall entries,
      build entries = concat (map serialized (filter kept entries))) /\
  (forall entries, filter kept entries = [] -> build entries = []) /\
  build [mkBuildEntry (u "002") (u "AB48DE"); mkBuildEntry (u "026") (u "4577")]
  = u "00206AB48DE026044577".
Proof.
  split; [reflexivity|].
  split; [intros b bs; rewrite build_cons; unfold serialized, kept, buildOne;
          now rewrite <- !app_assoc|].
  split; [intros entries; unfold build; now rewrite join_nil_concat|].
  split; [|vm_compute; reflexivity].
  intros entries H. unfold build. fold kept.
  change (fun entry => nonEmpty (build_key entry) && nonEmpty (build_value entry))
    with kept.
  now rewrite H.
Qed.

Lemma build_serializes_witness :
  filter kept [mkBuildEntry (u "002") []; mkBuildEntry [] (u "NO_KEY")] = [] /\
  build [mkBuildEntry (u "002") []; mkBuildEntry [] (u "NO_KEY")] = [].
Proof.
  assert (H : filter kept [mkBuildEntry (u "002") [];
                           mkBuildEntry [] (u "NO_KEY")] = [])
    by (vm_compute; reflexivity).
  split; [exact H|].
  exact (proj1 (proj2 (proj2 (proj2 build_serializes))) _ H).
Defined.

(** C8, as amended.  The tabular export is the header line, a line feed,
    and the entries' lines joined by line feeds, each line made of the
    fields key, name, length, value and offset, double-quoted and joined
    by commas; it ends without a line feed when there is an entry, and
    for the empty list it is the header line followed by one line feed. *)
Theorem export_csv_layout (stringify : list KLVEntry -> jsstring)
  (rs : list KLVEntry) :
  export stringify rs csv
  = csvHeader ++ newline ++ join newline (map csvLine rs) /\
  (rs <> [] -> export stringify rs csv = csvLines rs) /\
  export stringify [] csv = csvHeader ++ newline.
Proof.
  assert (Hrow : forall e, csvRow e = csvLine e).
  { intros e. unfold csvRow, csvLine, quoted. simpl.
    now rewrite <- !app_assoc. }
  assert (Hrows : map csvRow rs = map csvLine rs)
    by (apply map_ext, Hrow).
  unfold export. cbv zeta. fold csvHeader. rewrite Hrows.
  split; [|split].
  - now rewrite <- app_assoc.
  - intros Hne. unfold csvLines. destruct rs as [|e rs']; [contradiction|].
    cbn [map]. rewrite join_cons. now rewrite <- app_assoc.
  - cbn [map join]. now rewrite app_nil_r.
Qed.

Lemma export_csv_layout_witness :
  [sampleFirst; sampleSecond] <> [] /\
  export noStringify [sampleFirst; sampleSecond] csv
  = csvLines [sampleFirst; sampleSecond].
Proof.
  assert (H : [sampleFirst; sampleSecond] <> []) by discriminate.
  split; [exact H|].
  exact (proj1 (proj2 (export_csv_layout noStringify
                         [sampleFirst; sampleSecond])) H).
Defined.

(** C8 as the specification words it: the empty list does not yield the
    header line alone. *)
Lemma export_csv_empty_list :
  csvLines [] = csvHeader /\
  export noStringify [] csv <> csvLines [].
Proof. split; [reflexivity | vm_compute; discriminate]. Qed.

End Claims.

(** * Further properties *)

Module MoreFacts.
Import JS KLVParser Spec JSMore Components MoreSpec JSFacts ParseFacts.

Lemma Fields_made clean p fs q :
  Fields clean p fs q ->
  Forall (fun e => e = makeEntry (key e) (len e) (value e) (pos e)) fs.
Proof.
  induction 1; constructor; [|assumption]. now entry_simpl.
Qed.

Lemma blankFree_strip (s : jsstring) : blankFree (stripWhitespace s) = true.
Proof.
  unfold blankFree, stripWhitespace. apply forallb_forall.
  intros c Hc. apply filter_In in Hc. tauto.
Qed.

Lemma In_firstn {A : Type} (n : nat) (l : list A) (x : A) :
  In x (firstn n l) -> In x l.
Proof.
  intros H. rewrite <- (firstn_skipn n l). apply in_or_app. now left.
Qed.

Lemma In_skipn {A : Type} (n : nat) (l : list A) (x : A) :
  In x (skipn n l) -> In x l.
Proof.
  intros H. rewrite <- (firstn_skipn n l). apply in_or_app. now right.
Qed.

Lemma In_substring (s : jsstring) (a b : nat) (c : N) :
  In c (substring s a b) -> In c s.
Proof. unfold substring. intros H. eapply In_skipn, In_firstn, H. Qed.

Lemma blankFree_substring (s : jsstring) (a b : nat) :
  blankFree s = true -> blankFree (substring s a b) = true.
Proof.
  unfold blankFree. rewrite !forallb_forall.
  intros H c Hc. eapply H, In_substring, Hc.
Qed.

Lemma Fields_blankFree clean p fs q :
  blankFree clean = true -> Fields clean p fs q ->
  Forall (fun e => blankFree (value e) = true) fs.
Proof.
  intros Hc. induction 1; constructor; [|assumption].
  entry_simpl. now apply blankFree_substring.
Qed.

(** The relations determine what the loop returns. *)
Lemma parseLoop_complete clean p fs q es :
  Fields clean p fs q -> Halt clean q es ->
  forall rs errs,
    parseLoop clean p rs errs = mkParseResult (rs ++ fs) (errs ++ es).
Proof.
  induction 1 as [p|p n q fs Hk Hl Hn Hle Hfs IH]; intros Hq rs errs.
  - rewrite parseLoop_step, app_nil_r. destruct Hq as [Hend|Hlt H5|H5 Hbad|n H5 Hk Hl Hn Hv].
    + replace (p <? length clean) with false by (symmetry; apply Nat.ltb_ge; lia).
      now rewrite app_nil_r.
    + replace (p <? length clean) with true by (symmetry; apply Nat.ltb_lt; lia).
      replace (length clean <? p + 5) with true by (symmetry; apply Nat.ltb_lt; lia).
      reflexivity.
    + replace (p <? length clean) with true by (symmetry; apply Nat.ltb_lt; lia).
      replace (length clean <? p + 5) with false by (symmetry; apply Nat.ltb_ge; lia).
      cbv zeta. destruct Hbad as [-> | ->]; [reflexivity|].
      now rewrite orb_true_r.
    + replace (p <? length clean) with true by (symmetry; apply Nat.ltb_lt; lia).
      replace (length clean <? p + 5) with false by (symmetry; apply Nat.ltb_ge; lia).
      cbv zeta. rewrite Hk, Hl, Hn. simpl negb. simpl orb. cbv iota.
      replace (length clean <? p + 5 + n) with true by (symmetry; apply Nat.ltb_lt; lia).
      reflexivity.
  - rewrite parseLoop_step.
    replace (p <? length clean) with true by (symmetry; apply Nat.ltb_lt; lia).
    replace (length clean <? p + 5) with false by (symmetry; apply Nat.ltb_ge; lia).
    cbv zeta. rewrite Hk, Hl, Hn. simpl negb. simpl orb. cbv iota.
    replace (length clean <? p + 5 + n) with false by (symmetry; apply Nat.ltb_ge; lia).
    rewrite (IH Hq), <- app_assoc. reflexivity.
Qed.

Lemma parse_complete (s : jsstring) fs q es :
  Fields (stripWhitespace s) 0 fs q -> Halt (stripWhitespace s) q es ->
  parse s = mkParseResult fs es.
Proof.
  intros Hfs Hq. unfold parse.
  now rewrite (parseLoop_complete _ _ _ _ _ Hfs Hq).
Qed.

Lemma substring_app_l (c d : jsstring) (a b : nat) :
  a <= b -> b <= length c -> substring (c ++ d) a b = substring c a b.
Proof.
  intros Hab Hb.
  rewrite !substring_slice by (rewrite ?length_app; lia).
  rewrite skipn_app. rewrite firstn_app.
  replace (b - a - length (skipn a c)) with 0 by (rewrite length_skipn; lia).
  simpl. now rewrite app_nil_r.
Qed.

Lemma substring_app_r (pre c : jsstring) (a b : nat) :
  a <= b -> b <= length c ->
  substring (pre ++ c) (length pre + a) (length pre + b) = substring c a b.
Proof.
  intros Hab Hb.
  rewrite !substring_slice by (rewrite ?length_app; lia).
  rewrite skipn_app, skipn_all2 by lia. simpl.
  replace (length pre + a - length pre) with a by lia.
  f_equal. lia.
Qed.

Lemma Fields_trans clean p fs q fs' r :
  Fields clean p fs q -> Fields clean q fs' r -> Fields clean p (fs ++ fs') r.
Proof.
  induction 1; intros H'; simpl; [assumption|].
  constructor; auto.
Qed.

Lemma Fields_app_l clean d p fs q :
  Fields clean p fs q -> Fields (clean ++ d) p fs q.
Proof.
  induction 1 as [p|p n q fs Hk Hl Hn Hle Hfs IH]; [constructor|].
  rewrite <- (substring_app_l clean d p (p + 3)) by lia.
  rewrite <- (substring_app_l clean d (p + 5) (p + 5 + n)) by lia.
  constructor; rewrite ?substring_app_l by lia; try assumption.
  rewrite length_app. lia.
Qed.

Lemma makeEntry_shift k n v p off :
  makeEntry k n v (off + p) = shiftEntry off (makeEntry k n v p).
Proof.
  unfold makeEntry, shiftEntry.
  destruct (formatCurrency v k), (formatMCC v k); reflexivity.
Qed.

Lemma Fields_app_r pre clean p fs q :
  Fields clean p fs q ->
  Fields (pre ++ clean) (length pre + p)
    (map (shiftEntry (length pre)) fs) (length pre + q).
Proof.
  induction 1 as [p|p n q fs Hk Hl Hn Hle Hfs IH]; [constructor|].
  cbn [map]. rewrite <- makeEntry_shift.
  rewrite <- (substring_app_r pre clean p (p + 3)) by lia.
  rewrite <- (substring_app_r pre clean (p + 5) (p + 5 + n)) by lia.
  replace (length pre + (p + 3)) with (length pre + p + 3) by lia.
  replace (length pre + (p + 5)) with (length pre + p + 5) by lia.
  replace (length pre + (p + 5 + n)) with (length pre + p + 5 + n) by lia.
  assert (E3 : substring (pre ++ clean) (length pre + p) (length pre + p + 3)
               = substring clean p (p + 3)).
  { replace (length pre + p + 3) with (length pre + (p + 3)) by lia.
    apply substring_app_r; lia. }
  assert (E5 : substring (pre ++ clean) (length pre + p + 3) (length pre + p + 5)
               = substring clean (p + 3) (p + 5)).
  { replace (length pre + p + 3) with (length pre + (p + 3)) by lia.
    replace (length pre + p + 5) with (length pre + (p + 5)) by lia.
    apply substring_app_r; lia. }
  constructor; rewrite ?E3, ?E5; try assumption.
  - rewrite length_app. lia.
  - replace (length pre + p + 5 + n) with (length pre + (p + 5 + n)) by lia.
    exact IH.
Qed.

Lemma Halt_app_r pre clean q es :
  Halt clean q es ->
  exists es', Halt (pre ++ clean) (length pre + q) es' /\
              length es' = length es.
Proof.
  assert (E3 : q + 5 <= length clean ->
               substring (pre ++ clean) (length pre + q) (length pre + q + 3)
               = substring clean q (q + 3)).
  { intros. replace (length pre + q + 3) with (length pre + (q + 3)) by lia.
    apply substring_app_r; lia. }
  assert (E5 : q + 5 <= length clean ->
               substring (pre ++ clean) (length pre + q + 3) (length pre + q + 5)
               = substring clean (q + 3) (q + 5)).
  { intros. replace (length pre + q + 3) with (length pre + (q + 3)) by lia.
    replace (length pre + q + 5) with (length pre + (q + 5)) by lia.
    apply substring_app_r; lia. }
  destruct 1 as [Hend|Hlt H5|H5 Hbad|n H5 Hk Hl Hn Hv].
  - exists []. split; [|reflexivity]. constructor. rewrite length_app. lia.
  - exists [entryErr ++ toString (length pre + q)]. split; [|reflexivity].
    apply Halt_entry; rewrite length_app; lia.
  - exists [formatErr ++ toString (length pre + q)]. split; [|reflexivity].
    apply Halt_format.
    + rewrite length_app; lia.
    + now rewrite E3, E5.
  - exists [valueErr ++ toString (length pre + q + 5)]. split; [|reflexivity].
    apply Halt_value with (n := n);
      rewrite ?E3, ?E5, ?length_app; auto; lia.
Qed.

End MoreFacts.

Module CoreExtras.
Import JS KLVParser Spec JSMore Components MoreSpec JSFacts ParseFacts MoreFacts.

Lemma Fields_located clean p fs q :
  Fields clean p fs q ->
  Forall (fun e =>
            pos e + 5 + len e <= length clean /\
            substring clean (pos e) (pos e + 5 + len e)
            = key e ++ padStart (toString (len e)) 2 48%N ++ value e) fs.
Proof.
  induction 1 as [p|p n q fs Hk Hl Hn Hle Hfs IH]; constructor; [|assumption].
  entry_simpl. split; [assumption|].
  destruct (two_digits _ Hl) as (m & Hm & _ & Hpad).
  assert (m = n) by congruence. subst m. rewrite Hpad.
  rewrite (substring_glue clean (p + 3) (p + 5) (p + 5 + n)) by lia.
  rewrite (substring_glue clean p (p + 3) (p + 5 + n)) by lia.
  reflexivity.
Qed.

(** X1. Every entry is located at its offset: the buffer holds, from [pos]
    on, the entry's key, its length on two digits and its value; the key
    is made of three digits, the length is at most 99 and the value holds
    no whitespace. *)
Theorem parse_entries_located (klvString : jsstring) (e : KLVEntry) :
  In e (results (parse klvString)) ->
  testDigits 3 (key e) = true /\ len e <= 99 /\
  blankFree (value e) = true /\
  pos e + 5 + len e <= length (stripWhitespace klvString) /\
  substring (stripWhitespace klvString) (pos e) (pos e + 5 + len e)
  = key e ++ padStart (toString (len e)) 2 48%N ++ value e.
Proof.
  intros He. destruct (parse_spec klvString) as (q & Hfs & _).
  pose proof (Fields_each _ _ _ _ Hfs) as H1.
  pose proof (Fields_located _ _ _ _ Hfs) as H2.
  pose proof (Fields_blankFree _ _ _ _ (blankFree_strip klvString) Hfs) as H3.
  rewrite Forall_forall in H1, H2, H3.
  specialize (H1 e He). specialize (H2 e He). specialize (H3 e He).
  simpl in H3. intuition lia.
Qed.

Lemma parse_entries_located_witness :
  In sampleSecond (results (parse sampleKLV)) /\
  substring (stripWhitespace sampleKLV) 11 20 = u "026044577".
Proof.
  assert (H : In sampleSecond (results (parse sampleKLV)))
    by (vm_compute; right; left; reflexivity).
  split; [exact H|].
  exact (proj2 (proj2 (proj2 (proj2
           (parse_entries_located sampleKLV sampleSecond H))))).
Defined.

Lemma makeEntry_decorated k n v p :
  (formattedValue (makeEntry k n v p) = None <->
   k <> u "049" /\ k <> u "026") /\
  (currencyInfo (makeEntry k n v p) <> None -> k = u "049") /\
  (mccInfo (makeEntry k n v p) <> None -> k = u "026").
Proof.
  unfold makeEntry, formatCurrency, formatMCC.
  destruct (eqb k (u "049")) eqn:E49;
    [apply eqb_eq in E49 | apply eqb_neq in E49];
    (destruct (eqb k (u "026")) eqn:E26;
     [apply eqb_eq in E26 | apply eqb_neq in E26]).
  - subst k. discriminate E26.
  - subst k. simpl negb. cbv iota zeta.
    destruct (get currencyMapping (padStart v 3 48%N)); simpl;
      (split; [split; [discriminate | tauto] | split; congruence]).
  - subst k. simpl negb. cbv iota zeta.
    destruct (truthy (readString (get mccMapping (padStart v 4 48%N)))); simpl;
      (split; [split; [discriminate | tauto] | split; congruence]).
  - simpl. split; [tauto | split; congruence].
Qed.

(** X2. An entry is annotated exactly when its key is 049 or 026, the
    currency detail appears under 049 only and the category detail under
    026 only, so that no entry carries both. *)
Theorem parse_decorations (klvString : jsstring) (e : KLVEntry) :
  In e (results (parse klvString)) ->
  (formattedValue e = None <-> key e <> u "049" /\ key e <> u "026") /\
  (currencyInfo e <> None -> key e = u "049") /\
  (mccInfo e <> None -> key e = u "026") /\
  (currencyInfo e = None \/ mccInfo e = None).
Proof.
  intros He. destruct (parse_spec klvString) as (q & Hfs & _).
  pose proof (Fields_made _ _ _ _ Hfs) as Hm.
  rewrite Forall_forall in Hm. specialize (Hm e He).
  destruct (makeEntry_decorated (key e) (len e) (value e) (pos e))
    as (H1 & H2 & H3).
  rewrite <- Hm in H1, H2, H3.
  split; [exact H1|]. split; [exact H2|]. split; [exact H3|].
  destruct (currencyInfo e) eqn:Ec; [|now left].
  destruct (mccInfo e) eqn:Em; [|now right].
  assert (K1 : key e = u "049") by (apply H2; discriminate).
  assert (K2 : key e = u "026") by (apply H3; discriminate).
  rewrite K1 in K2. discriminate K2.
Qed.

Lemma parse_decorations_witness :
  In sampleSecond (results (parse sampleKLV)) /\
  (currencyInfo sampleSecond = None \/ mccInfo sampleSecond = None).
Proof.
  assert (H : In sampleSecond (results (parse sampleKLV)))
    by (vm_compute; right; left; reflexivity).
  split; [exact H|].
  exact (proj2 (proj2 (proj2 (parse_decorations sampleKLV sampleSecond H)))).
Defined.

(** X3. Whitespace may stand anywhere in the input: [parse] returns the
    same result with or without it. *)
Theorem parse_ignores_whitespace (a w b : jsstring) :
  forallb isWhitespace w = true ->
  parse (a ++ w ++ b) = parse (a ++ b) /\
  validate (a ++ w ++ b) = validate (a ++ b).
Proof.
  intros Hw.
  assert (E : stripWhitespace (a ++ w ++ b) = stripWhitespace (a ++ b)).
  { unfold stripWhitespace. rewrite !filter_app.
    fold (stripWhitespace w). now rewrite (stripWhitespace_blank w Hw). }
  unfold validate, parse. now rewrite E.
Qed.

Lemma parse_ignores_whitespace_witness :
  forallb isWhitespace blankInput = true /\
  parse (u "00206AB" ++ blankInput ++ u "48DE") = parse (u "00206AB" ++ u "48DE").
Proof.
  assert (H : forallb isWhitespace blankInput = true)
    by (vm_compute; reflexivity).
  split; [exact H|].
  exact (proj1 (parse_ignores_whitespace (u "00206AB") blankInput (u "48DE") H)).
Defined.

(** X4. Parsing a concatenation. When the first part parses without error,
    the entries of the whole are those of the first part followed by those
    of the second part, moved right by the stripped length of the first;
    the whole is valid exactly when the second part is. *)
Theorem parse_concat (a b : jsstring) :
  errors (parse a) = [] ->
  results (parse (a ++ b))
  = results (parse a)
    ++ map (shiftEntry (length (stripWhitespace a))) (results (parse b)) /\
  length (errors (parse (a ++ b))) = length (errors (parse b)) /\
  isValid (validate (a ++ b)) = isValid (validate b).
Proof.
  intros Ha.
  destruct (parse_spec a) as (qa & Hfa & Hqa).
  destruct (parse_spec b) as (qb & Hfb & Hqb).
  assert (qa = length (stripWhitespace a)) as ->.
  { pose proof (Fields_inside _ _ _ _ Hfa (Nat.le_0_l _)).
    rewrite Ha in Hqa. inversion Hqa. lia. }
  destruct (Halt_app_r (stripWhitespace a) _ _ _ Hqb) as (es' & Hq' & Hlen).
  pose proof (Fields_app_r (stripWhitespace a) _ _ _ _ Hfb) as Hfb'.
  rewrite Nat.add_0_r in Hfb'.
  pose proof (Fields_trans _ _ _ _ _ _
                (Fields_app_l _ (stripWhitespace b) _ _ _ Hfa) Hfb') as Hall.
  assert (E : parse (a ++ b) = mkParseResult
                (results (parse a)
                 ++ map (shiftEntry (length (stripWhitespace a)))
                      (results (parse b))) es').
  { apply parse_complete with (q := length (stripWhitespace a) + qb);
      unfold stripWhitespace in *; rewrite filter_app; assumption. }
  unfold validate. rewrite E. simpl. now rewrite Hlen.
Qed.

Lemma parse_concat_witness :
  errors (parse (u "00206AB48DE")) = [] /\
  results (parse (u "00206AB48DE" ++ u "026044577"))
  = results (parse (u "00206AB48DE"))
    ++ map (shiftEntry (length (stripWhitespace (u "00206AB48DE"))))
         (results (parse (u "026044577"))).
Proof.
  assert (H : errors (parse (u "00206AB48DE")) = [])
    by (vm_compute; reflexivity).
  split; [exact H|].
  exact (proj1 (parse_concat (u "00206AB48DE") (u "026044577") H)).
Defined.

End CoreExtras.

Module BuildExtras.
Import JS KLVParser Spec JSMore Components MoreSpec JSFacts ParseFacts MoreFacts.

(** X7. [build] distributes over concatenation of entry lists. *)
Theorem build_app (xs ys : list KLVBuildEntry) :
  build (xs ++ ys) = build xs ++ build ys.
Proof.
  unfold build. rewrite !join_nil_concat, filter_app, map_app.
  apply concat_app.
Qed.

Lemma serialized_length (b : KLVBuildEntry) :
  kept b = true -> 6 <= length (buildOne b).
Proof.
  unfold kept, buildOne. rewrite andb_true_iff, !nonEmpty_true.
  intros [Hk Hv]. rewrite !length_app. unfold padStart.
  rewrite !length_app, !repeat_length. lia.
Qed.

Lemma build_length (entries : list KLVBuildEntry) :
  6 * length (filter kept entries) <= length (build entries).
Proof.
  induction entries as [|b bs IH]; [simpl; lia|].
  rewrite build_cons. fold (kept b). cbn [filter].
  destruct (kept b) eqn:Hb; [|assumption].
  pose proof (serialized_length b Hb). rewrite length_app. simpl length. lia.
Qed.

Lemma build_nil_unkept (entries : list KLVBuildEntry) :
  build entries = [] -> forallb (fun b => negb (kept b)) entries = true.
Proof.
  intros H. pose proof (build_length entries) as Hlen.
  rewrite H in Hlen. simpl in Hlen.
  assert (Hnil : filter kept entries = [])
    by (destruct (filter kept entries); [reflexivity | simpl in Hlen; lia]).
  apply forallb_forall. intros b Hb.
  destruct (kept b) eqn:E; [|reflexivity].
  assert (Hin : In b (filter kept entries)) by (apply filter_In; auto).
  rewrite Hnil in Hin. contradiction.
Qed.

Lemma build_unkept_nil (entries : list KLVBuildEntry) :
  forallb (fun b => negb (kept b)) entries = true -> build entries = [].
Proof.
  intros H. unfold build.
  replace (filter _ entries) with (@nil KLVBuildEntry); [reflexivity|].
  symmetry. fold kept.
  change (fun entry => nonEmpty (build_key entry) && nonEmpty (build_value entry))
    with kept.
  induction entries as [|b bs IH]; [reflexivity|].
  simpl in H. apply andb_true_iff in H as [Hb Hbs].
  apply negb_true_iff in Hb. simpl. rewrite Hb. now apply IH.
Qed.

(** X8. [build] returns the empty string exactly when it keeps no entry,
    that is when every entry lacks a key or a value; every entry it keeps
    takes six characters or more. *)
Theorem build_empty_iff (entries : list KLVBuildEntry) :
  (build entries = [] <-> forallb (fun b => negb (kept b)) entries = true) /\
  6 * length (filter kept entries) <= length (build entries).
Proof.
  split; [split|].
  - apply build_nil_unkept.
  - apply build_unkept_nil.
  - apply build_length.
Qed.

(** X6. What a list of entries must look like to come back from [parse
    (build entries)] as given: every key is made of exactly three digits
    and every value is shorter than 100 characters and free of whitespace. *)
Theorem round_trip_only_if (entries : list KLVBuildEntry) :
  map keyValue (results (parse (build entries))) = map givenKeyValue entries ->
  Forall (fun b => testDigits 3 (build_key b) = true /\
                   length (build_value b) <= 99 /\
                   blankFree (build_value b) = true) entries.
Proof.
  intros Heq. apply Forall_forall. intros b Hb.
  assert (Hin : In (givenKeyValue b) (map keyValue (results (parse (build entries)))))
    by (rewrite Heq; now apply in_map).
  apply in_map_iff in Hin as (e & He & Hine).
  unfold keyValue, givenKeyValue in He. injection He as Hk Hv.
  destruct (parse_spec (build entries)) as (q & Hfs & _).
  pose proof (Fields_each _ _ _ _ Hfs) as H1.
  pose proof (Fields_blankFree _ _ _ _ (blankFree_strip _) Hfs) as H3.
  rewrite Forall_forall in H1, H3.
  specialize (H1 e Hine). specialize (H3 e Hine). simpl in H3.
  rewrite <- Hk, <- Hv. intuition lia.
Qed.

Lemma round_trip_only_if_witness :
  map keyValue (results (parse (build
     [mkBuildEntry (u "002") (u "AB48DE"); mkBuildEntry (u "026") (u "4577")])))
  = map givenKeyValue
      [mkBuildEntry (u "002") (u "AB48DE"); mkBuildEntry (u "026") (u "4577")] /\
  Forall (fun b => testDigits 3 (build_key b) = true /\
                   length (build_value b) <= 99 /\
                   blankFree (build_value b) = true)
    [mkBuildEntry (u "002") (u "AB48DE"); mkBuildEntry (u "026") (u "4577")].
Proof.
  assert (H : map keyValue (results (parse (build
     [mkBuildEntry (u "002") (u "AB48DE"); mkBuildEntry (u "026") (u "4577")])))
  = map givenKeyValue
      [mkBuildEntry (u "002") (u "AB48DE"); mkBuildEntry (u "026") (u "4577")])
    by (vm_compute; reflexivity).
  split; [exact H|].
  exact (round_trip_only_if _ H).
Defined.

(** X5. Building what was parsed and parsing it again changes nothing: for
    an input without error and without empty value, [build] of the parsed
    pairs parses to the very same result. *)
Theorem parse_build_parse (klvString : jsstring) :
  errors (parse klvString) = [] ->
  Forall (fun e => value e <> []) (results (parse klvString)) ->
  parse (build (map toBuildEntry (results (parse klvString))))
  = parse klvString.
Proof.
  intros Herr Hne.
  destruct (parse_spec klvString) as (q & Hfs & Hq).
  pose proof (Fields_inside _ _ _ _ Hfs (Nat.le_0_l _)) as Hle.
  assert (q = length (stripWhitespace klvString)) as ->.
  { rewrite Herr in Hq. inversion Hq. lia. }
  rewrite (Fields_build _ _ _ _ Hfs Hne).
  rewrite substring_slice by lia. rewrite Nat.sub_0_r. simpl skipn.
  rewrite firstn_all. unfold parse.
  now rewrite (stripWhitespace_clean _ (blankFree_strip klvString)).
Qed.

Lemma parse_build_parse_witness :
  errors (parse spacedKLV) = [] /\
  Forall (fun e => value e <> []) (results (parse spacedKLV)) /\
  parse (build (map toBuildEntry (results (parse spacedKLV))))
  = parse spacedKLV.
Proof.
  assert (H : errors (parse spacedKLV) = []) by (vm_compute; reflexivity).
  assert (Hne : Forall (fun e => value e <> []) (results (parse spacedKLV)))
    by (vm_compute; repeat constructor; discriminate).
  split; [exact H|]. split; [exact Hne|].
  exact (parse_build_parse spacedKLV H Hne).
Defined.

End BuildExtras.

Module DecoratorExtras.
Import JS KLVParser Spec JSMore Components MoreSpec JSFacts ParseFacts Claims MoreFacts.

Lemma padStart_digits (s : jsstring) (n : nat) :
  forallb isDigit s = true -> forallb isDigit (padStart s n 48%N) = true.
Proof.
  intros H. unfold padStart. rewrite forallb_app, H, andb_true_r.
  apply forallb_forall. intros c Hc. apply repeat_spec in Hc. now subst.
Qed.

Lemma padStart_idem (s : jsstring) (n : nat) (c : N) :
  padStart (padStart s n c) n c = padStart s n c.
Proof.
  apply padStart_full. unfold padStart.
  rewrite length_app, repeat_length. lia.
Qed.

(** No member of [Object.prototype] has a name made of digits. *)
Lemma assoc_protoMembers_numeric (s : jsstring) :
  forallb isDigit s = true -> assoc s protoMembers = None.
Proof.
  intros Hd. destruct (assoc s protoMembers) as [m|] eqn:E; [|reflexivity].
  apply assoc_In in E.
  assert (Hall : forallb (fun km => match fst km with
                                    | c :: _ => negb (isDigit c)
                                    | [] => false
                                    end) protoMembers = true)
    by (vm_compute; reflexivity).
  rewrite forallb_forall in Hall. specialize (Hall _ E). simpl in Hall.
  destruct s as [|c s]; [discriminate|].
  simpl in Hd. apply andb_true_iff in Hd as [Hc _].
  rewrite Hc in Hall. discriminate.
Qed.

Lemma mccMapping_described (k d : jsstring) :
  assoc k mccMapping = Some d -> nonEmpty d = true.
Proof.
  intros E. apply assoc_In in E.
  assert (Hall : forallb (fun kd => nonEmpty (snd kd)) mccMapping = true)
    by (vm_compute; reflexivity).
  rewrite forallb_forall in Hall. exact (Hall _ E).
Qed.

(** X9. The category decorator on a numeric value. It answers under key
    026 only; it pads the value to four digits with zeros and looks the
    padded code up: a code of the table gives the code, a dash and the
    table's description, any other code gives the padded code with the
    unknown mark and no detail. Padding the value beforehand changes
    nothing. *)
Theorem formatMCC_numeric (value key : jsstring) :
  forallb isDigit value = true ->
  (key <> u "026" -> formatMCC value key = None) /\
  (forall description,
      assoc (padStart value 4 48%N) mccMapping = Some description ->
      formatMCC value (u "026") =
        Some {| mcc_formattedValue :=
                  padStart value 4 48%N ++ u " - " ++ description;
                mcc_info :=
                  Some {| mcc_code := padStart value 4 48%N;
                          mcc_description := VString description |} |}) /\
  (assoc (padStart value 4 48%N) mccMapping = None ->
   formatMCC value (u "026") =
     Some {| mcc_formattedValue := padStart value 4 48%N ++ u " (Unknown MCC)";
             mcc_info := None |}) /\
  formatMCC (padStart value 4 48%N) key = formatMCC value key.
Proof.
  intros Hd.
  pose proof (assoc_protoMembers_numeric _ (padStart_digits value 4 Hd)) as Hp.
  split; [|split; [|split]].
  - intros Hk. unfold formatMCC. apply eqb_neq in Hk. now rewrite Hk.
  - intros d E. pose proof (mccMapping_described _ _ E) as Hne.
    unfold formatMCC, get. rewrite E. simpl.
    destruct d; [discriminate | reflexivity].
  - intros E. unfold formatMCC, get. rewrite E, Hp. reflexivity.
  - unfold formatMCC. now rewrite padStart_idem.
Qed.

Lemma formatMCC_numeric_witness :
  forallb isDigit (u "742") = true /\
  assoc (padStart (u "742") 4 48%N) mccMapping = Some (u "Veterinary Services") /\
  formatMCC (u "742") (u "026") =
    Some {| mcc_formattedValue := u "0742 - Veterinary Services";
            mcc_info := Some {| mcc_code := u "0742";
                                mcc_description :=
                                  VString (u "Veterinary Services") |} |}.
Proof.
  assert (H : forallb isDigit (u "742") = true) by (vm_compute; reflexivity).
  assert (E : assoc (padStart (u "742") 4 48%N) mccMapping
              = Some (u "Veterinary Services")) by (vm_compute; reflexivity).
  split; [exact H|]. split; [exact E|].
  exact (proj1 (proj2 (formatMCC_numeric (u "742") (u "026") H)) _ E).
Defined.

(** X10. The currency decorator on a numeric value. It answers under key
    049 only; it pads the value to three digits with zeros and looks the
    padded code up: a code of the table gives the flag, the ISO code, a
    dash and the currency name, with the three as detail; any other code
    gives the value as it was written, not padded, with the unknown mark
    and no detail. *)
Theorem formatCurrency_numeric (value key : jsstring) :
  forallb isDigit value = true ->
  (key <> u "049" -> formatCurrency value key = None) /\
  (forall c,
      assoc (padStart value 3 48%N) currencyMapping = Some c ->
      formatCurrency value (u "049") =
        Some {| currency_formattedValue :=
                  currency_flag c ++ u " " ++ currency_code c ++ u " - "
                    ++ currency_name c;
                currency_info :=
                  Some {| info_code := VString (currency_code c);
                          info_name := VString (currency_name c);
                          info_flag := VString (currency_flag c) |} |}) /\
  (assoc (padStart value 3 48%N) currencyMapping = None ->
   formatCurrency value (u "049") =
     Some {| currency_formattedValue := value ++ u " (Unknown Currency Code)";
             currency_info := None |}).
Proof.
  intros Hd.
  pose proof (assoc_protoMembers_numeric _ (padStart_digits value 3 Hd)) as Hp.
  split; [|split].
  - apply formatCurrency_other_key.
  - apply formatCurrency_known.
  - intros E. now apply formatCurrency_unknown.
Qed.

Lemma formatCurrency_numeric_witness :
  forallb isDigit (u "36") = true /\
  assoc (padStart (u "36") 3 48%N) currencyMapping
  = Some (cur "Australian Dollar" "AUD" "AU") /\
  formatCurrency (u "36") (u "049") =
    Some {| currency_formattedValue :=
              flagOf "AU" ++ u " AUD - Australian Dollar";
            currency_info :=
              Some {| info_code := VString (u "AUD");
                      info_name := VString (u "Australian Dollar");
                      info_flag := VString (flagOf "AU") |} |}.
Proof.
  assert (H : forallb isDigit (u "36") = true) by (vm_compute; reflexivity).
  assert (E : assoc (padStart (u "36") 3 48%N) currencyMapping
              = Some (cur "Australian Dollar" "AUD" "AU"))
    by (vm_compute; reflexivity).
  split; [exact H|]. split; [exact E|].
  exact (proj1 (proj2 (formatCurrency_numeric (u "36") (u "049") H)) _ E).
Defined.

End DecoratorExtras.

Module JSMoreFacts.
Import JS JSMore JSFacts.

Lemma split_nonempty (sep : N) (s : jsstring) : split sep s <> [].
Proof.
  induction s as [|c s IH]; simpl; [discriminate|].
  destruct (N.eqb c sep); [discriminate|].
  destruct (split sep s); discriminate.
Qed.

Lemma split_plain (sep : N) (l : jsstring) :
  ~ In sep l -> split sep l = [l].
Proof.
  induction l as [|c l IH]; intros Hn; [reflexivity|].
  simpl. destruct (N.eqb c sep) eqn:E.
  - apply N.eqb_eq in E. subst. exfalso. apply Hn. now left.
  - rewrite IH; [reflexivity|]. intros H. apply Hn. now right.
Qed.

Lemma split_app (sep : N) (l rest : jsstring) :
  ~ In sep l -> split sep (l ++ sep :: rest) = l :: split sep rest.
Proof.
  induction l as [|c l IH]; intros Hn; simpl.
  - now rewrite N.eqb_refl.
  - destruct (N.eqb c sep) eqn:E.
    + apply N.eqb_eq in E. subst. exfalso. apply Hn. now left.
    + rewrite IH; [reflexivity|]. intros H. apply Hn. now right.
Qed.

(** Lines that hold no separator come back from their join. *)
Lemma split_join (sep : N) (ls : list jsstring) :
  ls <> [] -> Forall (fun l => ~ In sep l) ls ->
  split sep (join [sep] ls) = ls.
Proof.
  induction ls as [|l ls IH]; intros Hne Hall; [contradiction|].
  inversion Hall as [|? ? Hl Hls]; subst.
  destruct ls as [|l' ls'].
  - simpl. now apply split_plain.
  - rewrite join_cons. cbn [app]. rewrite split_app by assumption.
    f_equal. apply IH; [discriminate | assumption].
Qed.

Lemma stripWhitespace_trimStart (s : jsstring) :
  stripWhitespace (trimStart s) = stripWhitespace s.
Proof.
  induction s as [|c s IH]; [reflexivity|].
  cbn [trimStart]. destruct (isWhitespace c) eqn:E; [|reflexivity].
  rewrite IH. unfold stripWhitespace. cbn [filter]. now rewrite E.
Qed.

Lemma stripWhitespace_rev (s : jsstring) :
  stripWhitespace (rev s) = rev (stripWhitespace s).
Proof.
  unfold stripWhitespace. induction s as [|c s IH]; [reflexivity|].
  simpl. rewrite filter_app, IH. simpl.
  destruct (negb (isWhitespace c)); simpl; [reflexivity | apply app_nil_r].
Qed.

Lemma stripWhitespace_trim (s : jsstring) :
  stripWhitespace (trim s) = stripWhitespace s.
Proof.
  unfold trim, trimEnd.
  rewrite stripWhitespace_rev, stripWhitespace_trimStart,
    stripWhitespace_rev, rev_involutive.
  apply stripWhitespace_trimStart.
Qed.

Lemma trimStart_blank (s : jsstring) :
  trimStart s = [] <-> forallb isWhitespace s = true.
Proof.
  induction s as [|c s IH]; simpl; [tauto|].
  destruct (isWhitespace c); simpl; [exact IH|].
  split; discriminate.
Qed.

(** [line.trim()] is falsy exactly for a line of whitespace. *)
Lemma trim_blank (s : jsstring) :
  trim s = [] <-> forallb isWhitespace s = true.
Proof.
  split.
  - intros H. pose proof (stripWhitespace_trim s) as E. rewrite H in E.
    apply forallb_forall. intros c Hc.
    destruct (isWhitespace c) eqn:Ec; [reflexivity|].
    assert (In c (stripWhitespace s))
      by (apply filter_In; split; [assumption | now rewrite Ec]).
    rewrite <- E in H0. contradiction.
  - intros H. apply trimStart_blank in H. unfold trim, trimEnd.
    now rewrite H.
Qed.

Lemma mapIndexed_length {A B : Type} (f : A -> nat -> B) (xs : list A) :
  forall start, length (mapIndexed f start xs) = length xs.
Proof. induction xs; intros; simpl; [reflexivity | now rewrite IHxs]. Qed.

Lemma toString_digits (n : nat) : forallb isDigit (toString n) = true.
Proof.
  unfold toString. induction (Nat.to_uint n); simpl; auto.
Qed.

End JSMoreFacts.

Module BatchExtras.
Import JS KLVParser Spec JSMore Components MoreSpec JSFacts ParseFacts JSMoreFacts.

Lemma parse_trim (s : jsstring) : parse (trim s) = parse s.
Proof. unfold parse. now rewrite stripWhitespace_trim. Qed.

Lemma processBatch_from (ls : list jsstring) :
  forall start,
    let rs := mapIndexed
                (fun line index =>
                   {| line := index + 1;
                      input := trim line;
                      batch_results := results (parse (trim line));
                      batch_errors := errors (parse (trim line)) |})
                start ls in
    map line rs = seq (start + 1) (length ls) /\
    map input rs = map trim ls /\
    map batch_results rs = map (fun l => results (parse l)) ls /\
    map batch_errors rs = map (fun l => errors (parse l)) ls.
Proof.
  induction ls as [|l ls IH]; intros start; simpl; [auto|].
  destruct (IH (S start)) as (H1 & H2 & H3 & H4).
  cbv zeta in H1, H2, H3, H4. rewrite H1, H2, H3, H4, parse_trim.
  replace (S start + 1) with (S (start + 1)) by lia. auto.
Qed.

Lemma successful_failed (rs : list BatchResult) :
  successful rs + failed rs = length rs.
Proof.
  unfold successful, failed. induction rs as [|r rs IH]; [reflexivity|].
  simpl. destruct (length (batch_errors r)); simpl; lia.
Qed.

(** X15. What [processBatch] computes. The lines that are not blank are
    kept in order and numbered from 1 without gaps, blank lines not
    counted; each result shows its line trimmed and carries what [parse]
    returns for the line, trimmed or not; the two counters add up to the
    number of results, the first being the number of lines that validate. *)
Theorem processBatch_results (batchInput : jsstring) :
  map line (processBatch batchInput)
  = seq 1 (length (batchLines batchInput)) /\
  map input (processBatch batchInput) = map trim (batchLines batchInput) /\
  map batch_results (processBatch batchInput)
  = map (fun l => results (parse l)) (batchLines batchInput) /\
  map batch_errors (processBatch batchInput)
  = map (fun l => errors (parse l)) (batchLines batchInput) /\
  successful (processBatch batchInput) + failed (processBatch batchInput)
  = length (batchLines batchInput) /\
  successful (processBatch batchInput)
  = length (filter (fun l => isValid (validate l)) (batchLines batchInput)).
Proof.
  unfold processBatch.
  destruct (processBatch_from (batchLines batchInput) 0) as (H1 & H2 & H3 & H4).
  cbv zeta in H1, H2, H3, H4.
  repeat split; try assumption.
  - rewrite successful_failed. apply mapIndexed_length.
  - unfold successful.
    transitivity (length (filter (fun es => Nat.eqb (length es) 0)
                            (map batch_errors
                               (mapIndexed
                                  (fun line index =>
                                     {| line := index + 1;
                                        input := trim line;
                                        batch_results := results (parse (trim line));
                                        batch_errors := errors (parse (trim line)) |})
                                  0 (batchLines batchInput))))).
    + generalize (mapIndexed
                    (fun line index =>
                       {| line := index + 1;
                          input := trim line;
                          batch_results := results (parse (trim line));
                          batch_errors := errors (parse (trim line)) |})
                    0 (batchLines batchInput)).
      intros rs. induction rs as [|r rs IH]; [reflexivity|].
      simpl. destruct (Nat.eqb (length (batch_errors r)) 0); simpl; now rewrite IH.
    + rewrite H4. generalize (batchLines batchInput). intros ls.
      induction ls as [|l ls IH]; [reflexivity|].
      cbn [map filter].
      change (isValid (validate l))
        with (Nat.eqb (length (errors (parse l))) 0).
      destruct (Nat.eqb (length (errors (parse l))) 0); cbn [length];
        now rewrite IH.
Qed.

Lemma newlineFree_spec (l : jsstring) :
  newlineFree l = true -> ~ In 10%N l.
Proof.
  unfold newlineFree. intros H Hin. apply negb_true_iff in H.
  assert (existsb (N.eqb 10) l = true); [|congruence].
  apply existsb_exists. exists 10%N. split; [assumption | reflexivity].
Qed.

Lemma numbered_from (nonblank : list jsstring) :
  forall start,
    map (fun r => (line r, batch_results r, batch_errors r))
      (mapIndexed
         (fun line index =>
            {| line := index + 1;
               input := trim line;
               batch_results := results (parse (trim line));
               batch_errors := errors (parse (trim line)) |})
         start nonblank)
    = map (fun il => (fst il, results (parse (snd il)),
                      errors (parse (snd il))))
        (combine (seq (start + 1) (length nonblank)) nonblank).
Proof.
  induction nonblank as [|l nonblank IH]; intros start; [reflexivity|].
  cbn [mapIndexed map length seq combine fst snd line batch_results
         batch_errors].
  rewrite parse_trim. f_equal.
  replace (S (start + 1)) with (S start + 1) by lia.
  apply IH.
Qed.

(** X16. A batch text made of lines. When the text is the join of lines
    that hold no line feed, the results are, in order, those of the lines
    that are not blank: the i-th result is the parse of the i-th such line
    and bears the number i, whatever the number of blank lines before it. *)
Theorem processBatch_lines (ls : list jsstring) :
  ls <> [] -> forallb newlineFree ls = true ->
  batchLines (join [10%N] ls)
  = filter (fun l => negb (forallb isWhitespace l)) ls /\
  map (fun r => (line r, batch_results r, batch_errors r))
    (processBatch (join [10%N] ls))
  = map (fun il => (fst il, results (parse (snd il)), errors (parse (snd il))))
      (combine
         (seq 1 (length (filter (fun l => negb (forallb isWhitespace l)) ls)))
         (filter (fun l => negb (forallb isWhitespace l)) ls)).
Proof.
  intros Hne Hnl.
  assert (Hlines : batchLines (join [10%N] ls)
                   = filter (fun l => negb (forallb isWhitespace l)) ls).
  { unfold batchLines. rewrite split_join; [|assumption|].
    - apply filter_ext. intros l.
      destruct (forallb isWhitespace l) eqn:E.
      + apply trim_blank in E. now rewrite E.
      + destruct (trim l) eqn:Et; [|reflexivity].
        apply trim_blank in Et. congruence.
    - apply Forall_forall. intros l Hl. apply newlineFree_spec.
      rewrite forallb_forall in Hnl. now apply Hnl. }
  split; [assumption|].
  unfold processBatch. rewrite Hlines.
  apply (numbered_from (filter (fun l => negb (forallb isWhitespace l)) ls) 0).
Qed.

Lemma processBatch_lines_witness :
  [u "00206AB48DE"; u "  "; u "026044577"] <> [] /\
  forallb newlineFree [u "00206AB48DE"; u "  "; u "026044577"] = true /\
  map line (processBatch (join [10%N]
     [u "00206AB48DE"; u "  "; u "026044577"])) = [1; 2].
Proof.
  assert (H1 : [u "00206AB48DE"; u "  "; u "026044577"] <> [])
    by discriminate.
  assert (H2 : forallb newlineFree [u "00206AB48DE"; u "  "; u "026044577"]
               = true) by (vm_compute; reflexivity).
  split; [exact H1|]. split; [exact H2|].
  pose proof (f_equal (map (fun t => fst (fst t)))
                (proj2 (processBatch_lines _ H1 H2))) as E.
  rewrite map_map in E. simpl in E. exact E.
Defined.

End BatchExtras.

Module StatsExtras.
Import JS KLVParser Spec JSMore Components MoreSpec JSFacts ParseFacts Claims JSMoreFacts.

Lemma readCount_set_same (k : jsstring) (v : nat) (o : list (jsstring * nat)) :
  readCount (setProperty k v o) k = v.
Proof.
  unfold readCount. induction o as [|[k' v'] o IH]; simpl.
  - now rewrite eqb_refl.
  - destruct (eqb k k') eqn:E; simpl; rewrite E; [reflexivity | exact IH].
Qed.

Lemma readCount_set_other (k k' : jsstring) (v : nat)
  (o : list (jsstring * nat)) :
  k' <> k -> readCount (setProperty k v o) k' = readCount o k'.
Proof.
  intros Hne. unfold readCount. induction o as [|[k0 v0] o IH]; simpl.
  - apply eqb_neq in Hne. now rewrite Hne.
  - destruct (eqb k k0) eqn:E; simpl.
    + apply eqb_eq in E. subst k0.
      apply eqb_neq in Hne. now rewrite Hne.
    + destruct (eqb k' k0); [reflexivity | exact IH].
Qed.

Lemma setProperty_keys (k : jsstring) (v : nat) (o : list (jsstring * nat)) :
  forall k', In k' (map fst (setProperty k v o)) ->
             k' = k \/ In k' (map fst o).
Proof.
  induction o as [|[k0 v0] o IH]; simpl; intros k' H.
  - destruct H as [<-|[]]. now left.
  - destruct (eqb k k0) eqn:E; simpl in H.
    + right. exact H.
    + destruct H as [<-|H]; [right; now left|].
      destruct (IH _ H); [now left | right; now right].
Qed.

Lemma statsLoop_spec (rs : list KLVEntry) :
  forall st,
    let st' := fold_left statsStep rs st in
    loop_knownKeys st' = loop_knownKeys st + length (filter isKnown rs) /\
    loop_totalValueLength st'
    = loop_totalValueLength st + list_sum (map len rs) /\
    readCount (loop_keyTypes st') (u "Known")
    = readCount (loop_keyTypes st) (u "Known") + length (filter isKnown rs) /\
    readCount (loop_keyTypes st') (u "Unknown")
    = readCount (loop_keyTypes st) (u "Unknown")
      + (length rs - length (filter isKnown rs)) /\
    (forall k, In k (map fst (loop_keyTypes st')) ->
               k = u "Known" \/ k = u "Unknown"
               \/ In k (map fst (loop_keyTypes st))).
Proof.
  induction rs as [|e rs IH]; intros st.
  - simpl. repeat split; try lia. auto.
  - cbn [fold_left]. destruct (IH (statsStep st e)) as (H1 & H2 & H3 & H4 & H5).
    cbv zeta in *.
    pose proof (filter_length_le isKnown rs) as Hle.
    rewrite H1, H2, H3, H4. clear H1 H2 H3 H4.
    unfold statsStep at 1 2 3 4. fold (isKnown e).
    cbn [filter map list_sum length loop_knownKeys loop_totalValueLength
           loop_keyTypes]. unfold list_sum. cbn [fold_right].
    destruct (isKnown e) eqn:Ek; cbn [length].
    + rewrite readCount_set_same.
      rewrite readCount_set_other by discriminate.
      repeat split; try lia.
      intros k Hk. destruct (H5 k Hk) as [->|[->|Hin]]; auto.
      unfold statsStep in Hin. fold (isKnown e) in Hin. rewrite Ek in Hin.
      cbn [loop_keyTypes] in Hin.
      destruct (setProperty_keys _ _ _ _ Hin); auto.
    + rewrite readCount_set_same.
      rewrite readCount_set_other by discriminate.
      repeat split; try lia.
      intros k Hk. destruct (H5 k Hk) as [->|[->|Hin]]; auto.
      unfold statsStep in Hin. fold (isKnown e) in Hin. rewrite Ek in Hin.
      cbn [loop_keyTypes] in Hin.
      destruct (setProperty_keys _ _ _ _ Hin); auto.
Qed.

(** X13. The figures of [Statistics] agree with each other: known and
    unknown keys add up to the total, the known ones being the entries
    whose name is not [Unknown]; the total length is the sum of the
    entries' [len]; and [keyTypes] holds the same two counts under [Known]
    and [Unknown] and no other category. *)
Theorem stats_consistent (rs : list KLVEntry) :
  total (computeStats rs) = length rs /\
  knownKeys (computeStats rs) = length (filter isKnown rs) /\
  knownKeys (computeStats rs) + unknownKeys (computeStats rs)
  = total (computeStats rs) /\
  totalValueLength (computeStats rs) = list_sum (map len rs) /\
  readCount (keyTypes (computeStats rs)) (u "Known")
  = knownKeys (computeStats rs) /\
  readCount (keyTypes (computeStats rs)) (u "Unknown")
  = unknownKeys (computeStats rs) /\
  Forall (fun kv => fst kv = u "Known" \/ fst kv = u "Unknown")
    (keyTypes (computeStats rs)).
Proof.
  destruct (statsLoop_spec rs (mkStatsLoop [] 0 0)) as (H1 & H2 & H3 & H4 & H5).
  cbv zeta in *. simpl in H1, H2, H3, H4.
  pose proof (filter_length_le isKnown rs) as Hle.
  unfold computeStats. simpl.
  repeat split; try lia.
  apply Forall_forall. intros [k v] Hkv.
  assert (Hin : In k (map fst (loop_keyTypes
                        (fold_left statsStep rs (mkStatsLoop [] 0 0)))))
    by (apply in_map_iff; exists (k, v); auto).
  destruct (H5 k Hin) as [->|[->|[]]]; simpl; auto.
Qed.

Lemma stats_consistent_parts (rs : list KLVEntry) :
  total (computeStats rs) = length rs /\
  knownKeys (computeStats rs) = length (filter isKnown rs) /\
  totalValueLength (computeStats rs) = list_sum (map len rs).
Proof.
  destruct (statsLoop_spec rs (mkStatsLoop [] 0 0)) as (H1 & H2 & _).
  cbv zeta in *. simpl in H1, H2. unfold computeStats. simpl. auto.
Qed.

Lemma definitions_not_unknown (k fieldName : jsstring) :
  assoc k definitions = Some fieldName -> fieldName <> u "Unknown".
Proof.
  intros E. apply assoc_In in E.
  assert (Hall : forallb (fun kn => negb (eqb (snd kn) (u "Unknown")))
                   definitions = true) by (vm_compute; reflexivity).
  rewrite forallb_forall in Hall. specialize (Hall _ E). simpl in Hall.
  apply negb_true_iff in Hall. now apply eqb_neq.
Qed.

Lemma lookupName_known (k : jsstring) :
  negb (eqb (lookupName k) (u "Unknown")) = isRegistered k.
Proof.
  unfold isRegistered. destruct (assoc k definitions) as [n|] eqn:E.
  - rewrite (lookupName_found _ _ E).
    apply negb_true_iff, eqb_neq. eapply definitions_not_unknown, E.
  - rewrite (lookupName_fallback _ E). now rewrite eqb_refl.
Qed.

(** X14. The figures of [Statistics] for what [parse] returns: an entry
    counts as known exactly when its key is registered in the directory,
    and the total length shown is the part of the stripped input that was
    parsed less five characters for each entry, that is, for an input
    without error, the stripped length less five times the number of
    entries. *)
Theorem stats_of_parse (klvString : jsstring) :
  knownKeys (computeStats (results (parse klvString)))
  = length (filter (fun e => isRegistered (key e))
              (results (parse klvString))) /\
  totalValueLength (computeStats (results (parse klvString)))
  + 5 * total (computeStats (results (parse klvString)))
  <= length (stripWhitespace klvString) /\
  (errors (parse klvString) = [] ->
   totalValueLength (computeStats (results (parse klvString)))
   + 5 * total (computeStats (results (parse klvString)))
   = totalLength (validate klvString)).
Proof.
  destruct (stats_consistent_parts (results (parse klvString)))
    as (Ht & Hk & Hl).
  destruct (parse_spec klvString) as (q & Hfs & Hq).
  pose proof (Fields_inside _ _ _ _ Hfs (Nat.le_0_l _)) as Hle.
  pose proof (Fields_span _ _ _ _ Hfs) as Hspan.
  pose proof (Fields_each _ _ _ _ Hfs) as Heach.
  assert (Hsum : forall rs, list_sum (map fieldSpan rs)
                            = list_sum (map len rs) + 5 * length rs).
  { induction rs as [|e rs IH]; [reflexivity|].
    cbn [map length]. unfold list_sum in *. cbn [fold_right].
    unfold fieldSpan at 1. lia. }
  rewrite Ht, Hk, Hl. rewrite Hsum in Hspan.
  split; [|split].
  - apply (f_equal (@length KLVEntry)). apply filter_ext_in. intros e He.
    rewrite Forall_forall in Heach. specialize (Heach e He).
    unfold isKnown. destruct Heach as (_ & _ & _ & _ & _ & ->).
    apply lookupName_known.
  - lia.
  - intros Herr. rewrite Herr in Hq. inversion Hq.
    unfold validate. simpl. lia.
Qed.

Lemma stats_of_parse_witness :
  errors (parse sampleKLV) = [] /\
  totalValueLength (computeStats (results (parse sampleKLV)))
  + 5 * total (computeStats (results (parse sampleKLV)))
  = totalLength (validate sampleKLV).
Proof.
  assert (H : errors (parse sampleKLV) = []) by (vm_compute; reflexivity).
  split; [exact H|].
  exact (proj2 (proj2 (stats_of_parse sampleKLV)) H).
Defined.

End StatsExtras.

Module BuilderExtras.
Import JS KLVParser Spec JSMore Components MoreSpec JSFacts ParseFacts Claims JSMoreFacts.
Import BuildExtras StatsExtras.

Lemma filterIndexed_remove {A : Type} (xs : list A) :
  forall start index,
    filterIndexed (fun _ i => negb (Nat.eqb i (start + index))) start xs
    = firstn index xs ++ skipn (S index) xs.
Proof.
  induction xs as [|x xs IH]; intros start index.
  - now destruct index.
  - cbn [filterIndexed]. destruct index as [|index].
    + rewrite Nat.add_0_r, Nat.eqb_refl. cbn [negb firstn skipn app].
      clear IH. revert start. induction xs as [|y ys IHy]; intros start;
        [reflexivity|].
      cbn [filterIndexed].
      replace (Nat.eqb (S start) start) with false
        by (symmetry; apply Nat.eqb_neq; lia).
      cbn [negb]. f_equal.
      assert (Hgen : forall k, start < k ->
                filterIndexed (fun (_ : A) i => negb (Nat.eqb i start)) k ys = ys).
      { clear. intros k. revert k. induction ys as [|z zs IHz]; intros k Hk;
          [reflexivity|].
        cbn [filterIndexed].
        replace (Nat.eqb k start) with false
          by (symmetry; apply Nat.eqb_neq; lia).
        cbn [negb]. f_equal. apply IHz. lia. }
      apply Hgen. lia.
    + replace (Nat.eqb start (start + S index)) with false
        by (symmetry; apply Nat.eqb_neq; lia).
      cbn [negb firstn skipn app]. f_equal.
      replace (start + S index) with (S start + index) by lia.
      apply IH.
Qed.

Lemma filterIndexed_remove0 {A : Type} (xs : list A) (index : nat) :
  filterIndexed (fun _ i => negb (Nat.eqb i index)) 0 xs
  = firstn index xs ++ skipn (S index) xs.
Proof. exact (filterIndexed_remove xs 0 index). Qed.

Lemma filterIndexed_beyond {A : Type} (xs : list A) :
  forall start index,
    start + length xs <= index ->
    filterIndexed (fun _ i => negb (Nat.eqb i index)) start xs = xs.
Proof.
  induction xs as [|x xs IH]; intros start index H; [reflexivity|].
  cbn [filterIndexed]. simpl in H.
  replace (Nat.eqb start index) with false
    by (symmetry; apply Nat.eqb_neq; lia).
  cbn [negb]. f_equal. apply IH. lia.
Qed.

(** X18. [removeEntry] takes out the row at [index] and no other, provided
    there are two rows or more and the index is one of them; the last row
    cannot be removed, and an index beyond the rows removes nothing. *)
Theorem removeEntry_spec (entries : list KLVBuildEntry) (index : nat) :
  (2 <= length entries -> index < length entries ->
   removeEntry entries index
   = firstn index entries ++ skipn (S index) entries /\
   length (removeEntry entries index) = length entries - 1) /\
  (length entries <= 1 -> removeEntry entries index = entries) /\
  (length entries <= index -> removeEntry entries index = entries).
Proof.
  unfold removeEntry. split; [|split].
  - intros H2 Hi.
    replace (1 <? length entries) with true by (symmetry; apply Nat.ltb_lt; lia).
    rewrite (filterIndexed_remove0 entries index). split; [reflexivity|].
    rewrite length_app, length_firstn, length_skipn. lia.
  - intros H1.
    now replace (1 <? length entries) with false
      by (symmetry; apply Nat.ltb_ge; lia).
  - intros Hi. destruct (1 <? length entries); [|reflexivity].
    apply filterIndexed_beyond. lia.
Qed.

Lemma removeEntry_spec_witness :
  2 <= length [mkBuildEntry (u "002") (u "A"); mkBuildEntry (u "026") (u "B");
               mkBuildEntry (u "049") (u "C")] /\
  1 < length [mkBuildEntry (u "002") (u "A"); mkBuildEntry (u "026") (u "B");
              mkBuildEntry (u "049") (u "C")] /\
  removeEntry [mkBuildEntry (u "002") (u "A"); mkBuildEntry (u "026") (u "B");
               mkBuildEntry (u "049") (u "C")] 1
  = [mkBuildEntry (u "002") (u "A"); mkBuildEntry (u "049") (u "C")].
Proof.
  assert (H2 : 2 <= length [mkBuildEntry (u "002") (u "A");
                            mkBuildEntry (u "026") (u "B");
                            mkBuildEntry (u "049") (u "C")]) by (simpl; lia).
  assert (H1 : 1 < length [mkBuildEntry (u "002") (u "A");
                           mkBuildEntry (u "026") (u "B");
                           mkBuildEntry (u "049") (u "C")]) by (simpl; lia).
  split; [exact H2|]. split; [exact H1|].
  exact (proj1 (proj1 (removeEntry_spec _ 1) H2 H1)).
Defined.

Lemma updateEntry_length entries index field value entries' :
  updateEntry entries index field value = Some entries' ->
  length entries' = length entries.
Proof.
  unfold updateEntry. destruct (nth_error entries index); [|discriminate].
  intros [= <-]. apply mapIndexed_length.
Qed.

Lemma builderStep_nonempty entries a :
  1 <= length entries -> 1 <= length (builderStep entries a).
Proof.
  intros H. destruct a as [|index field value|index|]; simpl.
  - unfold addEntry. rewrite length_app. simpl. lia.
  - destruct (updateEntry entries index field value) eqn:E; [|assumption].
    now rewrite (updateEntry_length _ _ _ _ _ E).
  - unfold removeEntry. destruct (1 <? length entries) eqn:E; [|assumption].
    apply Nat.ltb_lt in E.
    destruct (Nat.lt_ge_cases index (length entries)) as [Hi|Hi].
    + rewrite (filterIndexed_remove0 entries index).
      rewrite length_app, length_firstn, length_skipn. lia.
    + rewrite filterIndexed_beyond by lia. assumption.
  - lia.
Qed.

(** X17. The builder never runs out of rows: whatever the user does, in
    any order, at least one row is left. *)
Theorem builder_never_empty (actions : list BuilderAction) :
  1 <= length (builderRun actions).
Proof.
  unfold builderRun.
  assert (H : 1 <= length initialEntries) by (simpl; lia).
  revert H. generalize initialEntries.
  induction actions as [|a actions IH]; intros entries H; [assumption|].
  simpl. apply IH. now apply builderStep_nonempty.
Qed.

Lemma isRegistered_nonEmpty (k : jsstring) :
  isRegistered k = true -> nonEmpty k = true.
Proof.
  unfold isRegistered. destruct (assoc k definitions) eqn:E; [|discriminate].
  intros _. apply assoc_In in E.
  assert (Hall : forallb (fun kn => nonEmpty (fst kn)) definitions = true)
    by (vm_compute; reflexivity).
  rewrite forallb_forall in Hall. exact (Hall _ E).
Qed.

Lemma mapIndexed_Forall {A : Type} (P : A -> Prop) (f : A -> nat -> A)
  (xs : list A) :
  (forall x i, P x -> P (f x i)) ->
  forall start, Forall P xs -> Forall P (mapIndexed f start xs).
Proof.
  intros Hf. induction xs as [|x xs IH]; intros start H; [constructor|].
  inversion H; subst. simpl. constructor; auto.
Qed.

Lemma filterIndexed_Forall {A : Type} (P : A -> Prop) (f : A -> nat -> bool)
  (xs : list A) :
  forall start, Forall P xs -> Forall P (filterIndexed f start xs).
Proof.
  induction xs as [|x xs IH]; intros start H; [constructor|].
  inversion H; subst. simpl. destruct (f x start); auto.
Qed.

Lemma builderStep_registered entries a :
  fromSelect a = true ->
  Forall (fun b => isRegistered (build_key b) = true) entries ->
  Forall (fun b => isRegistered (build_key b) = true) (builderStep entries a).
Proof.
  intros Ha H. destruct a as [|index field value|index|]; simpl.
  - unfold addEntry. apply Forall_app. split; [assumption|].
    repeat constructor.
  - unfold updateEntry. destruct (nth_error entries index); [|assumption].
    apply mapIndexed_Forall; [|assumption].
    intros b i Hb. destruct (Nat.eqb i index); [|assumption].
    destruct field; simpl; [exact Ha | exact Hb].
  - unfold removeEntry. destruct (1 <? length entries); [|assumption].
    now apply filterIndexed_Forall.
  - repeat constructor.
Qed.

Lemma buildKLV_keys entries :
  Forall (fun b => nonEmpty (build_key b) = true) entries ->
  (buildKLV entries = None <-> buildDisabled entries = true) /\
  (forall klvString, buildKLV entries = Some klvString ->
                     klvString = build entries /\ 6 <= length klvString).
Proof.
  intros Hkeys. unfold buildKLV, buildDisabled.
  assert (Hiff : nonEmpty (build entries) = false
                 <-> forallb (fun e => negb (nonEmpty (build_value e))) entries
                     = true).
  { assert (Hb : build entries = []
                 <-> forallb (fun b => negb (kept b)) entries = true)
      by (split; [apply build_nil_unkept | apply build_unkept_nil]).
    split.
    - intros H. assert (Hnil : build entries = [])
        by (destruct (build entries); [reflexivity | discriminate]).
      apply Hb in Hnil. rewrite forallb_forall in *. intros b Hin.
      specialize (Hnil b Hin). rewrite Forall_forall in Hkeys.
      unfold kept in Hnil. rewrite (Hkeys b Hin) in Hnil. exact Hnil.
    - intros H. assert (Hall : forallb (fun b => negb (kept b)) entries = true).
      { rewrite forallb_forall in *. intros b Hin. specialize (H b Hin).
        unfold kept. apply negb_true_iff in H. rewrite H.
        now rewrite andb_false_r. }
      apply Hb in Hall. now rewrite Hall. }
  split.
  - destruct (nonEmpty (build entries)) eqn:E.
    + split; [discriminate|]. intros H. apply Hiff in H. discriminate.
    + split; [intros _; now apply Hiff | reflexivity].
  - intros klv. destruct (nonEmpty (build entries)) eqn:E; [|discriminate].
    intros [= <-]. split; [reflexivity|].
    pose proof (build_unkept_nil entries) as Hb.
    pose proof (build_length entries) as Hlen.
    destruct (filter kept entries) eqn:Ef.
    + assert (Hall : forallb (fun b => negb (kept b)) entries = true).
      { apply forallb_forall. intros b Hin.
        destruct (kept b) eqn:Ek; [|reflexivity].
        assert (In b (filter kept entries)) by (apply filter_In; auto).
        rewrite Ef in H. contradiction. }
      apply Hb in Hall. rewrite Hall in E. discriminate.
    + simpl in Hlen. lia.
Qed.

(** X19. The button and the build agree. As long as keys are chosen in the
    select, every row has a key of the directory, and [Build KLV] hands a
    string to [onBuild] exactly when the button is enabled, that is when
    some value is not empty; the string is [build] of the rows and is six
    characters long or more. *)
Theorem builder_build_enabled (actions : list BuilderAction) :
  forallb fromSelect actions = true ->
  Forall (fun b => isRegistered (build_key b) = true) (builderRun actions) /\
  (buildKLV (builderRun actions) = None
   <-> buildDisabled (builderRun actions) = true) /\
  (forall klvString,
      buildKLV (builderRun actions) = Some klvString ->
      klvString = build (builderRun actions) /\ 6 <= length klvString).
Proof.
  intros Hsel.
  assert (Hreg : Forall (fun b => isRegistered (build_key b) = true)
                   (builderRun actions)).
  { unfold builderRun.
    assert (H0 : Forall (fun b => isRegistered (build_key b) = true)
                   initialEntries) by (repeat constructor).
    revert H0 Hsel. generalize initialEntries.
    induction actions as [|a actions IH]; intros entries H0 Hsel;
      [assumption|].
    simpl in Hsel. apply andb_true_iff in Hsel as [Ha Hrest].
    simpl. apply IH; [|assumption]. now apply builderStep_registered. }
  split; [assumption|].
  apply buildKLV_keys.
  eapply Forall_impl; [|exact Hreg]. intros b. apply isRegistered_nonEmpty.
Qed.

Lemma builder_build_enabled_witness :
  forallb fromSelect sampleActions = true /\
  Forall (fun b => isRegistered (build_key b) = true)
    (builderRun sampleActions).
Proof.
  assert (H : forallb fromSelect sampleActions = true)
    by (vm_compute; reflexivity).
  split; [exact H|].
  exact (proj1 (builder_build_enabled sampleActions H)).
Defined.

End BuilderExtras.

Module PanelExtras.
Import JS KLVParser Spec JSMore Components MoreSpec JSFacts ParseFacts Claims JSMoreFacts.
Import MoreFacts BatchExtras.

Lemma addToHistory_step now localeString history d l :
  map data (addToHistory now localeString history d l)
  = d :: firstn 9 (map data history) /\
  length (addToHistory now localeString history d l)
  = S (Nat.min 9 (length history)) /\
  (Forall (fun h => resultCount h = entriesCount (validate (data h))) history ->
   Forall (fun h => resultCount h = entriesCount (validate (data h)))
     (addToHistory now localeString history d l)).
Proof.
  unfold addToHistory. split; [|split].
  - cbn [map data]. now rewrite firstn_map.
  - cbn [length]. now rewrite length_firstn.
  - intros Hc. constructor; [reflexivity|].
    apply Forall_forall. intros h Hh. apply In_firstn in Hh.
    rewrite Forall_forall in Hc. now apply Hc.
Qed.

(** X20. The history holds the last ten inputs, newest first: after any
    number of additions its data are the ten most recent ones in reverse
    order of addition, each with the number of entries that [parse]
    returns for it. *)
Theorem history_last_ten (adds : list HistoryAdd) :
  map data (historyRun adds) = firstn 10 (rev (map add_data adds)) /\
  length (historyRun adds) = Nat.min 10 (length adds) /\
  Forall (fun h => resultCount h = entriesCount (validate (data h)))
    (historyRun adds).
Proof.
  unfold historyRun.
  induction adds as [|a adds IH] using rev_ind; [simpl; auto|].
  destruct IH as (Hd & Hl & Hc).
  rewrite fold_left_app. cbn [fold_left].
  set (h := fold_left historyStep adds []) in *. unfold historyStep.
  destruct (addToHistory_step (add_now a) (add_localeString a) h
              (add_data a) (add_label a)) as (Sd & Sl & Sc).
  split; [|split].
  - rewrite Sd, Hd, firstn_firstn, map_app, rev_app_distr. reflexivity.
  - rewrite Sl, Hl, length_app. cbn [length]. lia.
  - now apply Sc.
Qed.

Lemma replaceChar_free (c d : N) (s : jsstring) :
  c <> d -> ~ In c (replaceChar c d s).
Proof.
  intros Hcd Hin. unfold replaceChar in Hin.
  apply in_map_iff in Hin as (x & Hx & _).
  destruct (N.eqb x c) eqn:E; [congruence|].
  apply N.eqb_neq in E. congruence.
Qed.

Lemma export_csv_lines (stringify : list KLVEntry -> jsstring)
  (rs : list KLVEntry) :
  rs <> [] -> export stringify rs csv = csvLines rs.
Proof.
  intros Hne. unfold export, csvLines. cbv zeta. fold csvHeader.
  assert (Hrows : map csvRow rs = map csvLine rs).
  { apply map_ext. intros e. unfold csvRow, csvLine, quoted. simpl.
    now rewrite <- !app_assoc. }
  rewrite Hrows. destruct rs as [|e rs']; [contradiction|].
  cbn [map]. rewrite join_cons. now rewrite <- app_assoc.
Qed.

(** X21. What the export panel hands to the download. The panel offers
    nothing for an empty list. When it offers a download, the file name is
    [klv-data-], the first 19 characters of the ISO time with every colon
    turned into a dash, a dot and the extension of the format: it never
    holds a colon; and the tabular content is the header line and the
    entries' lines joined by line feeds, without a line feed at the end. *)
Theorem exportPanel_download (stringify : list KLVEntry -> jsstring)
  (rs : list KLVEntry) :
  (ExportPanel stringify rs = None <-> rs = []) /\
  (forall offer isoString format,
      ExportPanel stringify rs = Some offer ->
      ~ In 58%N (filename (offer isoString format)) /\
      (19 <= length isoString ->
       length (filename (offer isoString format))
       = 29 + length (extensions format)) /\
      content (offer isoString format) = export stringify rs format /\
      content (offer isoString csv) = csvLines rs).
Proof.
  unfold ExportPanel. split.
  - destruct rs; simpl; split; congruence.
  - intros offer iso format.
    destruct (Nat.eqb (length rs) 0) eqn:E; [discriminate|].
    intros [= <-]. apply Nat.eqb_neq in E.
    assert (Hne : rs <> []) by (intros ->; apply E; reflexivity).
    unfold exportData. cbn [filename content].
    split; [|split; [|split]].
    + intros Hin. apply in_app_or in Hin as [Hin|Hin].
      { revert Hin. vm_compute. intuition discriminate. }
      apply in_app_or in Hin as [Hin|Hin].
      { revert Hin. apply replaceChar_free. discriminate. }
      apply in_app_or in Hin as [Hin|Hin].
      { revert Hin. vm_compute. intuition discriminate. }
      revert Hin. destruct format; vm_compute; intuition discriminate.
    + intros Hiso. rewrite !length_app. unfold replaceChar.
      rewrite length_map, length_firstn. simpl length. lia.
    + reflexivity.
    + now apply export_csv_lines.
Qed.

Lemma exportPanel_download_witness :
  ExportPanel noStringify [sampleFirst]
  = Some (exportData noStringify [sampleFirst]) /\
  content (exportData noStringify [sampleFirst] sampleIso csv)
  = csvLines [sampleFirst].
Proof.
  assert (H : ExportPanel noStringify [sampleFirst]
              = Some (exportData noStringify [sampleFirst])) by reflexivity.
  split; [exact H|].
  exact (proj2 (proj2 (proj2
           (proj2 (exportPanel_download noStringify [sampleFirst])
              (exportData noStringify [sampleFirst]) sampleIso csv H)))).
Defined.

End PanelExtras.

Module ExportExtras.
Import JS KLVParser Spec JSMore Components MoreSpec JSFacts ParseFacts Claims JSMoreFacts.
Import MoreFacts BatchExtras StatsExtras.

Lemma newlineFree_app (a b : jsstring) :
  newlineFree (a ++ b) = newlineFree a && newlineFree b.
Proof.
  unfold newlineFree. rewrite existsb_app. now destruct (existsb _ a).
Qed.

Lemma newlineFree_digits (s : jsstring) :
  forallb isDigit s = true -> newlineFree s = true.
Proof.
  unfold newlineFree. induction s as [|c s IH]; [reflexivity|].
  cbn [forallb existsb]. intros H. apply andb_true_iff in H as [Hc Hs].
  apply isDigit_cases in Hc. simpl in Hc.
  specialize (IH Hs). apply negb_true_iff in IH. rewrite IH.
  repeat destruct Hc as [<- | Hc]; try reflexivity. contradiction.
Qed.

Lemma newlineFree_blankFree (s : jsstring) :
  blankFree s = true -> newlineFree s = true.
Proof.
  unfold newlineFree, blankFree. induction s as [|c s IH]; [reflexivity|].
  cbn [forallb existsb]. intros H. apply andb_true_iff in H as [Hc Hs].
  specialize (IH Hs). apply negb_true_iff in IH. rewrite IH.
  destruct (N.eqb 10 c) eqn:E; [|reflexivity].
  apply N.eqb_eq in E. subst c. discriminate Hc.
Qed.

Lemma newlineFree_repeat (n : nat) : newlineFree (repeat 32%N n) = true.
Proof.
  unfold newlineFree. induction n as [|n IH]; [reflexivity|].
  cbn [repeat existsb]. apply negb_true_iff in IH. now rewrite IH.
Qed.

Lemma newlineFree_lookupName (k : jsstring) :
  newlineFree (lookupName k) = true.
Proof.
  destruct (assoc k definitions) as [n|] eqn:E.
  - rewrite (lookupName_found _ _ E). apply assoc_In in E.
    assert (Hall : forallb (fun kn => newlineFree (snd kn)) definitions = true)
      by (vm_compute; reflexivity).
    rewrite forallb_forall in Hall. exact (Hall _ E).
  - rewrite (lookupName_fallback _ E). reflexivity.
Qed.

Lemma parsed_newlineFree (klvString : jsstring) (e : KLVEntry) :
  In e (results (parse klvString)) ->
  newlineFree (key e) = true /\ newlineFree (name e) = true /\
  newlineFree (value e) = true /\ len e < 100 /\ length (key e) = 3 /\
  length (value e) = len e.
Proof.
  intros He. destruct (parse_spec klvString) as (q & Hfs & _).
  pose proof (Fields_each _ _ _ _ Hfs) as H1.
  pose proof (Fields_blankFree _ _ _ _ (blankFree_strip klvString) Hfs) as H3.
  rewrite Forall_forall in H1, H3.
  specialize (H1 e He). specialize (H3 e He). simpl in H3.
  destruct H1 as (_ & _ & Hlen & H100 & Hk & Hn).
  pose proof Hk as Hk'. apply testDigits_spec in Hk' as [Hk3 _].
  repeat split; try assumption.
  - apply newlineFree_digits. eapply testDigits_digits, Hk.
  - rewrite Hn. apply newlineFree_lookupName.
  - now apply newlineFree_blankFree.
Qed.

Lemma csvRow_newlineFree (klvString : jsstring) (e : KLVEntry) :
  In e (results (parse klvString)) -> newlineFree (csvRow e) = true.
Proof.
  intros He. destruct (parsed_newlineFree _ _ He) as (Hk & Hn & Hv & _).
  unfold csvRow. rewrite !newlineFree_app, Hk, Hn, Hv.
  rewrite !(newlineFree_digits _ (toString_digits _)). reflexivity.
Qed.

Lemma tableRow_newlineFree (klvString : jsstring) (e : KLVEntry) :
  In e (results (parse klvString)) -> newlineFree (tableRow e) = true.
Proof.
  intros He. destruct (parsed_newlineFree _ _ He) as (Hk & Hn & Hv & _).
  unfold tableRow, padEnd. rewrite !newlineFree_app, Hk, Hn, Hv.
  rewrite !(newlineFree_digits _ (toString_digits _)).
  rewrite !newlineFree_repeat. reflexivity.
Qed.

(** X11. One line for each entry. For a non-empty selection of the entries
    that [parse] returned, the tabular export splits at line feeds into
    the header line followed by one line for each entry, and the
    fixed-width export into one line for each entry, in the order given:
    no field of a parsed entry holds a line feed. *)
Theorem export_lines (stringify : list KLVEntry -> jsstring)
  (klvString : jsstring) (rs : list KLVEntry) :
  rs <> [] -> incl rs (results (parse klvString)) ->
  split 10%N (export stringify rs csv)
  = u "Key,Name,Length,Value,Position" :: map csvRow rs /\
  split 10%N (export stringify rs table) = map tableRow rs.
Proof.
  intros Hne Hincl. unfold export. cbv zeta. split.
  - replace ((u "Key,Name,Length,Value,Position" ++ newline)
             ++ join newline (map csvRow rs))
      with (join [10%N] (u "Key,Name,Length,Value,Position" :: map csvRow rs)).
    + apply split_join; [discriminate|].
      constructor.
      * apply newlineFree_spec. vm_compute. reflexivity.
      * apply Forall_forall. intros row Hrow.
        apply in_map_iff in Hrow as (e & <- & He).
        apply newlineFree_spec. eapply csvRow_newlineFree, Hincl, He.
    + destruct rs as [|e rs']; [contradiction|].
      cbn [map]. rewrite join_cons. now rewrite <- app_assoc.
  - apply split_join.
    + destruct rs; [contradiction | discriminate].
    + apply Forall_forall. intros row Hrow.
      apply in_map_iff in Hrow as (e & <- & He).
      apply newlineFree_spec. eapply tableRow_newlineFree, Hincl, He.
Qed.

Lemma export_lines_witness :
  [sampleSecond] <> [] /\
  incl [sampleSecond] (results (parse sampleKLV)) /\
  split 10%N (export noStringify [sampleSecond] csv)
  = u "Key,Name,Length,Value,Position" :: map csvRow [sampleSecond].
Proof.
  assert (H1 : [sampleSecond] <> []) by discriminate.
  assert (H2 : incl [sampleSecond] (results (parse sampleKLV))).
  { intros e [<-|[]]. vm_compute. right. left. reflexivity. }
  split; [exact H1|]. split; [exact H2|].
  exact (proj1 (export_lines noStringify sampleKLV [sampleSecond] H1 H2)).
Defined.

Lemma toString_short (n : nat) : n < 100 -> length (toString n) <= 2.
Proof.
  intros H.
  assert (Hall : forallb (fun n => length (toString n) <=? 2) (seq 0 100)
                 = true) by (vm_compute; reflexivity).
  rewrite forallb_forall in Hall. apply Nat.leb_le, Hall, in_seq. lia.
Qed.

(** X12. The width of a fixed-width line. For a parsed entry the key takes
    5 columns, the length 3, and the name 30 or, when it is longer, its
    own length, for nothing is ever cut: the line is 11 + max 30 |name| +
    len characters long, and the value starts in column 41 exactly when
    the name fits in its 30 columns, which not every name of the directory
    does. *)
Theorem tableRow_width (klvString : jsstring) (e : KLVEntry) :
  In e (results (parse klvString)) ->
  length (tableRow e) = 11 + Nat.max 30 (length (name e)) + len e /\
  (length (name e) <= 30 -> skipn 41 (tableRow e) = value e) /\
  (30 < length (name e) -> skipn 41 (tableRow e) <> value e) /\
  existsb (fun kn => 30 <? length (snd kn)) definitions = true.
Proof.
  intros He.
  destruct (parsed_newlineFree _ _ He) as (_ & _ & _ & H100 & Hk & Hv).
  pose proof (toString_short _ H100) as Hs.
  assert (Hlen : length (tableRow e)
                 = 11 + Nat.max 30 (length (name e)) + len e).
  { unfold tableRow, padEnd. rewrite !length_app, !repeat_length, Hk, Hv.
    simpl length. lia. }
  split; [exact Hlen|]. split; [|split].
  - intros Hn.
    set (prefix := padEnd (key e) 5 ++ u " " ++ padEnd (name e) 30 ++ u " "
                   ++ padEnd (toString (len e)) 3 ++ u " ").
    assert (Hp : length prefix = 41).
    { unfold prefix, padEnd. rewrite !length_app, !repeat_length, Hk.
      simpl length. lia. }
    replace (tableRow e) with (prefix ++ value e)
      by (unfold prefix, tableRow; now rewrite <- !app_assoc).
    rewrite skipn_app, Hp, Nat.sub_diag, skipn_all2 by lia. reflexivity.
  - intros Hn Heq. apply (f_equal (@length N)) in Heq.
    rewrite length_skipn, Hlen, Hv in Heq. lia.
  - vm_compute. reflexivity.
Qed.

Lemma tableRow_width_witness :
  In sampleFirst (results (parse sampleKLV)) /\
  length (tableRow sampleFirst) = 11 + Nat.max 30 (length (name sampleFirst))
                                  + len sampleFirst.
Proof.
  assert (H : In sampleFirst (results (parse sampleKLV)))
    by (vm_compute; left; reflexivity).
  split; [exact H|].
  exact (proj1 (tableRow_width sampleKLV sampleFirst H)).
Defined.

End ExportExtras.

Module StreamExtras.
Import JS KLVParser Spec JSMore Components MoreSpec JSFacts ParseFacts MoreFacts.
Import JSMoreFacts BatchExtras.

(** Fields read from the same place of the same buffer agree as far as
    both go; a run that ends where the loop halts is the longer one. *)
Lemma Fields_prefix clean p fs1 q1 :
  Fields clean p fs1 q1 ->
  forall fs2 q2 es,
    Fields clean p fs2 q2 -> Halt clean q2 es ->
    exists rest, fs2 = fs1 ++ rest.
Proof.
  induction 1 as [p|p n q1 fs1 Hk Hl Hn Hle Hfs IH]; intros fs2 q2 es H2 Hq.
  - exists fs2. reflexivity.
  - inversion H2 as [p'|p' n' q' fs' Hk' Hl' Hn' Hle' Hfs']; subst.
    + exfalso. inversion Hq as [Hend|Hlt H5|H5 Hbad|m H5 Hk' Hl' Hm Hv]; subst.
      * lia.
      * lia.
      * destruct Hbad; congruence.
      * assert (m = n) by congruence. subst m. lia.
    + assert (n' = n) by congruence. subst n'.
      destruct (IH _ _ _ Hfs' Hq) as (rest & ->).
      exists rest. reflexivity.
Qed.

(** X22. Entries never change once parsed: whatever is appended to an
    input, the entries that [parse] returned for it are the first entries
    that [parse] returns for the longer input. *)
Theorem parse_prefix_stable (a b : jsstring) :
  exists rest,
    results (parse (a ++ b)) = results (parse a) ++ rest.
Proof.
  destruct (parse_spec a) as (qa & Hfa & _).
  destruct (parse_spec (a ++ b)) as (q & Hf & Hq).
  unfold stripWhitespace in Hf, Hq. rewrite filter_app in Hf, Hq.
  apply (Fields_prefix _ _ _ _
           (Fields_app_l _ (stripWhitespace b) _ _ _ Hfa) _ _ _ Hf Hq).
Qed.

Lemma split_blank (s : jsstring) :
  forallb isWhitespace s = true ->
  Forall (fun l => forallb isWhitespace l = true) (split 10%N s).
Proof.
  induction s as [|c s IH]; intros H.
  - repeat constructor.
  - cbn [forallb] in H. apply andb_true_iff in H as [Hc Hs].
    specialize (IH Hs). cbn [split].
    destruct (N.eqb c 10); [constructor; [reflexivity | assumption]|].
    destruct (split 10%N s) as [|piece pieces].
    + repeat constructor. cbn [forallb]. now rewrite Hc.
    + inversion IH; subst. constructor; [|assumption].
      cbn [forallb]. now rewrite Hc.
Qed.

(** X23. A batch text of whitespace only, the empty text included, gives
    no result at all. *)
Theorem processBatch_blank (batchInput : jsstring) :
  forallb isWhitespace batchInput = true -> processBatch batchInput = [].
Proof.
  intros H. unfold processBatch, batchLines.
  replace (filter _ (split 10%N batchInput)) with (@nil jsstring);
    [reflexivity|].
  symmetry. pose proof (split_blank _ H) as Hall.
  induction Hall as [|l ls Hl _ IH]; [reflexivity|].
  cbn [filter]. apply trim_blank in Hl. rewrite Hl. exact IH.
Qed.

Lemma processBatch_blank_witness :
  forallb isWhitespace blankInput = true /\ processBatch blankInput = [].
Proof.
  assert (H : forallb isWhitespace blankInput = true)
    by (vm_compute; reflexivity).
  split; [exact H|].
  exact (processBatch_blank blankInput H).
Defined.

Lemma mapIndexed_nth {A B : Type} (f : A -> nat -> B) (xs : list A) :
  forall start j,
    nth_error (mapIndexed f start xs) j
    = option_map (fun x => f x (start + j)) (nth_error xs j).
Proof.
  induction xs as [|x xs IH]; intros start j.
  - now destruct j.
  - destruct j as [|j]; simpl.
    + now rewrite Nat.add_0_r.
    + rewrite IH. now replace (S start + j) with (start + S j) by lia.
Qed.

(** X24. [updateEntry] changes one field of one row. With an index among
    the rows it keeps their number, sets the field of the row at the index
    and leaves every other row as it was; with an index beyond the rows it
    throws, and the state stays as it was. *)
Theorem updateEntry_spec (entries : list KLVBuildEntry) (index : nat)
  (field : BuildField) (value : jsstring) :
  (index < length entries ->
   exists entries',
     updateEntry entries index field value = Some entries' /\
     length entries' = length entries /\
     nth_error entries' index
     = option_map (fun e => setField e field value) (nth_error entries index) /\
     (forall j, j <> index -> nth_error entries' j = nth_error entries j)) /\
  (length entries <= index ->
   updateEntry entries index field value = None /\
   builderStep entries (UpdateEntry index field value) = entries).
Proof.
  unfold builderStep, updateEntry. split.
  - intros Hi. destruct (nth_error entries index) as [e|] eqn:E.
    2:{ apply nth_error_None in E. lia. }
    eexists. split; [reflexivity|]. split; [apply mapIndexed_length|]. split.
    + rewrite mapIndexed_nth, E. simpl. now rewrite Nat.eqb_refl.
    + intros j Hj. rewrite mapIndexed_nth.
      destruct (nth_error entries j); [|reflexivity]. simpl.
      now replace (Nat.eqb j index) with false
        by (symmetry; apply Nat.eqb_neq; lia).
  - intros Hi. apply nth_error_None in Hi. now rewrite Hi.
Qed.

Lemma updateEntry_spec_witness :
  0 < length initialEntries /\
  exists entries',
    updateEntry initialEntries 0 FieldValue (u "AB48DE") = Some entries' /\
    length entries' = length initialEntries /\
    nth_error entries' 0
    = option_map (fun e => setField e FieldValue (u "AB48DE"))
        (nth_error initialEntries 0) /\
    (forall j, j <> 0 -> nth_error entries' j = nth_error initialEntries j).
Proof.
  assert (H : 0 < length initialEntries) by (simpl; lia).
  split; [exact H|].
  exact (proj1 (updateEntry_spec initialEntries 0 FieldValue (u "AB48DE")) H).
Defined.

End StreamExtras.

Module FlowExtras.
Import JS KLVParser Spec JSMore Components MoreSpec JSFacts ParseFacts Claims.
Import MoreFacts JSMoreFacts StatsExtras BuilderExtras.

Lemma isRegistered_digits (k : jsstring) :
  isRegistered k = true -> testDigits 3 k = true.
Proof.
  unfold isRegistered. destruct (assoc k definitions) eqn:E; [|discriminate].
  intros _. apply assoc_In in E.
  assert (Hall : forallb (fun kn => testDigits 3 (fst kn)) definitions = true)
    by (vm_compute; reflexivity).
  rewrite forallb_forall in Hall. exact (Hall _ E).
Qed.

Lemma build_filter (entries : list KLVBuildEntry) :
  build (filter kept entries) = build entries.
Proof.
  unfold build.
  change (fun entry => nonEmpty (build_key entry) && nonEmpty (build_value entry))
    with kept.
  f_equal. f_equal. induction entries as [|b bs IH]; [reflexivity|].
  cbn [filter]. destruct (kept b) eqn:E; [|exact IH].
  cbn [filter]. now rewrite E, IH.
Qed.

Lemma expected_named (entries : list KLVBuildEntry) :
  Forall (fun b => length (build_key b) = 3) entries ->
  forall off,
    map (fun e => (key e, name e, value e)) (expected off entries)
    = map (fun b => (build_key b, lookupName (build_key b), build_value b))
        entries.
Proof.
  induction 1 as [|b bs Hb _ IH]; intros off; [reflexivity|].
  cbn [expected map]. entry_simpl. rewrite IH.
  now rewrite padStart_full by lia.
Qed.

(** X25. From the builder to the extractor. When every row has a key of
    the directory and a value shorter than 100 characters without
    whitespace, the built string parses without error into one entry for
    each row whose value is not empty, in order, with the row's key, the
    directory's name for it and the row's value. *)
Theorem build_then_parse_named (entries : list KLVBuildEntry) :
  Forall (fun b => isRegistered (build_key b) = true /\
                   length (build_value b) < 100 /\
                   blankFree (build_value b) = true) entries ->
  errors (parse (build entries)) = [] /\
  map (fun e => (key e, name e, value e)) (results (parse (build entries)))
  = map (fun b => (build_key b, lookupName (build_key b), build_value b))
      (filter (fun b => nonEmpty (build_value b)) entries) /\
  isValid (validate (build entries)) = true.
Proof.
  intros Hall.
  assert (Hkept : filter kept entries
                  = filter (fun b => nonEmpty (build_value b)) entries).
  { apply filter_ext_in. intros b Hb. rewrite Forall_forall in Hall.
    destruct (Hall b Hb) as (Hr & _). unfold kept.
    now rewrite (isRegistered_nonEmpty _ Hr). }
  assert (Hgood : Forall (fun b => roundTripInput b = true /\
                                   blankFree (build_value b) = true)
                    (filter kept entries)).
  { apply Forall_forall. intros b Hb. apply filter_In in Hb as [Hin Hk].
    rewrite Forall_forall in Hall. destruct (Hall b Hin) as (Hr & Hlen & Hbf).
    split; [|assumption].
    apply isRegistered_digits in Hr. apply testDigits_spec in Hr as [H3 Hd].
    unfold kept in Hk. apply andb_true_iff in Hk as [Hk1 Hk2].
    unfold roundTripInput. rewrite Hk1, Hk2, H3. simpl.
    apply andb_true_iff. split; [|now apply Nat.ltb_lt].
    rewrite andb_true_r. apply forallb_forall. rewrite Forall_forall in Hd.
    exact Hd. }
  assert (E : parse (build entries)
              = mkParseResult (expected 0 (filter kept entries)) []).
  { rewrite <- build_filter. unfold parse.
    rewrite stripWhitespace_clean by (apply build_blankFree, Hgood).
    apply (parseLoop_build (filter kept entries)) with (pre := []) (rs := []).
    eapply Forall_impl; [|exact Hgood]. simpl. tauto. }
  unfold validate. rewrite E. simpl. split; [reflexivity|]. split; [|reflexivity].
  rewrite <- Hkept. apply expected_named.
  apply Forall_forall. intros b Hb. apply filter_In in Hb as [Hin _].
  rewrite Forall_forall in Hall. destruct (Hall b Hin) as (Hr & _).
  apply isRegistered_digits, testDigits_spec in Hr. tauto.
Qed.

Lemma build_then_parse_named_witness :
  Forall (fun b => isRegistered (build_key b) = true /\
                   length (build_value b) < 100 /\
                   blankFree (build_value b) = true)
    (builderRun sampleActions) /\
  map (fun e => (key e, name e, value e))
    (results (parse (build (builderRun sampleActions))))
  = map (fun b => (build_key b, lookupName (build_key b), build_value b))
      (filter (fun b => nonEmpty (build_value b)) (builderRun sampleActions)).
Proof.
  assert (H : Forall (fun b => isRegistered (build_key b) = true /\
                               length (build_value b) < 100 /\
                               blankFree (build_value b) = true)
                (builderRun sampleActions)).
  { vm_compute. repeat constructor. }
  split; [exact H|].
  exact (proj1 (proj2 (build_then_parse_named _ H))).
Defined.

End FlowExtras.
